(** * Scheduling and settlement engine of fin2couple-api

    A shallow embedding of the recurring-occurrence and installment code
    (entities, repositories, use cases and the two skip endpoints) together
    with the properties stated about it.

    Conventions of the embedding.
    - A JavaScript [Date] is its time value, a [Z] number of milliseconds
      since the epoch.  The host time zone is UTC (local time = UTC), which
      is what the entity tests assume when they expect
      [new Date('2024-02-01').getMonth()] to be [1]. Invalid dates (NaN) and
      the +-8.64e15 range limit are not modelled.
    - A JavaScript [number] holding money is an IEEE binary64 [float];
      counters, intervals and calendar fields are integers ([Z]).
    - [throw new Error(msg)] is the result [Throw msg]; the effects done
      before a throw stay in the world.
    - [new Date()] reads the clock of the world and [crypto.randomUUID()]
      draws the next identifier of the world's stream; the clock does not
      move during a request.
    - A database table is the list of its rows; a row is kept as the entity
      it maps to, and reading it runs the entity's constructor again, as
      the mappers do.
    - The model of a [while] loop takes the number of iterations it may
      follow ([fuel]) and answers [None] when they did not end the loop. *)

From Stdlib Require Import ZArith QArith Qround Floats Uint63 Lia List Ascii String.
From Stdlib Require Import DecimalString.
From stdpp Require Import base gmap strings list sorting.

Local Open Scope Z_scope.

(** ** ECMAScript time values (ECMA-262, section "Date Objects") *)

Module JSDate.

Definition msPerDay : Z := 86400000.

Definition Day (t : Z) : Z := t / msPerDay.

Definition TimeWithinDay (t : Z) : Z := t mod msPerDay.

Definition DayFromYear (y : Z) : Z :=
  365 * (y - 1970) + (y - 1969) / 4 - (y - 1901) / 100 + (y - 1601) / 400.

Definition leapYear (y : Z) : bool :=
  if negb (y mod 4 =? 0) then false
  else if negb (y mod 100 =? 0) then true
  else (y mod 400 =? 0).

Definition DaysInYear (y : Z) : Z := if leapYear y then 366 else 365.

(** The largest [y] with [DayFromYear y <= d]: an estimate from the mean
    length of a year, corrected by at most one year either way. *)
Definition YearFromDay (d : Z) : Z :=
  let y0 := 1970 + (d * 400) / 146097 in
  if d <? DayFromYear y0 then y0 - 1
  else if DayFromYear (y0 + 1) <=? d then y0 + 1
  else y0.

Definition YearFromTime (t : Z) : Z := YearFromDay (Day t).

Definition InLeapYear (t : Z) : bool := leapYear (YearFromTime t).

Definition DayWithinYear (t : Z) : Z := Day t - DayFromYear (YearFromTime t).

(** Number of days of the year before month [m] (0 = January). *)
Definition daysBeforeMonth (leap : bool) (m : Z) : Z :=
  let l := if leap then 1 else 0 in
  if m <=? 0 then 0
  else if m =? 1 then 31
  else if m =? 2 then 59 + l
  else if m =? 3 then 90 + l
  else if m =? 4 then 120 + l
  else if m =? 5 then 151 + l
  else if m =? 6 then 181 + l
  else if m =? 7 then 212 + l
  else if m =? 8 then 243 + l
  else if m =? 9 then 273 + l
  else if m =? 10 then 304 + l
  else 334 + l.

Definition MonthFromTime (t : Z) : Z :=
  let d := DayWithinYear t in
  let l := if InLeapYear t then 1 else 0 in
  if d <? 31 then 0
  else if d <? 59 + l then 1
  else if d <? 90 + l then 2
  else if d <? 120 + l then 3
  else if d <? 151 + l then 4
  else if d <? 181 + l then 5
  else if d <? 212 + l then 6
  else if d <? 243 + l then 7
  else if d <? 273 + l then 8
  else if d <? 304 + l then 9
  else if d <? 334 + l then 10
  else 11.

Definition DateFromTime (t : Z) : Z :=
  DayWithinYear t - daysBeforeMonth (InLeapYear t) (MonthFromTime t) + 1.

(** [MakeDay(year, month, date)]: months outside 0..11 carry into the
    year, dates outside the month carry into the neighbouring months. *)
Definition MakeDay (year month date : Z) : Z :=
  let ym := year + month / 12 in
  let mn := month mod 12 in
  DayFromYear ym + daysBeforeMonth (leapYear ym) mn + date - 1.

Definition MakeDate (day time : Z) : Z := day * msPerDay + time.

(** Getters and setters of [Date.prototype], in local time (= UTC). *)
Definition getFullYear (t : Z) : Z := YearFromTime t.
Definition getMonth (t : Z) : Z := MonthFromTime t.
Definition getDate (t : Z) : Z := DateFromTime t.

(** [d.setHours(0, 0, 0, 0)] *)
Definition setHours0 (t : Z) : Z := MakeDate (Day t) 0.

Definition setDate (t date : Z) : Z :=
  MakeDate (MakeDay (YearFromTime t) (MonthFromTime t) date) (TimeWithinDay t).

Definition setMonth (t month : Z) : Z :=
  MakeDate (MakeDay (YearFromTime t) month (DateFromTime t)) (TimeWithinDay t).

Definition setFullYear (t year : Z) : Z :=
  MakeDate (MakeDay year (MonthFromTime t) (DateFromTime t)) (TimeWithinDay t).

(** [Date.UTC(y, m - 1, d)]: midnight UTC of a calendar day, the month
    counted from 1 as in an ISO date; used to write dates in examples. *)
Definition ymd (y m d : Z) : Z := MakeDate (MakeDay y (m - 1) d) 0.

(** Decimal digits, for [toISOString]. *)
Definition digit (n : Z) : string :=
  String (Ascii.ascii_of_nat (48 + Z.to_nat (n mod 10))) EmptyString.

Fixpoint pad (width : nat) (n : Z) : string :=
  match width with
  | O => EmptyString
  | S w => String.append (pad w (n / 10)) (digit n)
  end.

Definition isoYear (y : Z) : string :=
  if (0 <=? y) && (y <=? 9999) then pad 4 y
  else if y <? 0 then String.append "-" (pad 6 (- y))
  else String.append "+" (pad 6 y).

(** [d.toISOString().split('T')[0]]: the calendar date in UTC. *)
Definition toISODate (t : Z) : string :=
  String.append (isoYear (YearFromTime t))
    (String.append "-"
       (String.append (pad 2 (MonthFromTime t + 1))
          (String.append "-" (pad 2 (DateFromTime t))))).

End JSDate.

(** ** JavaScript numbers holding money (IEEE binary64) *)

Module JSNumber.

Local Open Scope float_scope.

Definition two52 : float := 4503599627370496.

(** Nearest integer, ties to even, for [|x| < 2^52]. *)
Definition rint (x : float) : float :=
  if 0 <=? x then (x + two52) - two52 else (x - two52) + two52.

Definition floor (x : float) : float :=
  let r := rint x in if x <? r then r - 1 else r.

(** [Math.round(x)]: the nearest integer, ties towards +infinity. A
    binary64 of magnitude at least 2^52 is already an integer. The sign
    of a zero result is not modelled ([Math.round(-0.2)] is [-0]). *)
Definition Math_round (x : float) : float :=
  if two52 <=? abs x then x
  else let f := floor x in if 0.5 <=? x - f then f + 1 else f.

(** [Math.round(x * 100) / 100] *)
Definition round2 (x : float) : float := Math_round (x * 100) / 100.

(** An integer count as a number (exact for [0 <= n < 2^53]). *)
Definition of_Z (n : Z) : float := PrimFloat.of_uint63 (Uint63.of_Z n).

End JSNumber.

(** ** Results of calls that can throw *)

Inductive result (A : Type) : Type :=
| Ok (a : A)
| Throw (msg : string).

Arguments Ok {A} a.
Arguments Throw {A} msg.

Definition isOk {A} (r : result A) : bool :=
  match r with Ok _ => true | Throw _ => false end.

(** ** zod string checks *)

Module Zod.

Definition is_hex (c : Ascii.ascii) : bool :=
  let n := Ascii.nat_of_ascii c in
  ((48 <=? n) && (n <=? 57) || (65 <=? n) && (n <=? 70)
   || (97 <=? n) && (n <=? 102))%nat.

(** Consume [n] hexadecimal digits. *)
Fixpoint hexes (n : nat) (s : string) : option string :=
  match n with
  | O => Some s
  | S k =>
      match s with
      | String c r => if is_hex c then hexes k r else None
      | EmptyString => None
      end
  end.

Definition dash (s : string) : option string :=
  match s with
  | String c r => if Ascii.eqb c "-"%char then Some r else None
  | EmptyString => None
  end.

Definition andThen (o : option string) (f : string -> option string)
  : option string :=
  match o with Some s => f s | None => None end.

(** [z.string().uuid()]: 8-4-4-4-12 hexadecimal digits. *)
Definition is_uuid (s : string) : bool :=
  match
    andThen (andThen (andThen (andThen (andThen (andThen (andThen (andThen
      (hexes 8 s) dash) (hexes 4)) dash) (hexes 4)) dash) (hexes 4)) dash)
      (hexes 12)
  with
  | Some EmptyString => true
  | _ => false
  end.

Definition opt_uuid (o : option string) : bool :=
  match o with Some s => is_uuid s | None => true end.

End Zod.

(** ** Enumerations *)

Inductive OccurrenceStatus : Set := PENDING | PAID | SKIPPED.

Inductive TransactionType : Set := INCOME | EXPENSE | ADJUSTMENT.

Inductive TransactionVisibility : Set := SHARED | PRIVATE.

Inductive RecurrenceFrequency : Set := DAILY | WEEKLY | MONTHLY | YEARLY.

Definition status_eqb (a b : OccurrenceStatus) : bool :=
  match a, b with
  | PENDING, PENDING | PAID, PAID | SKIPPED, SKIPPED => true
  | _, _ => false
  end.

(** [a ?? b] *)
Definition nullish {A} (a : option A) (b : A) : A :=
  match a with Some x => x | None => b end.

(** A property that can be absent, [null] or a value. *)
Inductive jsopt (A : Type) : Type :=
| undefined
| null
| value (a : A).

Arguments undefined {A}.
Arguments null {A}.
Arguments value {A} a.

(** [a ?? null], as an [option]. *)
Definition nullish_null {A} (a : jsopt A) : option A :=
  match a with value x => Some x | _ => None end.

Definition is_null {A} (a : jsopt A) : bool :=
  match a with null => true | _ => false end.

(** ** Entities

    A zod schema failure is the [Throw] of its first issue, in the order
    of the schema's fields. Constructors take the identifier that
    [crypto.randomUUID()] would return and the clock reading of
    [new Date()] as arguments; they use them only for absent fields. *)

Module Installment.

Record Props : Type := mkProps {
  p_id : option string;
  p_template_id : string;
  p_installment_number : Z;
  p_amount : float;
  p_due_date : Z;
  p_status : option OccurrenceStatus;
  p_transaction_id : option string;
  p_created_at : option Z;
  p_updated_at : option Z
}.

Record t : Type := mk {
  id : string;
  template_id : string;
  installment_number : Z;
  amount : float;
  due_date : Z;
  status : OccurrenceStatus;
  transaction_id : option string;
  created_at : Z;
  updated_at : Z
}.

Definition validate (props : Props) : result Props :=
  if negb (Zod.opt_uuid (p_id props)) then Throw "Invalid uuid"
  else if negb (Zod.is_uuid (p_template_id props))
  then Throw "Template ID must be a valid UUID"
  else if negb (0 <? p_installment_number props)
  then Throw "Installment number must be positive"
  else if negb (0 <? p_amount props)%float
  then Throw "Amount must be positive"
  else if negb (Zod.opt_uuid (p_transaction_id props)) then Throw "Invalid uuid"
  else Ok props.

(** [new Installment(props)] *)
Definition new (uuid : string) (now : Z) (props : Props) : result t :=
  match validate props with
  | Throw msg => Throw msg
  | Ok validated =>
      Ok {| id := nullish (p_id validated) uuid;
            template_id := p_template_id validated;
            installment_number := p_installment_number validated;
            amount := p_amount validated;
            due_date := p_due_date validated;
            status := nullish (p_status validated) PENDING;
            transaction_id := p_transaction_id validated;
            created_at := nullish (p_created_at validated) now;
            updated_at := nullish (p_updated_at validated) now |}
  end.

(** [Installment.create({template_id, installment_number, amount, due_date})],
    as the generators call it. *)
Definition create (uuid : string) (now : Z)
    (template_id : string) (installment_number : Z) (amount : float)
    (due_date : Z) : result t :=
  new uuid now
    {| p_id := None; p_template_id := template_id;
       p_installment_number := installment_number; p_amount := amount;
       p_due_date := due_date; p_status := None; p_transaction_id := None;
       p_created_at := None; p_updated_at := None |}.

Definition isPending (i : t) : bool := status_eqb (status i) PENDING.
Definition isPaid (i : t) : bool := status_eqb (status i) PAID.
Definition isSkipped (i : t) : bool := status_eqb (status i) SKIPPED.

Definition isOverdue (now : Z) (i : t) : bool :=
  let today := JSDate.setHours0 now in
  let dueDate := JSDate.setHours0 (due_date i) in
  let thirtyDaysAgo := JSDate.setDate today (JSDate.getDate today - 30) in
  dueDate <? thirtyDaysAgo.

Definition canBePaid (now : Z) (i : t) : bool :=
  isPending i && negb (isOverdue now i).

Definition canBeSkipped (i : t) : bool := isPending i.

Definition isDue (now : Z) (i : t) : bool :=
  let today := JSDate.setHours0 now in
  let dueDate := JSDate.setHours0 (due_date i) in
  (dueDate <=? today) && isPending i.

Definition set_status (s : OccurrenceStatus) (tx : option string) (i : t) : t :=
  {| id := id i; template_id := template_id i;
     installment_number := installment_number i; amount := amount i;
     due_date := due_date i; status := s; transaction_id := tx;
     created_at := created_at i; updated_at := updated_at i |}.

Definition markAsPaid (transactionId : string) (i : t) : result t :=
  if negb (isPending i)
  then Throw "Only pending installments can be marked as paid"
  else if String.eqb transactionId ""
  then Throw "Transaction ID is required to mark as paid"
  else Ok (set_status PAID (Some transactionId) i).

Definition markAsSkipped (i : t) : result t :=
  if negb (isPending i)
  then Throw "Only pending installments can be skipped"
  else Ok (set_status SKIPPED (transaction_id i) i).

(** The properties a stored row hands back to the constructor
    ([PrismaInstallmentMapper.toDomain]). *)
Definition toProps (i : t) : Props :=
  {| p_id := Some (id i); p_template_id := template_id i;
     p_installment_number := installment_number i; p_amount := amount i;
     p_due_date := due_date i; p_status := Some (status i);
     p_transaction_id := transaction_id i;
     p_created_at := Some (created_at i); p_updated_at := Some (updated_at i) |}.

End Installment.

Module RecurringOccurrence.

Record Props : Type := mkProps {
  p_id : option string;
  p_template_id : string;
  p_due_date : Z;
  p_status : option OccurrenceStatus;
  p_transaction_id : option string;
  p_created_at : option Z;
  p_updated_at : option Z
}.

Record t : Type := mk {
  id : string;
  template_id : string;
  due_date : Z;
  status : OccurrenceStatus;
  transaction_id : option string;
  created_at : Z;
  updated_at : Z
}.

Definition validate (props : Props) : result Props :=
  if negb (Zod.opt_uuid (p_id props)) then Throw "Invalid uuid"
  else if negb (Zod.is_uuid (p_template_id props))
  then Throw "Template ID must be a valid UUID"
  else if negb (Zod.opt_uuid (p_transaction_id props)) then Throw "Invalid uuid"
  else Ok props.

(** [new RecurringOccurrence(props)] *)
Definition new (uuid : string) (now : Z) (props : Props) : result t :=
  match validate props with
  | Throw msg => Throw msg
  | Ok validated =>
      Ok {| id := nullish (p_id validated) uuid;
            template_id := p_template_id validated;
            due_date := p_due_date validated;
            status := nullish (p_status validated) PENDING;
            transaction_id := p_transaction_id validated;
            created_at := nullish (p_created_at validated) now;
            updated_at := nullish (p_updated_at validated) now |}
  end.

(** [RecurringOccurrence.create({template_id, due_date})], as the
    generators call it. *)
Definition create (uuid : string) (now : Z) (template_id : string)
    (due_date : Z) : result t :=
  new uuid now
    {| p_id := None; p_template_id := template_id; p_due_date := due_date;
       p_status := None; p_transaction_id := None;
       p_created_at := None; p_updated_at := None |}.

Definition isPending (o : t) : bool := status_eqb (status o) PENDING.
Definition isPaid (o : t) : bool := status_eqb (status o) PAID.
Definition isSkipped (o : t) : bool := status_eqb (status o) SKIPPED.

Definition isOverdue (now : Z) (o : t) : bool :=
  let today := JSDate.setHours0 now in
  let dueDate := JSDate.setHours0 (due_date o) in
  let thirtyDaysAgo := JSDate.setDate today (JSDate.getDate today - 30) in
  dueDate <? thirtyDaysAgo.

Definition canBePaid (now : Z) (o : t) : bool :=
  isPending o && negb (isOverdue now o).

Definition canBeSkipped (o : t) : bool := isPending o.

Definition set_status (s : OccurrenceStatus) (tx : option string) (o : t) : t :=
  {| id := id o; template_id := template_id o; due_date := due_date o;
     status := s; transaction_id := tx;
     created_at := created_at o; updated_at := updated_at o |}.

Definition markAsPaid (transactionId : string) (o : t) : result t :=
  if negb (isPending o)
  then Throw "Only pending occurrences can be marked as paid"
  else if String.eqb transactionId ""
  then Throw "Transaction ID is required to mark as paid"
  else Ok (set_status PAID (Some transactionId) o).

Definition markAsSkipped (o : t) : result t :=
  if negb (isPending o)
  then Throw "Only pending occurrences can be skipped"
  else Ok (set_status SKIPPED (transaction_id o) o).

(** [PrismaRecurringOccurrenceMapper.toDomain] hands these to the
    constructor. *)
Definition toProps (o : t) : Props :=
  {| p_id := Some (id o); p_template_id := template_id o;
     p_due_date := due_date o; p_status := Some (status o);
     p_transaction_id := transaction_id o;
     p_created_at := Some (created_at o); p_updated_at := Some (updated_at o) |}.

End RecurringOccurrence.

Module InstallmentTemplate.

Record Props : Type := mkProps {
  p_id : option string;
  p_couple_id : string;
  p_description : jsopt string;
  p_total_amount : float;
  p_total_installments : Z;
  p_paid_by_id : string;
  p_account_id : string;
  p_category_id : jsopt string;
  p_is_couple_expense : option bool;
  p_is_free_spending : option bool;
  p_visibility : TransactionVisibility;
  p_first_due_date : Z;
  p_is_active : option bool;
  p_created_at : option Z;
  p_updated_at : option Z
}.

Record t : Type := mk {
  id : string;
  couple_id : string;
  description : option string;
  total_amount : float;
  total_installments : Z;
  paid_by_id : string;
  account_id : string;
  category_id : option string;
  is_couple_expense : bool;
  is_free_spending : bool;
  visibility : TransactionVisibility;
  first_due_date : Z;
  is_active : bool;
  created_at : Z;
  updated_at : Z
}.

Definition validate (props : Props) : result Props :=
  if negb (Zod.opt_uuid (p_id props)) then Throw "Invalid uuid"
  else if negb (Zod.is_uuid (p_couple_id props))
  then Throw "Couple ID must be a valid UUID"
  else if is_null (p_description props)
  then Throw "Expected string, received null"
  else if negb (0 <? p_total_amount props)%float
  then Throw "Total amount must be positive"
  else if p_total_installments props <? 2
  then Throw "Minimum 2 installments required"
  else if 120 <? p_total_installments props
  then Throw "Maximum 120 installments allowed"
  else if negb (Zod.is_uuid (p_paid_by_id props))
  then Throw "Paid by ID must be a valid UUID"
  else if negb (Zod.is_uuid (p_account_id props))
  then Throw "Account ID must be a valid UUID"
  else if is_null (p_category_id props)
  then Throw "Expected string, received null"
  else if negb (Zod.opt_uuid (nullish_null (p_category_id props)))
  then Throw "Invalid uuid"
  else Ok props.

(** [new InstallmentTemplate(props)] *)
Definition new (uuid : string) (now : Z) (props : Props) : result t :=
  match validate props with
  | Throw msg => Throw msg
  | Ok validated =>
      Ok {| id := nullish (p_id validated) uuid;
            couple_id := p_couple_id validated;
            description := nullish_null (p_description validated);
            total_amount := p_total_amount validated;
            total_installments := p_total_installments validated;
            paid_by_id := p_paid_by_id validated;
            account_id := p_account_id validated;
            category_id := nullish_null (p_category_id validated);
            is_couple_expense := nullish (p_is_couple_expense validated) false;
            is_free_spending := nullish (p_is_free_spending validated) false;
            visibility := p_visibility validated;
            first_due_date := p_first_due_date validated;
            is_active := nullish (p_is_active validated) true;
            created_at := nullish (p_created_at validated) now;
            updated_at := nullish (p_updated_at validated) now |}
  end.

Definition getInstallmentAmount (tpl : t) : float :=
  (total_amount tpl / JSNumber.of_Z (total_installments tpl))%float.

Definition calculateDueDate (tpl : t) (installmentNumber : Z) : result Z :=
  if (installmentNumber <? 1) || (total_installments tpl <? installmentNumber)
  then Throw "Invalid installment number"
  else
    let dueDate := first_due_date tpl in
    Ok (JSDate.setMonth dueDate (JSDate.getMonth dueDate + (installmentNumber - 1))).

Definition isActive (tpl : t) : bool := is_active tpl.

Definition canBeDeactivated (tpl : t) : bool := is_active tpl.

Definition canBeActivated (tpl : t) : bool := negb (is_active tpl).

(** The assignment [this._is_active = b]. *)
Definition set_is_active (b : bool) (tpl : t) : t :=
  {| id := id tpl; couple_id := couple_id tpl; description := description tpl;
     total_amount := total_amount tpl;
     total_installments := total_installments tpl;
     paid_by_id := paid_by_id tpl; account_id := account_id tpl;
     category_id := category_id tpl;
     is_couple_expense := is_couple_expense tpl;
     is_free_spending := is_free_spending tpl; visibility := visibility tpl;
     first_due_date := first_due_date tpl; is_active := b;
     created_at := created_at tpl; updated_at := updated_at tpl |}.

Definition deactivate (tpl : t) : result t :=
  if negb (canBeDeactivated tpl) then Throw "Template is already inactive"
  else Ok (set_is_active false tpl).

Definition activate (tpl : t) : result t :=
  if negb (canBeActivated tpl) then Throw "Template is already active"
  else Ok (set_is_active true tpl).

End InstallmentTemplate.

Module RecurringTransactionTemplate.

(** Modelled from the spec: the recurring template entity
    (recurring-transaction-template.entity.ts is not part of the sources at
    hand). It carries the transaction shape, the recurrence rule
    (frequency, interval of at least 1, start date, optional end date),
    the cursor [next_occurrence] and the [is_active] flag; these are the
    fields the use cases read. *)
Record t : Type := mk {
  id : string;
  couple_id : string;
  type : TransactionType;
  amount : float;
  description : option string;
  paid_by_id : string;
  account_id : string;
  is_couple_expense : bool;
  is_free_spending : bool;
  visibility : TransactionVisibility;
  category : option string;
  frequency : RecurrenceFrequency;
  interval : Z;
  start_date : Z;
  end_date : option Z;
  next_occurrence : Z;
  is_active : bool
}.

(** Modelled from the spec: what every stored recurring template
    satisfies, an identifier that is a UUID and an interval of at least 1. *)
Definition wf (tpl : t) : bool := Zod.is_uuid (id tpl) && (1 <=? interval tpl).

End RecurringTransactionTemplate.

Module Transaction.

(** Modelled from the spec: the ledger transaction
    (transaction.entity.ts is not part of the sources at hand): the fields
    the use cases pass to [new Transaction({...})]. *)
Record Props : Type := mkProps {
  p_couple_id : string;
  p_type : TransactionType;
  p_amount : float;
  p_description : string;
  p_paid_by_id : string;
  p_account_id : string;
  p_is_couple_expense : bool;
  p_is_free_spending : bool;
  p_visibility : TransactionVisibility;
  p_category : option string;
  p_transaction_date : Z;
  p_installment_group_id : option string;
  p_installment_number : option Z;
  p_total_installments : option Z;
  p_recurring_template_id : option string
}.

(** Modelled from the spec: a transaction is its properties and the
    identifier it is given when it is created. *)
Record t : Type := mk {
  id : string;
  props : Props
}.

Definition amount (tx : t) : float := p_amount (props tx).
Definition transaction_date (tx : t) : Z := p_transaction_date (props tx).

End Transaction.

Module Account.

(** Modelled from the spec: an account as the use cases read it, its
    identifier and its owner ([None] for a joint account). *)
Record t : Type := mk {
  id : string;
  owner_id : option string
}.

End Account.

(** ** The world: clock, identifier stream, tenant and database tables

    [tenant] is the couple of the request ([PrismaTenantService.getCoupleId]).
    A table is the list of its rows in insertion order; the database gives
    a row its [created_at] when it is inserted, so insertion order is the
    order of [created_at]. *)

Record World : Type := mkWorld {
  now : Z;
  uuids : nat -> string;
  rng : nat;
  tenant : string;
  installments : list Installment.t;
  occurrences : list RecurringOccurrence.t;
  installmentTemplates : list InstallmentTemplate.t;
  recurringTemplates : list RecurringTransactionTemplate.t;
  transactions : list Transaction.t;
  accounts : list Account.t
}.

Definition M (A : Type) : Type := World -> result A * World.

Definition ret {A} (a : A) : M A := fun w => (Ok a, w).

Definition throw {A} (msg : string) : M A := fun w => (Throw msg, w).

Definition bind {A B} (c : M A) (k : A -> M B) : M B :=
  fun w =>
    match c w with
    | (Ok a, w') => k a w'
    | (Throw msg, w') => (Throw msg, w')
    end.

Notation "'let*' x ':=' c 'in' k" := (bind c (fun x => k))
  (at level 10, x name, c at level 100, k at level 200).

Definition lift {A} (r : result A) : M A := fun w => (r, w).

(** [new Date()] *)
Definition newDate : M Z := fun w => (Ok (now w), w).

(** [crypto.randomUUID()] *)
Definition randomUUID : M string :=
  fun w =>
    (Ok (uuids w (rng w)),
     {| now := now w; uuids := uuids w; rng := S (rng w); tenant := tenant w;
        installments := installments w; occurrences := occurrences w;
        installmentTemplates := installmentTemplates w;
        recurringTemplates := recurringTemplates w;
        transactions := transactions w; accounts := accounts w |}).

Definition set_installments (l : list Installment.t) (w : World) : World :=
  {| now := now w; uuids := uuids w; rng := rng w; tenant := tenant w;
     installments := l; occurrences := occurrences w;
     installmentTemplates := installmentTemplates w;
     recurringTemplates := recurringTemplates w;
     transactions := transactions w; accounts := accounts w |}.

Definition set_occurrences (l : list RecurringOccurrence.t) (w : World) : World :=
  {| now := now w; uuids := uuids w; rng := rng w; tenant := tenant w;
     installments := installments w; occurrences := l;
     installmentTemplates := installmentTemplates w;
     recurringTemplates := recurringTemplates w;
     transactions := transactions w; accounts := accounts w |}.

Definition set_installmentTemplates (l : list InstallmentTemplate.t)
    (w : World) : World :=
  {| now := now w; uuids := uuids w; rng := rng w; tenant := tenant w;
     installments := installments w; occurrences := occurrences w;
     installmentTemplates := l;
     recurringTemplates := recurringTemplates w;
     transactions := transactions w; accounts := accounts w |}.

Definition set_recurringTemplates (l : list RecurringTransactionTemplate.t)
    (w : World) : World :=
  {| now := now w; uuids := uuids w; rng := rng w; tenant := tenant w;
     installments := installments w; occurrences := occurrences w;
     installmentTemplates := installmentTemplates w;
     recurringTemplates := l;
     transactions := transactions w; accounts := accounts w |}.

Definition set_transactions (l : list Transaction.t) (w : World) : World :=
  {| now := now w; uuids := uuids w; rng := rng w; tenant := tenant w;
     installments := installments w; occurrences := occurrences w;
     installmentTemplates := installmentTemplates w;
     recurringTemplates := recurringTemplates w;
     transactions := l; accounts := accounts w |}.

(** Sequencing over a list, stopping at the first throw. *)
Fixpoint traverseM {A B} (f : A -> M B) (l : list A) : M (list B) :=
  match l with
  | [] => ret []
  | x :: r => let* y := f x in let* ys := traverseM f r in ret (y :: ys)
  end.

(** ** Mappers and repositories *)

Module PrismaInstallmentMapper.

(** Every property is present in a row, so the constructor draws no
    identifier and reads no clock. *)
Definition toDomain (row : Installment.t) : M Installment.t :=
  lift (Installment.new "" 0 (Installment.toProps row)).

End PrismaInstallmentMapper.

Module PrismaRecurringOccurrenceMapper.

Definition toDomain (row : RecurringOccurrence.t) : M RecurringOccurrence.t :=
  lift (RecurringOccurrence.new "" 0 (RecurringOccurrence.toProps row)).

End PrismaRecurringOccurrenceMapper.

Module PrismaInstallmentTemplateMapper.

Definition of_column {A} (c : option A) : jsopt A :=
  match c with Some x => value x | None => null end.

(** A NULL column reaches the constructor as [null]. *)
Definition toDomain (row : InstallmentTemplate.t) : M InstallmentTemplate.t :=
  lift (InstallmentTemplate.new "" 0
    {| InstallmentTemplate.p_id := Some (InstallmentTemplate.id row);
       InstallmentTemplate.p_couple_id := InstallmentTemplate.couple_id row;
       InstallmentTemplate.p_description :=
         of_column (InstallmentTemplate.description row);
       InstallmentTemplate.p_total_amount := InstallmentTemplate.total_amount row;
       InstallmentTemplate.p_total_installments :=
         InstallmentTemplate.total_installments row;
       InstallmentTemplate.p_paid_by_id := InstallmentTemplate.paid_by_id row;
       InstallmentTemplate.p_account_id := InstallmentTemplate.account_id row;
       InstallmentTemplate.p_category_id :=
         of_column (InstallmentTemplate.category_id row);
       InstallmentTemplate.p_is_couple_expense :=
         Some (InstallmentTemplate.is_couple_expense row);
       InstallmentTemplate.p_is_free_spending :=
         Some (InstallmentTemplate.is_free_spending row);
       InstallmentTemplate.p_visibility := InstallmentTemplate.visibility row;
       InstallmentTemplate.p_first_due_date :=
         InstallmentTemplate.first_due_date row;
       InstallmentTemplate.p_is_active := Some (InstallmentTemplate.is_active row);
       InstallmentTemplate.p_created_at := Some (InstallmentTemplate.created_at row);
       InstallmentTemplate.p_updated_at := Some (InstallmentTemplate.updated_at row)
    |}).

End PrismaInstallmentTemplateMapper.

(** [prisma.<table>.update({where: {id}, data})] on the rows of a table;
    Prisma throws when no row matches. *)
Definition updateWhere {A} (p : A -> bool) (f : A -> A) (rows : list A)
  : result (list A) :=
  if existsb p rows
  then Ok (map (fun r => if p r then f r else r) rows)
  else Throw "Record to update not found.".

Module PrismaInstallmentRepository.

Definition findById (id : string) : M (option Installment.t) :=
  fun w =>
    match find (fun r => String.eqb (Installment.id r) id) (installments w) with
    | Some row =>
        (let* i := PrismaInstallmentMapper.toDomain row in ret (Some i)) w
    | None => (Ok None, w)
    end.

(** The read-back takes the newest [length batch] rows of the batch's
    templates, newest first. *)
Definition createMany (batch : list Installment.t) : M (list Installment.t) :=
  fun w =>
    let w' := set_installments (installments w ++ batch) w in
    let templateIds := map Installment.template_id batch in
    let created :=
      take (length batch)
        (rev (filter (fun r => Installment.template_id r ∈ templateIds)
                (installments w'))) in
    traverseM PrismaInstallmentMapper.toDomain created w'.

Definition markAsPaid (id transactionId : string) : M unit :=
  fun w =>
    match
      updateWhere (fun r => String.eqb (Installment.id r) id)
        (Installment.set_status PAID (Some transactionId)) (installments w)
    with
    | Ok rows => (Ok tt, set_installments rows w)
    | Throw msg => (Throw msg, w)
    end.

(** Only the status column is written. *)
Definition markAsSkipped (id : string) : M unit :=
  fun w =>
    match
      updateWhere (fun r => String.eqb (Installment.id r) id)
        (fun r => Installment.set_status SKIPPED (Installment.transaction_id r) r)
        (installments w)
    with
    | Ok rows => (Ok tt, set_installments rows w)
    | Throw msg => (Throw msg, w)
    end.

(** [orderBy: { installment_number: 'asc' }] and [orderBy: { due_date: 'asc' }] *)
Definition byNumber (a b : Installment.t) : Prop :=
  Installment.installment_number a <= Installment.installment_number b.

#[global] Instance byNumber_dec a b : Decision (byNumber a b) :=
  Z.le_dec _ _.

Definition byDueDate (a b : Installment.t) : Prop :=
  Installment.due_date a <= Installment.due_date b.

#[global] Instance byDueDate_dec a b : Decision (byDueDate a b) :=
  Z.le_dec _ _.

(** [prisma.installment.findMany({where, orderBy})] followed by
    [.map(PrismaInstallmentMapper.toDomain)]. *)
Definition findMany (where_ : Installment.t -> bool)
    (orderBy : Installment.t -> Installment.t -> Prop)
    `{!forall a b, Decision (orderBy a b)} : M (list Installment.t) :=
  fun w =>
    traverseM PrismaInstallmentMapper.toDomain
      (merge_sort orderBy (List.filter where_ (installments w))) w.

Definition findByTemplateId (templateId : string) : M (list Installment.t) :=
  findMany (fun r => String.eqb (Installment.template_id r) templateId) byNumber.

Definition findPendingByTemplateId (templateId : string)
  : M (list Installment.t) :=
  findMany
    (fun r => String.eqb (Installment.template_id r) templateId
              && status_eqb (Installment.status r) PENDING)
    byNumber.

Definition findByStatus (templateId : string) (status : OccurrenceStatus)
  : M (list Installment.t) :=
  findMany
    (fun r => String.eqb (Installment.template_id r) templateId
              && status_eqb (Installment.status r) status)
    byNumber.

Definition findDueInstallments (startDate endDate : Z) : M (list Installment.t) :=
  findMany
    (fun r => status_eqb (Installment.status r) PENDING
              && (startDate <=? Installment.due_date r)
              && (Installment.due_date r <=? endDate))
    byDueDate.

(** [currentDate] defaults to [new Date()]. The threshold keeps the time
    of day of [currentDate]. *)
Definition findOverdueInstallments (currentDate : option Z)
  : M (list Installment.t) :=
  let* current :=
    (match currentDate with
     | Some d => ret d
     | None => newDate
     end) in
  let thirtyDaysAgo := JSDate.setDate current (JSDate.getDate current - 30) in
  findMany
    (fun r => status_eqb (Installment.status r) PENDING
              && (Installment.due_date r <? thirtyDaysAgo))
    byDueDate.

(** [findFirst] takes the first row in the order asked for. *)
Definition findNextPendingInstallment (templateId : string)
  : M (option Installment.t) :=
  fun w =>
    match
      merge_sort byNumber
        (List.filter
           (fun r => String.eqb (Installment.template_id r) templateId
                     && status_eqb (Installment.status r) PENDING)
           (installments w))
    with
    | row :: _ => (let* i := PrismaInstallmentMapper.toDomain row in ret (Some i)) w
    | [] => (Ok None, w)
    end.

Definition findByTemplateAndNumber (templateId : string) (installmentNumber : Z)
  : M (option Installment.t) :=
  fun w =>
    match
      find (fun r => String.eqb (Installment.template_id r) templateId
                     && (Installment.installment_number r =? installmentNumber))
        (installments w)
    with
    | Some row =>
        (let* i := PrismaInstallmentMapper.toDomain row in ret (Some i)) w
    | None => (Ok None, w)
    end.

Definition create (installment : Installment.t) : M Installment.t :=
  fun w =>
    PrismaInstallmentMapper.toDomain installment
      (set_installments (installments w ++ [installment]) w).

(** Prisma's [delete] throws when no row matches; [deleteMany] does not. *)
Definition delete (id : string) : M unit :=
  fun w =>
    if existsb (fun r => String.eqb (Installment.id r) id) (installments w)
    then
      (Ok tt,
       set_installments
         (List.filter (fun r => negb (String.eqb (Installment.id r) id))
            (installments w)) w)
    else (Throw "Record to delete does not exist.", w).

Definition deleteByTemplateId (templateId : string) : M unit :=
  fun w =>
    (Ok tt,
     set_installments
       (List.filter
          (fun r => negb (String.eqb (Installment.template_id r) templateId))
          (installments w)) w).

Definition countByStatus (templateId : string) (status : OccurrenceStatus)
  : M Z :=
  fun w =>
    (Ok (Z.of_nat
           (length
              (List.filter
                 (fun r => String.eqb (Installment.template_id r) templateId
                           && status_eqb (Installment.status r) status)
                 (installments w)))), w).

Definition countByTemplateId (templateId : string) : M Z :=
  fun w =>
    (Ok (Z.of_nat
           (length
              (List.filter
                 (fun r => String.eqb (Installment.template_id r) templateId)
                 (installments w)))), w).

End PrismaInstallmentRepository.

Module PrismaRecurringOccurrenceRepository.

Definition findById (id : string) : M (option RecurringOccurrence.t) :=
  fun w =>
    match
      find (fun r => String.eqb (RecurringOccurrence.id r) id) (occurrences w)
    with
    | Some row =>
        (let* o := PrismaRecurringOccurrenceMapper.toDomain row in ret (Some o)) w
    | None => (Ok None, w)
    end.

Definition byDueDate (a b : RecurringOccurrence.t) : Prop :=
  RecurringOccurrence.due_date a <= RecurringOccurrence.due_date b.

#[global] Instance byDueDate_dec a b : Decision (byDueDate a b) :=
  Z.le_dec _ _.

Definition findByTemplateId (templateId : string)
  : M (list RecurringOccurrence.t) :=
  fun w =>
    traverseM PrismaRecurringOccurrenceMapper.toDomain
      (merge_sort byDueDate
         (filter (fun r => RecurringOccurrence.template_id r = templateId)
            (occurrences w))) w.

Definition createMany (batch : list RecurringOccurrence.t)
  : M (list RecurringOccurrence.t) :=
  fun w =>
    let w' := set_occurrences (occurrences w ++ batch) w in
    let templateIds := map RecurringOccurrence.template_id batch in
    let created :=
      take (length batch)
        (rev (filter (fun r => RecurringOccurrence.template_id r ∈ templateIds)
                (occurrences w'))) in
    traverseM PrismaRecurringOccurrenceMapper.toDomain created w'.

Definition markAsPaid (id transactionId : string) : M unit :=
  fun w =>
    match
      updateWhere (fun r => String.eqb (RecurringOccurrence.id r) id)
        (RecurringOccurrence.set_status PAID (Some transactionId)) (occurrences w)
    with
    | Ok rows => (Ok tt, set_occurrences rows w)
    | Throw msg => (Throw msg, w)
    end.

Definition markAsSkipped (id : string) : M unit :=
  fun w =>
    match
      updateWhere (fun r => String.eqb (RecurringOccurrence.id r) id)
        (fun r =>
           RecurringOccurrence.set_status SKIPPED
             (RecurringOccurrence.transaction_id r) r)
        (occurrences w)
    with
    | Ok rows => (Ok tt, set_occurrences rows w)
    | Throw msg => (Throw msg, w)
    end.

(** [prisma.recurringOccurrence.findMany({where, orderBy: { due_date: 'asc' }})]
    followed by [.map(PrismaRecurringOccurrenceMapper.toDomain)]. *)
Definition findMany (where_ : RecurringOccurrence.t -> bool)
  : M (list RecurringOccurrence.t) :=
  fun w =>
    traverseM PrismaRecurringOccurrenceMapper.toDomain
      (merge_sort byDueDate (List.filter where_ (occurrences w))) w.

Definition findPendingByTemplateId (templateId : string)
  : M (list RecurringOccurrence.t) :=
  findMany
    (fun r => String.eqb (RecurringOccurrence.template_id r) templateId
              && status_eqb (RecurringOccurrence.status r) PENDING).

Definition findDueOccurrences (startDate endDate : Z)
  : M (list RecurringOccurrence.t) :=
  findMany
    (fun r => status_eqb (RecurringOccurrence.status r) PENDING
              && (startDate <=? RecurringOccurrence.due_date r)
              && (RecurringOccurrence.due_date r <=? endDate)).

Definition findOverdueOccurrences (currentDate : option Z)
  : M (list RecurringOccurrence.t) :=
  let* current :=
    (match currentDate with
     | Some d => ret d
     | None => newDate
     end) in
  let thirtyDaysAgo := JSDate.setDate current (JSDate.getDate current - 30) in
  findMany
    (fun r => status_eqb (RecurringOccurrence.status r) PENDING
              && (RecurringOccurrence.due_date r <? thirtyDaysAgo)).

Definition findNextPendingOccurrence (templateId : string)
  : M (option RecurringOccurrence.t) :=
  fun w =>
    match
      merge_sort byDueDate
        (List.filter
           (fun r => String.eqb (RecurringOccurrence.template_id r) templateId
                     && status_eqb (RecurringOccurrence.status r) PENDING)
           (occurrences w))
    with
    | row :: _ =>
        (let* o := PrismaRecurringOccurrenceMapper.toDomain row in ret (Some o)) w
    | [] => (Ok None, w)
    end.

Definition deleteByTemplateId (templateId : string) : M unit :=
  fun w =>
    (Ok tt,
     set_occurrences
       (List.filter
          (fun r => negb (String.eqb (RecurringOccurrence.template_id r) templateId))
          (occurrences w)) w).

Definition countByStatus (templateId : string) (status : OccurrenceStatus)
  : M Z :=
  fun w =>
    (Ok (Z.of_nat
           (length
              (List.filter
                 (fun r => String.eqb (RecurringOccurrence.template_id r) templateId
                           && status_eqb (RecurringOccurrence.status r) status)
                 (occurrences w)))), w).

End PrismaRecurringOccurrenceRepository.

Module PrismaInstallmentTemplateRepository.

Definition findById (id : string) : M (option InstallmentTemplate.t) :=
  fun w =>
    match
      find (fun r => String.eqb (InstallmentTemplate.id r) id
                     && String.eqb (InstallmentTemplate.couple_id r) (tenant w))
        (installmentTemplates w)
    with
    | Some row =>
        (let* tpl := PrismaInstallmentTemplateMapper.toDomain row in
         ret (Some tpl)) w
    | None => (Ok None, w)
    end.

Definition create (tpl : InstallmentTemplate.t) : M InstallmentTemplate.t :=
  fun w =>
    PrismaInstallmentTemplateMapper.toDomain tpl
      (set_installmentTemplates (installmentTemplates w ++ [tpl]) w).

(** The [where] of [update] and [delete]: the identifier, within the
    couple of the request. *)
Definition ownRow (id : string) (w : World) (r : InstallmentTemplate.t) : bool :=
  String.eqb (InstallmentTemplate.id r) id
  && String.eqb (InstallmentTemplate.couple_id r) (tenant w).

Definition activate (id : string) : M unit :=
  fun w =>
    match
      updateWhere (ownRow id w) (InstallmentTemplate.set_is_active true)
        (installmentTemplates w)
    with
    | Ok rows => (Ok tt, set_installmentTemplates rows w)
    | Throw msg => (Throw msg, w)
    end.

Definition deactivate (id : string) : M unit :=
  fun w =>
    match
      updateWhere (ownRow id w) (InstallmentTemplate.set_is_active false)
        (installmentTemplates w)
    with
    | Ok rows => (Ok tt, set_installmentTemplates rows w)
    | Throw msg => (Throw msg, w)
    end.

Definition delete (id : string) : M unit :=
  fun w =>
    if existsb (ownRow id w) (installmentTemplates w)
    then
      (Ok tt,
       set_installmentTemplates
         (List.filter (fun r => negb (ownRow id w r)) (installmentTemplates w)) w)
    else (Throw "Record to delete does not exist.", w).

Definition byFirstDueDate (a b : InstallmentTemplate.t) : Prop :=
  InstallmentTemplate.first_due_date a <= InstallmentTemplate.first_due_date b.

#[global] Instance byFirstDueDate_dec a b : Decision (byFirstDueDate a b) :=
  Z.le_dec _ _.

Definition findActiveByCoupleId (coupleId : string)
  : M (list InstallmentTemplate.t) :=
  fun w =>
    traverseM PrismaInstallmentTemplateMapper.toDomain
      (merge_sort byFirstDueDate
         (List.filter
            (fun r => String.eqb (InstallmentTemplate.couple_id r) coupleId
                      && InstallmentTemplate.is_active r)
            (installmentTemplates w))) w.

Definition countActiveByCoupleId (coupleId : string) : M Z :=
  fun w =>
    (Ok (Z.of_nat
           (length
              (List.filter
                 (fun r => String.eqb (InstallmentTemplate.couple_id r) coupleId
                           && InstallmentTemplate.is_active r)
                 (installmentTemplates w)))), w).

End PrismaInstallmentTemplateRepository.

Module RecurringTransactionTemplateRepository.

(** Modelled from the spec: the template store's [findById] (its Prisma
    implementation is not part of the sources at hand), a lookup by
    identifier. *)
Definition findById (id : string) : M (option RecurringTransactionTemplate.t) :=
  fun w =>
    (Ok (find (fun r => String.eqb (RecurringTransactionTemplate.id r) id)
           (recurringTemplates w)), w).

(** Modelled from the spec: the template store's [create], which stores
    the template and returns it. *)
Definition create (tpl : RecurringTransactionTemplate.t)
  : M RecurringTransactionTemplate.t :=
  fun w => (Ok tpl, set_recurringTemplates (recurringTemplates w ++ [tpl]) w).

End RecurringTransactionTemplateRepository.

Module TransactionRepository.

(** Modelled from the spec: [new Transaction(props)] followed by the
    ledger store's [create], which returns the transaction with its
    identifier. *)
Definition create (props : Transaction.Props) : M Transaction.t :=
  let* id := randomUUID in
  fun w =>
    let tx := {| Transaction.id := id; Transaction.props := props |} in
    (Ok tx, set_transactions (transactions w ++ [tx]) w).

End TransactionRepository.

Module AccountRepository.

(** Modelled from the spec: the account store's lookup by identifier. *)
Definition findById (id : string) : M (option Account.t) :=
  fun w =>
    (Ok (find (fun a => String.eqb (Account.id a) id) (accounts w)), w).

End AccountRepository.

(** ** Use cases *)

(** [x || d] on an optional number: absent and 0 give the default. *)
Definition orDefault (x : option Z) (d : Z) : Z :=
  match x with
  | Some n => if n =? 0 then d else n
  | None => d
  end.

(** [!s] on [string | null] *)
Definition falsy (s : option string) : bool :=
  match s with
  | Some x => String.eqb x ""
  | None => true
  end.

(** A date is an object, hence truthy: [a || b] on an optional date. *)
Definition dateOr (a : option Z) (b : Z) : Z := nullish a b.

(** [new Set(...)] of strings *)
Definition setOf (l : list string) : gset string := list_to_set l.

Definition has (s : gset string) (k : string) : bool := bool_decide (k ∈ s).

(** [PrismaInstallmentTemplateRepository.findByCoupleId] and its page
    types. *)
Module InstallmentTemplatePagination.

(** [PaginationInput] and [InstallmentTemplatePaginationOutput] of
    [@shared/types/pagination.type], as [findByCoupleId] uses them. *)
Record PaginationInput : Type := mkPaginationInput {
  limit : option Z;
  cursor : option string
}.

Record PaginationOutput : Type := mkPaginationOutput {
  data : list InstallmentTemplate.t;
  nextCursor : option string;
  hasMore : bool;
  hasInactiveTemplates : bool
}.

(** [take: n] without a cursor: the first [n] rows, or the last [-n] rows
    for a negative [n]. *)
Definition takeRows {A} (n : Z) (rows : list A) : list A :=
  if 0 <=? n then take (Z.to_nat n) rows
  else drop (length rows - Z.to_nat (- n)) rows.

Section Pagination.

(** How Prisma positions [findMany] at [cursor: { id }] with [take: n] in
    the ordered rows that match [where]. *)
Variable atCursor :
  string -> Z -> list InstallmentTemplate.t -> list InstallmentTemplate.t.

Definition findByCoupleId (coupleId : string) (pagination : option PaginationInput)
    (activeOnly : option bool) : M PaginationOutput :=
  fun w =>
    let limit :=
      orDefault (match pagination with Some p => limit p | None => None end) 20 in
    let cursor := match pagination with Some p => cursor p | None => None end in
    let shouldFilterActive :=
      match activeOnly with Some b => b | None => true end in
    let where_ r :=
      String.eqb (InstallmentTemplate.couple_id r) coupleId
      && (if shouldFilterActive then InstallmentTemplate.is_active r else true) in
    let ordered :=
      merge_sort PrismaInstallmentTemplateRepository.byFirstDueDate (List.filter where_ (installmentTemplates w)) in
    let templates :=
      if falsy cursor then takeRows (limit + 1) ordered
      else atCursor (nullish cursor "") (limit + 1) ordered in
    let hasMore := limit <? Z.of_nat (length templates) in
    let data := if hasMore then removelast templates else templates in
    let inactiveCount :=
      Z.of_nat
        (length
           (List.filter
              (fun r => String.eqb (InstallmentTemplate.couple_id r) coupleId
                        && negb (InstallmentTemplate.is_active r))
              (installmentTemplates w))) in
    let hasInactiveTemplates := 0 <? inactiveCount in
    match (if hasMore then option_map (fun r => Some (InstallmentTemplate.id r))
                             (last data)
           else Some None) with
    | None => (Throw "TypeError: Cannot read properties of undefined", w)
    | Some nextCursor =>
        (let* data' := traverseM PrismaInstallmentTemplateMapper.toDomain data in
         ret {| data := data'; nextCursor := nextCursor; hasMore := hasMore;
                hasInactiveTemplates := hasInactiveTemplates |}) w
    end.

End Pagination.

End InstallmentTemplatePagination.

(** [new RecurringOccurrence(...)] inside the world: the identifier is
    drawn and the clock is read once validation has passed. *)
Definition createOccurrence (template_id : string) (due_date : Z)
  : M RecurringOccurrence.t :=
  let* _v := lift (RecurringOccurrence.create "" 0 template_id due_date) in
  let* uuid := randomUUID in
  let* today := newDate in
  lift (RecurringOccurrence.create uuid today template_id due_date).

Definition createInstallment (template_id : string) (installment_number : Z)
    (amount : float) (due_date : Z) : M Installment.t :=
  let* _v :=
    lift (Installment.create "" 0 template_id installment_number amount due_date) in
  let* uuid := randomUUID in
  let* today := newDate in
  lift (Installment.create uuid today template_id installment_number amount due_date).

Module GenerateRecurringOccurrencesUseCase.

Record Input : Type := mkInput {
  template_id : string;
  months_ahead : option Z
}.

Record Output : Type := mkOutput {
  template : RecurringTransactionTemplate.t;
  occurrences : list RecurringOccurrence.t
}.

Definition calculateEndDate (tpl : RecurringTransactionTemplate.t)
    (monthsAhead : Z) : M Z :=
  let* today := newDate in
  let endDate := JSDate.setMonth today (JSDate.getMonth today + monthsAhead) in
  match RecurringTransactionTemplate.end_date tpl with
  | Some e => if e <? endDate then ret e else ret endDate
  | None => ret endDate
  end.

Definition calculateNextDate (currentDate : Z) (frequency : RecurrenceFrequency)
    (interval : Z) : Z :=
  match frequency with
  | DAILY => JSDate.setDate currentDate (JSDate.getDate currentDate + interval)
  | WEEKLY => JSDate.setDate currentDate (JSDate.getDate currentDate + interval * 7)
  | MONTHLY => JSDate.setMonth currentDate (JSDate.getMonth currentDate + interval)
  | YEARLY =>
      JSDate.setFullYear currentDate (JSDate.getFullYear currentDate + interval)
  end.

(** The [while] loop of [execute]. [fuel] bounds the number of iterations
    the model follows; [None] means the loop was still running. *)
Fixpoint generateLoop (fuel : nat) (tpl : RecurringTransactionTemplate.t)
    (existingDates : gset string) (endDate currentDate : Z)
    (acc : list RecurringOccurrence.t)
  : M (option (list RecurringOccurrence.t)) :=
  match fuel with
  | O => ret None
  | S fuel' =>
      if currentDate <=? endDate then
        let dateKey := JSDate.toISODate currentDate in
        let* acc' :=
          (if negb (has existingDates dateKey) then
             let* occurrence :=
               createOccurrence (RecurringTransactionTemplate.id tpl) currentDate in
             ret (acc ++ [occurrence])
           else ret acc) in
        let next :=
          calculateNextDate currentDate
            (RecurringTransactionTemplate.frequency tpl)
            (RecurringTransactionTemplate.interval tpl) in
        match RecurringTransactionTemplate.end_date tpl with
        | Some e =>
            if e <? next then ret (Some acc')
            else generateLoop fuel' tpl existingDates endDate next acc'
        | None => generateLoop fuel' tpl existingDates endDate next acc'
        end
      else ret (Some acc)
  end.

Definition execute (fuel : nat) (input : Input) : M (option Output) :=
  let monthsAhead := orDefault (months_ahead input) 3 in
  let* found := RecurringTransactionTemplateRepository.findById (template_id input) in
  match found with
  | None => throw "Template not found"
  | Some tpl =>
      if negb (RecurringTransactionTemplate.is_active tpl)
      then throw "Cannot generate occurrences for inactive template"
      else
        let* existingOccurrences :=
          PrismaRecurringOccurrenceRepository.findByTemplateId
            (RecurringTransactionTemplate.id tpl) in
        let existingDates :=
          setOf (map (fun o => JSDate.toISODate (RecurringOccurrence.due_date o))
                   existingOccurrences) in
        let* endDate := calculateEndDate tpl monthsAhead in
        let* generated :=
          generateLoop fuel tpl existingDates endDate
            (RecurringTransactionTemplate.next_occurrence tpl) [] in
        match generated with
        | None => ret None
        | Some occs =>
            let* createdOccurrences :=
              (if (0 <? length occs)%nat
               then PrismaRecurringOccurrenceRepository.createMany occs
               else ret []) in
            ret (Some {| template := tpl; occurrences := createdOccurrences |})
        end
  end.

End GenerateRecurringOccurrencesUseCase.

Module RecurrenceConfig.

(** Modelled from the spec: the recurrence rule value object
    (recurrence-config.vo.ts is not part of the sources at hand). *)
Record t : Type := mk {
  frequency : RecurrenceFrequency;
  interval : Z;
  startDate : Z;
  endDate : option Z
}.

(** Modelled from the spec: construction fails if [interval < 1] or
    [end_date <= start_date]. *)
Definition create (frequency : RecurrenceFrequency) (interval : Z)
    (start_date : Z) (end_date : option Z) : result t :=
  if interval <? 1 then Throw "InvalidRuleError"
  else
    match end_date with
    | Some e =>
        if e <=? start_date then Throw "InvalidRuleError"
        else Ok (mk frequency interval start_date end_date)
    | None => Ok (mk frequency interval start_date end_date)
    end.

End RecurrenceConfig.

(** Portuguese month names, for [toLocaleDateString('pt-BR', {month: 'long',
    year: 'numeric'})]. *)
Definition monthName_ptBR (m : Z) : string :=
  if m =? 0 then "janeiro" else if m =? 1 then "fevereiro"
  else if m =? 2 then "março" else if m =? 3 then "abril"
  else if m =? 4 then "maio" else if m =? 5 then "junho"
  else if m =? 6 then "julho" else if m =? 7 then "agosto"
  else if m =? 8 then "setembro" else if m =? 9 then "outubro"
  else if m =? 10 then "novembro" else "dezembro".

(** The decimal writing of an integer, as a template string prints it. *)
Definition showZ (n : Z) : string :=
  DecimalString.NilZero.string_of_int (Z.to_int n).

Definition monthYear_ptBR (d : Z) : string :=
  String.append (monthName_ptBR (JSDate.getMonth d))
    (String.append " de " (showZ (JSDate.getFullYear d))).

Module CreateRecurringTransactionUseCase.

Record Input : Type := mkInput {
  couple_id : string;
  type : TransactionType;
  amount : float;
  description : option string;
  paid_by_id : string;
  account_id : string;
  is_couple_expense : bool;
  is_free_spending : bool;
  visibility : option TransactionVisibility;
  category : option string;
  frequency : RecurrenceFrequency;
  interval : Z;
  start_date : Z;
  end_date : option Z;
  create_first_transaction : bool;
  months_ahead : option Z
}.

Record Output : Type := mkOutput {
  template : RecurringTransactionTemplate.t;
  occurrences : list RecurringOccurrence.t;
  first_transaction : option Transaction.t
}.

Definition validateInput (input : Input) : M unit :=
  if (amount input <=? 0)%float then throw "Amount must be positive"
  else if interval input <? 1 then throw "Interval must be at least 1"
  else
    match end_date input with
    | Some e =>
        if e <=? start_date input then throw "End date must be after start date"
        else ret tt
    | None => ret tt
    end.

(** [new RecurringTransactionTemplate({...})]; the entity's constructor is
    modelled as giving the template a fresh identifier. *)
Definition createTemplate (input : Input) (recurrenceConfig : RecurrenceConfig.t)
    (visibility : TransactionVisibility) : M RecurringTransactionTemplate.t :=
  let* id := randomUUID in
  ret {| RecurringTransactionTemplate.id := id;
         RecurringTransactionTemplate.couple_id := couple_id input;
         RecurringTransactionTemplate.type := type input;
         RecurringTransactionTemplate.amount := amount input;
         RecurringTransactionTemplate.description := description input;
         RecurringTransactionTemplate.paid_by_id := paid_by_id input;
         RecurringTransactionTemplate.account_id := account_id input;
         RecurringTransactionTemplate.is_couple_expense := is_couple_expense input;
         RecurringTransactionTemplate.is_free_spending := is_free_spending input;
         RecurringTransactionTemplate.visibility := visibility;
         RecurringTransactionTemplate.category := category input;
         RecurringTransactionTemplate.frequency :=
           RecurrenceConfig.frequency recurrenceConfig;
         RecurringTransactionTemplate.interval :=
           RecurrenceConfig.interval recurrenceConfig;
         RecurringTransactionTemplate.start_date :=
           RecurrenceConfig.startDate recurrenceConfig;
         RecurringTransactionTemplate.end_date :=
           RecurrenceConfig.endDate recurrenceConfig;
         RecurringTransactionTemplate.next_occurrence :=
           RecurrenceConfig.startDate recurrenceConfig;
         RecurringTransactionTemplate.is_active := true |}.

Definition calculateEndDate (tpl : RecurringTransactionTemplate.t)
    (monthsAhead : Z) : M Z :=
  let* today := newDate in
  let endDate := JSDate.setMonth today (JSDate.getMonth today + monthsAhead) in
  match RecurringTransactionTemplate.end_date tpl with
  | Some e => if e <? endDate then ret e else ret endDate
  | None => ret endDate
  end.

Definition calculateNextDate (currentDate : Z) (frequency : RecurrenceFrequency)
    (interval : Z) : Z :=
  match frequency with
  | DAILY => JSDate.setDate currentDate (JSDate.getDate currentDate + interval)
  | WEEKLY => JSDate.setDate currentDate (JSDate.getDate currentDate + interval * 7)
  | MONTHLY => JSDate.setMonth currentDate (JSDate.getMonth currentDate + interval)
  | YEARLY =>
      JSDate.setFullYear currentDate (JSDate.getFullYear currentDate + interval)
  end.

(** The [while] loop of [generateOccurrences]; [None] when [fuel]
    iterations did not end it. *)
Fixpoint generateLoop (fuel : nat) (tpl : RecurringTransactionTemplate.t)
    (endDate currentDate : Z) (acc : list RecurringOccurrence.t)
  : M (option (list RecurringOccurrence.t)) :=
  match fuel with
  | O => ret None
  | S fuel' =>
      if currentDate <=? endDate then
        let* occurrence :=
          createOccurrence (RecurringTransactionTemplate.id tpl) currentDate in
        let acc' := acc ++ [occurrence] in
        let next :=
          calculateNextDate currentDate
            (RecurringTransactionTemplate.frequency tpl)
            (RecurringTransactionTemplate.interval tpl) in
        match RecurringTransactionTemplate.end_date tpl with
        | Some e =>
            if e <? next then ret (Some acc')
            else generateLoop fuel' tpl endDate next acc'
        | None => generateLoop fuel' tpl endDate next acc'
        end
      else ret (Some acc)
  end.

Definition generateOccurrences (fuel : nat) (tpl : RecurringTransactionTemplate.t)
    (monthsAhead : Z) : M (option (list RecurringOccurrence.t)) :=
  let* endDate := calculateEndDate tpl monthsAhead in
  let* generated :=
    generateLoop fuel tpl endDate
      (RecurringTransactionTemplate.next_occurrence tpl) [] in
  match generated with
  | None => ret None
  | Some occs =>
      let* created :=
        (if (0 <? length occs)%nat
         then PrismaRecurringOccurrenceRepository.createMany occs
         else ret []) in
      ret (Some created)
  end.

Definition buildRecurringDescription (baseDescription : option string)
    (dueDate : Z) : string :=
  let monthYear := monthYear_ptBR dueDate in
  if falsy baseDescription then String.append "Recorrente - " monthYear
  else String.append (nullish baseDescription "")
         (String.append " - " monthYear).

Definition createFirstTransaction (tpl : RecurringTransactionTemplate.t)
    (occurrence : RecurringOccurrence.t) : M Transaction.t :=
  TransactionRepository.create
    {| Transaction.p_couple_id := RecurringTransactionTemplate.couple_id tpl;
       Transaction.p_type := RecurringTransactionTemplate.type tpl;
       Transaction.p_amount := RecurringTransactionTemplate.amount tpl;
       Transaction.p_description :=
         buildRecurringDescription
           (RecurringTransactionTemplate.description tpl)
           (RecurringOccurrence.due_date occurrence);
       Transaction.p_paid_by_id := RecurringTransactionTemplate.paid_by_id tpl;
       Transaction.p_account_id := RecurringTransactionTemplate.account_id tpl;
       Transaction.p_is_couple_expense :=
         RecurringTransactionTemplate.is_couple_expense tpl;
       Transaction.p_is_free_spending :=
         RecurringTransactionTemplate.is_free_spending tpl;
       Transaction.p_visibility := RecurringTransactionTemplate.visibility tpl;
       Transaction.p_category := RecurringTransactionTemplate.category tpl;
       Transaction.p_transaction_date := RecurringOccurrence.due_date occurrence;
       Transaction.p_installment_group_id := None;
       Transaction.p_installment_number := None;
       Transaction.p_total_installments := None;
       Transaction.p_recurring_template_id :=
         Some (RecurringTransactionTemplate.id tpl) |}.

(** The first element of the returned array is marked as paid in place,
    so the output carries the paid occurrence. *)
Definition execute (fuel : nat) (input : Input) : M (option Output) :=
  let* _v := validateInput input in
  let* account := AccountRepository.findById (account_id input) in
  match account with
  | None => throw "AccountNotFoundException"
  | Some acc =>
      let visibility :=
        nullish (visibility input)
          (if falsy (Account.owner_id acc) then SHARED else PRIVATE) in
      let* recurrenceConfig :=
        lift (RecurrenceConfig.create (frequency input) (interval input)
                (start_date input) (end_date input)) in
      let* tpl := createTemplate input recurrenceConfig visibility in
      let* createdTemplate := RecurringTransactionTemplateRepository.create tpl in
      let monthsAhead := orDefault (months_ahead input) 3 in
      let* generated := generateOccurrences fuel createdTemplate monthsAhead in
      match generated with
      | None => ret None
      | Some occs =>
          match occs with
          | firstOccurrence :: rest =>
              if create_first_transaction input then
                let* firstTransaction :=
                  createFirstTransaction createdTemplate firstOccurrence in
                let* paid :=
                  lift (RecurringOccurrence.markAsPaid
                          (Transaction.id firstTransaction) firstOccurrence) in
                let* _u :=
                  PrismaRecurringOccurrenceRepository.markAsPaid
                    (RecurringOccurrence.id firstOccurrence)
                    (Transaction.id firstTransaction) in
                ret (Some {| template := createdTemplate;
                             occurrences := paid :: rest;
                             first_transaction := Some firstTransaction |})
              else
                ret (Some {| template := createdTemplate; occurrences := occs;
                             first_transaction := None |})
          | [] =>
              ret (Some {| template := createdTemplate; occurrences := [];
                           first_transaction := None |})
          end
      end
  end.

End CreateRecurringTransactionUseCase.

Module PayInstallmentUseCase.

Record Input : Type := mkInput {
  installment_id : string;
  transaction_date : option Z
}.

Record Output : Type := mkOutput {
  installment : Installment.t;
  transaction : Transaction.t
}.

Definition buildDescription (baseDescription : option string)
    (installmentNumber totalInstallments : Z) : string :=
  let installmentInfo :=
    String.append (showZ installmentNumber)
      (String.append "/" (showZ totalInstallments)) in
  if falsy baseDescription then String.append "Parcela " installmentInfo
  else String.append (nullish baseDescription "")
         (String.append " - Parcela " installmentInfo).

Definition createTransactionFromInstallment (tpl : InstallmentTemplate.t)
    (installment : Installment.t) (transactionDate : Z) : M Transaction.t :=
  TransactionRepository.create
    {| Transaction.p_couple_id := InstallmentTemplate.couple_id tpl;
       Transaction.p_type := EXPENSE;
       Transaction.p_amount := Installment.amount installment;
       Transaction.p_description :=
         buildDescription (InstallmentTemplate.description tpl)
           (Installment.installment_number installment)
           (InstallmentTemplate.total_installments tpl);
       Transaction.p_paid_by_id := InstallmentTemplate.paid_by_id tpl;
       Transaction.p_account_id := InstallmentTemplate.account_id tpl;
       Transaction.p_is_couple_expense := InstallmentTemplate.is_couple_expense tpl;
       Transaction.p_is_free_spending := InstallmentTemplate.is_free_spending tpl;
       Transaction.p_visibility := InstallmentTemplate.visibility tpl;
       Transaction.p_category := InstallmentTemplate.category_id tpl;
       Transaction.p_transaction_date := transactionDate;
       Transaction.p_installment_group_id := Some (InstallmentTemplate.id tpl);
       Transaction.p_installment_number :=
         Some (Installment.installment_number installment);
       Transaction.p_total_installments :=
         Some (InstallmentTemplate.total_installments tpl);
       Transaction.p_recurring_template_id := None |}.

Definition execute (input : Input) : M Output :=
  let* found := PrismaInstallmentRepository.findById (installment_id input) in
  match found with
  | None => throw "Installment not found"
  | Some installment =>
      let* today := newDate in
      if negb (Installment.canBePaid today installment) then
        if Installment.isPaid installment
        then throw "Installment is already paid"
        else if Installment.isSkipped installment
        then throw "Cannot pay skipped installment"
        else if Installment.isOverdue today installment
        then throw "Cannot pay overdue installment (>30 days past due)"
        else throw "Installment cannot be paid"
      else
        let* tplFound :=
          PrismaInstallmentTemplateRepository.findById
            (Installment.template_id installment) in
        match tplFound with
        | None => throw "Template not found"
        | Some tpl =>
            let transactionDate :=
              dateOr (transaction_date input) (Installment.due_date installment) in
            let* transaction :=
              createTransactionFromInstallment tpl installment transactionDate in
            let* paid :=
              lift (Installment.markAsPaid (Transaction.id transaction) installment) in
            let* _u :=
              PrismaInstallmentRepository.markAsPaid (Installment.id paid)
                (Transaction.id transaction) in
            ret {| installment := paid; transaction := transaction |}
        end
  end.

End PayInstallmentUseCase.

Module PayRecurringOccurrenceUseCase.

Record Input : Type := mkInput {
  occurrence_id : string;
  transaction_date : option Z
}.

Record Output : Type := mkOutput {
  occurrence : RecurringOccurrence.t;
  transaction : Transaction.t
}.

Definition buildDescription (baseDescription : option string) (dueDate : Z)
  : string :=
  let monthYear := monthYear_ptBR dueDate in
  if falsy baseDescription then String.append "Recorrente - " monthYear
  else String.append (nullish baseDescription "")
         (String.append " - " monthYear).

Definition createTransactionFromTemplate (tpl : RecurringTransactionTemplate.t)
    (occurrence : RecurringOccurrence.t) (transactionDate : Z) : M Transaction.t :=
  TransactionRepository.create
    {| Transaction.p_couple_id := RecurringTransactionTemplate.couple_id tpl;
       Transaction.p_type := RecurringTransactionTemplate.type tpl;
       Transaction.p_amount := RecurringTransactionTemplate.amount tpl;
       Transaction.p_description :=
         buildDescription (RecurringTransactionTemplate.description tpl)
           (RecurringOccurrence.due_date occurrence);
       Transaction.p_paid_by_id := RecurringTransactionTemplate.paid_by_id tpl;
       Transaction.p_account_id := RecurringTransactionTemplate.account_id tpl;
       Transaction.p_is_couple_expense :=
         RecurringTransactionTemplate.is_couple_expense tpl;
       Transaction.p_is_free_spending :=
         RecurringTransactionTemplate.is_free_spending tpl;
       Transaction.p_visibility := RecurringTransactionTemplate.visibility tpl;
       Transaction.p_category := RecurringTransactionTemplate.category tpl;
       Transaction.p_transaction_date := transactionDate;
       Transaction.p_installment_group_id := None;
       Transaction.p_installment_number := None;
       Transaction.p_total_installments := None;
       Transaction.p_recurring_template_id :=
         Some (RecurringTransactionTemplate.id tpl) |}.

Definition execute (input : Input) : M Output :=
  let* found := PrismaRecurringOccurrenceRepository.findById (occurrence_id input) in
  match found with
  | None => throw "Occurrence not found"
  | Some occurrence =>
      let* today := newDate in
      if negb (RecurringOccurrence.canBePaid today occurrence) then
        if RecurringOccurrence.isPaid occurrence
        then throw "Occurrence is already paid"
        else if RecurringOccurrence.isSkipped occurrence
        then throw "Cannot pay skipped occurrence"
        else if RecurringOccurrence.isOverdue today occurrence
        then throw "Cannot pay overdue occurrence (>30 days past due)"
        else throw "Occurrence cannot be paid"
      else
        let* tplFound :=
          RecurringTransactionTemplateRepository.findById
            (RecurringOccurrence.template_id occurrence) in
        match tplFound with
        | None => throw "Template not found"
        | Some tpl =>
            let transactionDate :=
              dateOr (transaction_date input)
                (RecurringOccurrence.due_date occurrence) in
            let* transaction :=
              createTransactionFromTemplate tpl occurrence transactionDate in
            let* paid :=
              lift (RecurringOccurrence.markAsPaid (Transaction.id transaction)
                      occurrence) in
            let* _u :=
              PrismaRecurringOccurrenceRepository.markAsPaid
                (RecurringOccurrence.id paid) (Transaction.id transaction) in
            ret {| occurrence := paid; transaction := transaction |}
        end
  end.

End PayRecurringOccurrenceUseCase.

(** [new InstallmentTemplate(props)] inside the world. *)
Definition createInstallmentTemplate (props : InstallmentTemplate.Props)
  : M InstallmentTemplate.t :=
  let* _v := lift (InstallmentTemplate.new "" 0 props) in
  let* uuid :=
    (match InstallmentTemplate.p_id props with
     | Some _ => ret ""
     | None => randomUUID
     end) in
  let* today := newDate in
  lift (InstallmentTemplate.new uuid today props).

(** [x ?? undefined] on [string | null] *)
Definition orUndefined {A} (x : option A) : jsopt A :=
  match x with Some v => value v | None => undefined end.

Module CreateInstallmentTransactionUseCase.

Record Input : Type := mkInput {
  couple_id : string;
  total_amount : float;
  total_installments : Z;
  description : option string;
  paid_by_id : string;
  account_id : string;
  is_couple_expense : bool;
  is_free_spending : bool;
  visibility : option TransactionVisibility;
  category : option string;
  first_installment_date : Z;
  pay_first_installment : bool
}.

Definition validateInput (input : Input) : M unit :=
  if total_installments input <? 2
  then throw "Total installments must be at least 2"
  else if 120 <? total_installments input
  then throw "Maximum 120 installments allowed"
  else if (total_amount input <=? 0)%float
  then throw "Total amount must be positive"
  else
    let* now0 := newDate in
    let today := JSDate.setHours0 now0 in
    let firstDate := JSDate.setHours0 (first_installment_date input) in
    if firstDate <? today
    then throw "First installment date cannot be in the past"
    else ret tt.

Definition createTemplate (input : Input) (visibility : TransactionVisibility)
  : M InstallmentTemplate.t :=
  createInstallmentTemplate
    {| InstallmentTemplate.p_id := None;
       InstallmentTemplate.p_couple_id := couple_id input;
       InstallmentTemplate.p_description := orUndefined (description input);
       InstallmentTemplate.p_total_amount := total_amount input;
       InstallmentTemplate.p_total_installments := total_installments input;
       InstallmentTemplate.p_paid_by_id := paid_by_id input;
       InstallmentTemplate.p_account_id := account_id input;
       InstallmentTemplate.p_category_id := orUndefined (category input);
       InstallmentTemplate.p_is_couple_expense := Some (is_couple_expense input);
       InstallmentTemplate.p_is_free_spending := Some (is_free_spending input);
       InstallmentTemplate.p_visibility := visibility;
       InstallmentTemplate.p_first_due_date := first_installment_date input;
       InstallmentTemplate.p_is_active := None;
       InstallmentTemplate.p_created_at := None;
       InstallmentTemplate.p_updated_at := None |}.

(** The body of the [for] loop, for installment number [i]. *)
Definition generateInstallment (tpl : InstallmentTemplate.t)
    (installmentAmount : float) (i : Z) : M Installment.t :=
  let* dueDate := lift (InstallmentTemplate.calculateDueDate tpl i) in
  let amount :=
    if i =? InstallmentTemplate.total_installments tpl
    then (InstallmentTemplate.total_amount tpl
          - installmentAmount
            * JSNumber.of_Z (InstallmentTemplate.total_installments tpl - 1))%float
    else installmentAmount in
  createInstallment (InstallmentTemplate.id tpl) i (JSNumber.round2 amount) dueDate.

Definition generateInstallments (tpl : InstallmentTemplate.t)
  : M (list Installment.t) :=
  let installmentAmount := InstallmentTemplate.getInstallmentAmount tpl in
  traverseM (generateInstallment tpl installmentAmount)
    (seqZ 1 (InstallmentTemplate.total_installments tpl)).

Definition buildDescription (baseDescription : option string)
    (installmentNumber totalInstallments : Z) : string :=
  let installmentInfo :=
    String.append (showZ installmentNumber)
      (String.append "/" (showZ totalInstallments)) in
  if falsy baseDescription then String.append "Parcela " installmentInfo
  else String.append (nullish baseDescription "")
         (String.append " - Parcela " installmentInfo).

Definition createFirstTransaction (tpl : InstallmentTemplate.t)
    (installment : Installment.t) : M Transaction.t :=
  TransactionRepository.create
    {| Transaction.p_couple_id := InstallmentTemplate.couple_id tpl;
       Transaction.p_type := EXPENSE;
       Transaction.p_amount := Installment.amount installment;
       Transaction.p_description :=
         buildDescription (InstallmentTemplate.description tpl)
           (Installment.installment_number installment)
           (InstallmentTemplate.total_installments tpl);
       Transaction.p_paid_by_id := InstallmentTemplate.paid_by_id tpl;
       Transaction.p_account_id := InstallmentTemplate.account_id tpl;
       Transaction.p_is_couple_expense := InstallmentTemplate.is_couple_expense tpl;
       Transaction.p_is_free_spending := InstallmentTemplate.is_free_spending tpl;
       Transaction.p_visibility := InstallmentTemplate.visibility tpl;
       Transaction.p_category := InstallmentTemplate.category_id tpl;
       Transaction.p_transaction_date := Installment.due_date installment;
       Transaction.p_installment_group_id := Some (InstallmentTemplate.id tpl);
       Transaction.p_installment_number :=
         Some (Installment.installment_number installment);
       Transaction.p_total_installments :=
         Some (InstallmentTemplate.total_installments tpl);
       Transaction.p_recurring_template_id := None |}.

Record Output : Type := mkOutput {
  template : InstallmentTemplate.t;
  installments : list Installment.t;
  first_transaction : option Transaction.t
}.

(** The first element of the array that [createMany] returned is marked
    as paid in place. *)
Definition execute (input : Input) : M Output :=
  let* _v := validateInput input in
  let* account := AccountRepository.findById (account_id input) in
  match account with
  | None => throw "AccountNotFoundException"
  | Some acc =>
      let visibility :=
        nullish (visibility input)
          (if falsy (Account.owner_id acc) then SHARED else PRIVATE) in
      let* tpl := createTemplate input visibility in
      let* createdTemplate := PrismaInstallmentTemplateRepository.create tpl in
      let* generated := generateInstallments createdTemplate in
      let* createdInstallments :=
        PrismaInstallmentRepository.createMany generated in
      match createdInstallments with
      | firstInstallment :: rest =>
          if pay_first_installment input then
            let* firstTransaction :=
              createFirstTransaction createdTemplate firstInstallment in
            let* paid :=
              lift (Installment.markAsPaid (Transaction.id firstTransaction)
                      firstInstallment) in
            let* _u :=
              PrismaInstallmentRepository.markAsPaid
                (Installment.id firstInstallment)
                (Transaction.id firstTransaction) in
            ret {| template := createdTemplate; installments := paid :: rest;
                   first_transaction := Some firstTransaction |}
          else
            ret {| template := createdTemplate;
                   installments := createdInstallments;
                   first_transaction := None |}
      | [] =>
          ret {| template := createdTemplate; installments := [];
                 first_transaction := None |}
      end
  end.

End CreateInstallmentTransactionUseCase.

Module CreateInstallmentTemplateUseCase.

Record Input : Type := mkInput {
  couple_id : string;
  description : option string;
  total_amount : float;
  total_installments : Z;
  paid_by_id : string;
  account_id : string;
  category_id : option string;
  is_couple_expense : bool;
  is_free_spending : bool;
  visibility : TransactionVisibility;
  first_due_date : Z
}.

Record Output : Type := mkOutput {
  template : InstallmentTemplate.t;
  installments : list Installment.t
}.

Definition validateInput (input : Input) : M unit :=
  if (total_amount input <=? 0)%float then throw "Total amount must be positive"
  else if total_installments input <? 2
  then throw "Minimum 2 installments required"
  else if 120 <? total_installments input
  then throw "Maximum 120 installments allowed"
  else
    let* now0 := newDate in
    let today := JSDate.setHours0 now0 in
    let firstDueDate := JSDate.setHours0 (first_due_date input) in
    if firstDueDate <? today
    then throw "First due date cannot be in the past"
    else ret tt.

Definition createTemplate (input : Input) : M InstallmentTemplate.t :=
  createInstallmentTemplate
    {| InstallmentTemplate.p_id := None;
       InstallmentTemplate.p_couple_id := couple_id input;
       InstallmentTemplate.p_description := orUndefined (description input);
       InstallmentTemplate.p_total_amount := total_amount input;
       InstallmentTemplate.p_total_installments := total_installments input;
       InstallmentTemplate.p_paid_by_id := paid_by_id input;
       InstallmentTemplate.p_account_id := account_id input;
       InstallmentTemplate.p_category_id := orUndefined (category_id input);
       InstallmentTemplate.p_is_couple_expense := Some (is_couple_expense input);
       InstallmentTemplate.p_is_free_spending := Some (is_free_spending input);
       InstallmentTemplate.p_visibility := visibility input;
       InstallmentTemplate.p_first_due_date := first_due_date input;
       InstallmentTemplate.p_is_active := None;
       InstallmentTemplate.p_created_at := None;
       InstallmentTemplate.p_updated_at := None |}.

Definition generateInstallment (tpl : InstallmentTemplate.t)
    (installmentAmount : float) (i : Z) : M Installment.t :=
  let* dueDate := lift (InstallmentTemplate.calculateDueDate tpl i) in
  let amount :=
    if i =? InstallmentTemplate.total_installments tpl
    then (InstallmentTemplate.total_amount tpl
          - installmentAmount
            * JSNumber.of_Z (InstallmentTemplate.total_installments tpl - 1))%float
    else installmentAmount in
  createInstallment (InstallmentTemplate.id tpl) i (JSNumber.round2 amount) dueDate.

Definition generateInstallments (tpl : InstallmentTemplate.t)
  : M (list Installment.t) :=
  let installmentAmount := InstallmentTemplate.getInstallmentAmount tpl in
  traverseM (generateInstallment tpl installmentAmount)
    (seqZ 1 (InstallmentTemplate.total_installments tpl)).

Definition execute (input : Input) : M Output :=
  let* _v := validateInput input in
  let* tpl := createTemplate input in
  let* createdTemplate := PrismaInstallmentTemplateRepository.create tpl in
  let* generated := generateInstallments createdTemplate in
  let* createdInstallments := PrismaInstallmentRepository.createMany generated in
  ret {| template := createdTemplate; installments := createdInstallments |}.

End CreateInstallmentTemplateUseCase.

(** ** The skip endpoints *)

Module InstallmentController.

Definition skipInstallment (installmentId : string) : M string :=
  let* _u := PrismaInstallmentRepository.markAsSkipped installmentId in
  ret "Installment skipped successfully".

Definition deactivateTemplate (templateId : string) : M string :=
  let* _u := PrismaInstallmentTemplateRepository.deactivate templateId in
  ret "Template deactivated successfully".

Definition activateTemplate (templateId : string) : M string :=
  let* _u := PrismaInstallmentTemplateRepository.activate templateId in
  ret "Template activated successfully".

Definition deleteTemplate (templateId : string) : M string :=
  let* _u := PrismaInstallmentTemplateRepository.delete templateId in
  ret "Template deleted successfully".

Definition getTemplate (templateId : string) : M (option InstallmentTemplate.t) :=
  PrismaInstallmentTemplateRepository.findById templateId.

(** [findByCoupleId(coupleId)]: no pagination and no [activeOnly], hence no
    cursor. *)
Definition listTemplates
    (atCursor : string -> Z -> list InstallmentTemplate.t
                -> list InstallmentTemplate.t)
    (coupleId : string) : M InstallmentTemplatePagination.PaginationOutput :=
  InstallmentTemplatePagination.findByCoupleId atCursor coupleId None None.

Definition listActiveTemplates (coupleId : string)
  : M (list InstallmentTemplate.t) :=
  PrismaInstallmentTemplateRepository.findActiveByCoupleId coupleId.

Definition listOverdueInstallments : M (list Installment.t) :=
  PrismaInstallmentRepository.findOverdueInstallments None.

Definition payInstallment (installmentId : string) (transaction_date : option Z)
  : M PayInstallmentUseCase.Output :=
  PayInstallmentUseCase.execute
    {| PayInstallmentUseCase.installment_id := installmentId;
       PayInstallmentUseCase.transaction_date := transaction_date |}.

End InstallmentController.

Module RecurringOccurrenceController.

Definition skipOccurrence (occurrenceId : string) : M string :=
  let* _u := PrismaRecurringOccurrenceRepository.markAsSkipped occurrenceId in
  ret "Occurrence skipped successfully".

End RecurringOccurrenceController.

(** ** The split of an amount in exact arithmetic

    The two amounts that [generateInstallments] rounds, with the
    arithmetic of [number] taken as exact (rationals): the quotient
    [total / count], and [total - (total / count) * (count - 1)]. *)

Module ExactAmounts.

(** [Math.round(x * 100) / 100] *)
Definition round2 (x : Q) : Q :=
  (inject_Z (Qfloor (x * inject_Z 100 + (1 # 2))) / inject_Z 100)%Q.

Definition regularAmount (total : Q) (count : Z) : Q :=
  round2 (total / inject_Z count)%Q.

Definition lastAmount (total : Q) (count : Z) : Q :=
  round2 (total - total / inject_Z count * inject_Z (count - 1))%Q.

End ExactAmounts.

(** ** Notions used in the statements *)

(** One application of the recurrence step of a template. *)
Definition step (tpl : RecurringTransactionTemplate.t) (d : Z) : Z :=
  GenerateRecurringOccurrencesUseCase.calculateNextDate d
    (RecurringTransactionTemplate.frequency tpl)
    (RecurringTransactionTemplate.interval tpl).

(** The first [n] cursor dates from [c]: [c], [step c], [step (step c)], ... *)
Fixpoint cursorsFrom (tpl : RecurringTransactionTemplate.t) (n : nat) (c : Z)
  : list Z :=
  match n with
  | O => []
  | S n' => c :: cursorsFrom tpl n' (step tpl c)
  end.

(** The generation horizon in the spec's words:
    [min(today + monthsAhead months, end_date or +infinity)]. *)
Definition horizon (today : Z) (tpl : RecurringTransactionTemplate.t)
    (monthsAhead : Z) : Z :=
  let h := JSDate.setMonth today (JSDate.getMonth today + monthsAhead) in
  match RecurringTransactionTemplate.end_date tpl with
  | Some e => Z.min h e
  | None => h
  end.

(** The world after [k] identifiers were drawn. *)
Definition drawn (k : nat) (w : World) : World :=
  {| now := now w; uuids := uuids w; rng := (k + rng w)%nat; tenant := tenant w;
     installments := installments w; occurrences := occurrences w;
     installmentTemplates := installmentTemplates w;
     recurringTemplates := recurringTemplates w;
     transactions := transactions w; accounts := accounts w |}.

(** The pending occurrences of template [tid] that a generator creates
    for the due dates [dates], the first one with the [k]-th identifier. *)
Fixpoint newOccurrences (w : World) (tid : string) (k : nat) (dates : list Z)
  : list RecurringOccurrence.t :=
  match dates with
  | [] => []
  | d :: rest =>
      {| RecurringOccurrence.id := uuids w k;
         RecurringOccurrence.template_id := tid;
         RecurringOccurrence.due_date := d;
         RecurringOccurrence.status := PENDING;
         RecurringOccurrence.transaction_id := None;
         RecurringOccurrence.created_at := now w;
         RecurringOccurrence.updated_at := now w |}
      :: newOccurrences w tid (S k) rest
  end.

(** Dates whose calendar day is not yet scheduled. *)
Definition unscheduled (existingDates : gset string) (dates : list Z) : list Z :=
  List.filter (fun d => negb (has existingDates (JSDate.toISODate d))) dates.

(** The identifier stream yields UUIDs. *)
Definition uuidsValid (w : World) : Prop :=
  forall k, Zod.is_uuid (uuids w k) = true.

(** The invariant of the spec on a schedule entry. *)
Definition linked (s : OccurrenceStatus) (tx : option string) : Prop :=
  tx <> None <-> s = PAID.

(** The cursor after [n] steps from [c]. *)
Fixpoint cursorAt (tpl : RecurringTransactionTemplate.t) (n : nat) (c : Z) : Z :=
  match n with
  | O => c
  | S n' => cursorAt tpl n' (step tpl c)
  end.

(** A row whose identifiers are UUIDs: the mapper reads it back as it is. *)
Definition readable (o : RecurringOccurrence.t) : Prop :=
  Zod.is_uuid (RecurringOccurrence.id o) = true
  /\ Zod.is_uuid (RecurringOccurrence.template_id o) = true
  /\ Zod.opt_uuid (RecurringOccurrence.transaction_id o) = true.

(** Iterations that are enough to bring a cursor at [cur] past [endDate]. *)
Definition fuelFor (endDate cur : Z) : nat :=
  S (Z.to_nat ((endDate - cur) / JSDate.msPerDay + 1)).

(** The calendar-day key of an occurrence in the set of existing dates. *)
Definition dateKey (o : RecurringOccurrence.t) : string :=
  JSDate.toISODate (RecurringOccurrence.due_date o).

(** ** Worked examples *)

(** A stream of distinct UUIDs (up to 10^12 of them). *)
Definition exampleUuid (k : nat) : string :=
  String.append "00000000-0000-4000-8000-" (JSDate.pad 12 (Z.of_nat k)).

Definition coupleId : string := "123e4567-e89b-12d3-a456-426614174000".
Definition payerId : string := "123e4567-e89b-12d3-a456-426614174001".
Definition accountId : string := "123e4567-e89b-12d3-a456-426614174002".
Definition categoryId : string := "123e4567-e89b-12d3-a456-426614174003".
Definition templateId : string := "123e4567-e89b-12d3-a456-426614174004".
Definition entryId : string := "123e4567-e89b-12d3-a456-426614174005".
Definition ledgerId : string := "123e4567-e89b-12d3-a456-426614174006".

(** An empty database at the instant [today]. *)
Definition emptyWorld (today : Z) : World :=
  {| now := today; uuids := exampleUuid; rng := O; tenant := coupleId;
     installments := []; occurrences := []; installmentTemplates := [];
     recurringTemplates := []; transactions := []; accounts := [] |}.

(** Scenario C: a monthly template starting on 2024-01-15, no end date. *)
Definition monthlyTemplate : RecurringTransactionTemplate.t :=
  {| RecurringTransactionTemplate.id := templateId;
     RecurringTransactionTemplate.couple_id := coupleId;
     RecurringTransactionTemplate.type := EXPENSE;
     RecurringTransactionTemplate.amount := 1500%float;
     RecurringTransactionTemplate.description := Some "Rent";
     RecurringTransactionTemplate.paid_by_id := payerId;
     RecurringTransactionTemplate.account_id := accountId;
     RecurringTransactionTemplate.is_couple_expense := true;
     RecurringTransactionTemplate.is_free_spending := false;
     RecurringTransactionTemplate.visibility := SHARED;
     RecurringTransactionTemplate.category := None;
     RecurringTransactionTemplate.frequency := MONTHLY;
     RecurringTransactionTemplate.interval := 1;
     RecurringTransactionTemplate.start_date := JSDate.ymd 2024 1 15;
     RecurringTransactionTemplate.end_date := None;
     RecurringTransactionTemplate.next_occurrence := JSDate.ymd 2024 1 15;
     RecurringTransactionTemplate.is_active := true |}.

(** The template stored, on 2024-01-01 at [ms] milliseconds past midnight. *)
Definition scenarioCAt (ms : Z) : World :=
  set_recurringTemplates [monthlyTemplate]
    (emptyWorld (JSDate.ymd 2024 1 1 + ms)).

Definition scenarioC : World := scenarioCAt 0.

Definition generateC (months_ahead : option Z)
  : GenerateRecurringOccurrencesUseCase.Input :=
  {| GenerateRecurringOccurrencesUseCase.template_id := templateId;
     GenerateRecurringOccurrencesUseCase.months_ahead := months_ahead |}.

(** A computation that does not write the recurring-template table. *)
Definition keepsTemplates {A} (c : M A) : Prop :=
  forall w r w', c w = (r, w') -> recurringTemplates w' = recurringTemplates w.

(** A creation request with its [months_ahead] replaced. *)
Definition withMonthsAhead (m : option Z)
    (input : CreateRecurringTransactionUseCase.Input)
  : CreateRecurringTransactionUseCase.Input :=
  {| CreateRecurringTransactionUseCase.couple_id :=
       CreateRecurringTransactionUseCase.couple_id input;
     CreateRecurringTransactionUseCase.type :=
       CreateRecurringTransactionUseCase.type input;
     CreateRecurringTransactionUseCase.amount :=
       CreateRecurringTransactionUseCase.amount input;
     CreateRecurringTransactionUseCase.description :=
       CreateRecurringTransactionUseCase.description input;
     CreateRecurringTransactionUseCase.paid_by_id :=
       CreateRecurringTransactionUseCase.paid_by_id input;
     CreateRecurringTransactionUseCase.account_id :=
       CreateRecurringTransactionUseCase.account_id input;
     CreateRecurringTransactionUseCase.is_couple_expense :=
       CreateRecurringTransactionUseCase.is_couple_expense input;
     CreateRecurringTransactionUseCase.is_free_spending :=
       CreateRecurringTransactionUseCase.is_free_spending input;
     CreateRecurringTransactionUseCase.visibility :=
       CreateRecurringTransactionUseCase.visibility input;
     CreateRecurringTransactionUseCase.category :=
       CreateRecurringTransactionUseCase.category input;
     CreateRecurringTransactionUseCase.frequency :=
       CreateRecurringTransactionUseCase.frequency input;
     CreateRecurringTransactionUseCase.interval :=
       CreateRecurringTransactionUseCase.interval input;
     CreateRecurringTransactionUseCase.start_date :=
       CreateRecurringTransactionUseCase.start_date input;
     CreateRecurringTransactionUseCase.end_date :=
       CreateRecurringTransactionUseCase.end_date input;
     CreateRecurringTransactionUseCase.create_first_transaction :=
       CreateRecurringTransactionUseCase.create_first_transaction input;
     CreateRecurringTransactionUseCase.months_ahead := m |}.

(** An installment and an occurrence of the example template, with the
    given due date, status and transaction link. *)
Definition installmentDue (due : Z) (s : OccurrenceStatus) (tx : option string)
  : Installment.t :=
  {| Installment.id := entryId; Installment.template_id := templateId;
     Installment.installment_number := 1; Installment.amount := 100.5%float;
     Installment.due_date := due; Installment.status := s;
     Installment.transaction_id := tx;
     Installment.created_at := JSDate.ymd 2024 1 1;
     Installment.updated_at := JSDate.ymd 2024 1 1 |}.

Definition occurrenceDue (due : Z) (s : OccurrenceStatus) (tx : option string)
  : RecurringOccurrence.t :=
  {| RecurringOccurrence.id := entryId;
     RecurringOccurrence.template_id := templateId;
     RecurringOccurrence.due_date := due; RecurringOccurrence.status := s;
     RecurringOccurrence.transaction_id := tx;
     RecurringOccurrence.created_at := JSDate.ymd 2024 1 1;
     RecurringOccurrence.updated_at := JSDate.ymd 2024 1 1 |}.

(** Scenario D: a pending installment of a 12-installment purchase, due on
    2024-02-01, seen on 2024-02-10; and a pending occurrence of the monthly
    template, due on 2024-01-15, seen on 2024-01-20. *)
Definition tvTemplate : InstallmentTemplate.t :=
  {| InstallmentTemplate.id := templateId;
     InstallmentTemplate.couple_id := coupleId;
     InstallmentTemplate.description := Some "TV";
     InstallmentTemplate.total_amount := 1200%float;
     InstallmentTemplate.total_installments := 12;
     InstallmentTemplate.paid_by_id := payerId;
     InstallmentTemplate.account_id := accountId;
     InstallmentTemplate.category_id := Some categoryId;
     InstallmentTemplate.is_couple_expense := true;
     InstallmentTemplate.is_free_spending := false;
     InstallmentTemplate.visibility := SHARED;
     InstallmentTemplate.first_due_date := JSDate.ymd 2024 2 1;
     InstallmentTemplate.is_active := true;
     InstallmentTemplate.created_at := JSDate.ymd 2024 1 1;
     InstallmentTemplate.updated_at := JSDate.ymd 2024 1 1 |}.

Definition scenarioD : World :=
  set_installments [installmentDue (JSDate.ymd 2024 2 1) PENDING None]
    (set_installmentTemplates [tvTemplate] (emptyWorld (JSDate.ymd 2024 2 10))).

Definition payD (transaction_date : option Z) : PayInstallmentUseCase.Input :=
  {| PayInstallmentUseCase.installment_id := entryId;
     PayInstallmentUseCase.transaction_date := transaction_date |}.

Definition scenarioD' : World :=
  set_occurrences [occurrenceDue (JSDate.ymd 2024 1 15) PENDING None]
    (set_recurringTemplates [monthlyTemplate] (emptyWorld (JSDate.ymd 2024 1 20))).

Definition payD' (transaction_date : option Z)
  : PayRecurringOccurrenceUseCase.Input :=
  {| PayRecurringOccurrenceUseCase.occurrence_id := entryId;
     PayRecurringOccurrenceUseCase.transaction_date := transaction_date |}.

(** The rounded amount of every installment but the last, and of the
    last one. *)
Definition regularAmount (tpl : InstallmentTemplate.t) : float :=
  JSNumber.round2 (InstallmentTemplate.getInstallmentAmount tpl).

Definition lastAmount (tpl : InstallmentTemplate.t) : float :=
  JSNumber.round2
    (InstallmentTemplate.total_amount tpl
     - InstallmentTemplate.getInstallmentAmount tpl
       * JSNumber.of_Z (InstallmentTemplate.total_installments tpl - 1))%float.

(** The amount the generators give installment number [i] of a template. *)
Definition installmentAmountFor (tpl : InstallmentTemplate.t) (i : Z) : float :=
  if i =? InstallmentTemplate.total_installments tpl
  then lastAmount tpl else regularAmount tpl.

(** Both rounded amounts are positive. *)
Definition amountsPositive (tpl : InstallmentTemplate.t) : bool :=
  ((0 <? regularAmount tpl) && (0 <? lastAmount tpl))%float.

(** Calendar-month addition as the code does it:
    [d.setMonth(d.getMonth() + k)]. *)
Definition addMonths (d k : Z) : Z := JSDate.setMonth d (JSDate.getMonth d + k).

(** The pending installments a generator creates for the installment
    numbers [numbers], the first one with the [k]-th identifier. *)
Fixpoint newInstallments (w : World) (tpl : InstallmentTemplate.t) (k : nat)
    (numbers : list Z) : list Installment.t :=
  match numbers with
  | [] => []
  | i :: rest =>
      {| Installment.id := uuids w k;
         Installment.template_id := InstallmentTemplate.id tpl;
         Installment.installment_number := i;
         Installment.amount := installmentAmountFor tpl i;
         Installment.due_date :=
           addMonths (InstallmentTemplate.first_due_date tpl) (i - 1);
         Installment.status := PENDING;
         Installment.transaction_id := None;
         Installment.created_at := now w;
         Installment.updated_at := now w |}
      :: newInstallments w tpl (S k) rest
  end.

(** Scenario A: 1200.00 in 12 installments from 2024-02-01; scenario B:
    100.00 in 3 installments; and a purchase of one cent in 3 installments. *)
Definition purchase (total : float) (count : Z)
  : CreateInstallmentTemplateUseCase.Input :=
  {| CreateInstallmentTemplateUseCase.couple_id := coupleId;
     CreateInstallmentTemplateUseCase.description := Some "TV";
     CreateInstallmentTemplateUseCase.total_amount := total;
     CreateInstallmentTemplateUseCase.total_installments := count;
     CreateInstallmentTemplateUseCase.paid_by_id := payerId;
     CreateInstallmentTemplateUseCase.account_id := accountId;
     CreateInstallmentTemplateUseCase.category_id := Some categoryId;
     CreateInstallmentTemplateUseCase.is_couple_expense := true;
     CreateInstallmentTemplateUseCase.is_free_spending := false;
     CreateInstallmentTemplateUseCase.visibility := SHARED;
     CreateInstallmentTemplateUseCase.first_due_date := JSDate.ymd 2024 2 1 |}.

Definition purchaseTemplate (total : float) (count : Z) : InstallmentTemplate.t :=
  {| InstallmentTemplate.id := templateId;
     InstallmentTemplate.couple_id := coupleId;
     InstallmentTemplate.description := Some "TV";
     InstallmentTemplate.total_amount := total;
     InstallmentTemplate.total_installments := count;
     InstallmentTemplate.paid_by_id := payerId;
     InstallmentTemplate.account_id := accountId;
     InstallmentTemplate.category_id := Some categoryId;
     InstallmentTemplate.is_couple_expense := true;
     InstallmentTemplate.is_free_spending := false;
     InstallmentTemplate.visibility := SHARED;
     InstallmentTemplate.first_due_date := JSDate.ymd 2024 2 1;
     InstallmentTemplate.is_active := true;
     InstallmentTemplate.created_at := JSDate.ymd 2024 1 1;
     InstallmentTemplate.updated_at := JSDate.ymd 2024 1 1 |}.

(** What a row shows of an installment: number, amount, due day, status. *)
Definition shown (i : Installment.t) : Z * float * string * OccurrenceStatus :=
  (Installment.installment_number i, Installment.amount i,
   JSDate.toISODate (Installment.due_date i), Installment.status i).

(** The properties [createTemplate] passes to the constructor for
    [purchase total count]. *)
Definition purchaseProps (total : float) (count : Z)
  : InstallmentTemplate.Props :=
  {| InstallmentTemplate.p_id := None;
     InstallmentTemplate.p_couple_id := coupleId;
     InstallmentTemplate.p_description := value "TV"%string;
     InstallmentTemplate.p_total_amount := total;
     InstallmentTemplate.p_total_installments := count;
     InstallmentTemplate.p_paid_by_id := payerId;
     InstallmentTemplate.p_account_id := accountId;
     InstallmentTemplate.p_category_id := value categoryId;
     InstallmentTemplate.p_is_couple_expense := Some true;
     InstallmentTemplate.p_is_free_spending := Some false;
     InstallmentTemplate.p_visibility := SHARED;
     InstallmentTemplate.p_first_due_date := JSDate.ymd 2024 2 1;
     InstallmentTemplate.p_is_active := None;
     InstallmentTemplate.p_created_at := None;
     InstallmentTemplate.p_updated_at := None |}.

(** ** Notions used in the further statements *)

(** An installment row that the mapper reads back as it is. *)
Definition readableInstallment (i : Installment.t) : Prop :=
  Zod.is_uuid (Installment.id i) = true
  /\ Zod.is_uuid (Installment.template_id i) = true
  /\ 0 < Installment.installment_number i
  /\ (0 <? Installment.amount i)%float = true
  /\ Zod.opt_uuid (Installment.transaction_id i) = true.

(** Whole days from the due day of a date to the day of [now]. *)
Definition daysPast (now due : Z) : Z := JSDate.Day now - JSDate.Day due.

(** The same database, seen by a request of the couple [c]. *)
Definition set_tenant (c : string) (w : World) : World :=
  {| now := now w; uuids := uuids w; rng := rng w; tenant := c;
     installments := installments w; occurrences := occurrences w;
     installmentTemplates := installmentTemplates w;
     recurringTemplates := recurringTemplates w;
     transactions := transactions w; accounts := accounts w |}.

(** A pending installment due on 2024-01-01, seen on 2024-03-01. *)
Definition scenarioOverdue : World :=
  set_installments [installmentDue (JSDate.ymd 2024 1 1) PENDING None]
    (emptyWorld (JSDate.ymd 2024 3 1)).

(** Scenario D after the installment was paid on its due date: the
    transaction that was written, and the world. *)
Definition receiptD : Transaction.t :=
  {| Transaction.id := exampleUuid 0;
     Transaction.props :=
       {| Transaction.p_couple_id := coupleId;
          Transaction.p_type := EXPENSE;
          Transaction.p_amount := 100.5%float;
          Transaction.p_description := "TV - Parcela 1/12";
          Transaction.p_paid_by_id := payerId;
          Transaction.p_account_id := accountId;
          Transaction.p_is_couple_expense := true;
          Transaction.p_is_free_spending := false;
          Transaction.p_visibility := SHARED;
          Transaction.p_category := Some categoryId;
          Transaction.p_transaction_date := JSDate.ymd 2024 2 1;
          Transaction.p_installment_group_id := Some templateId;
          Transaction.p_installment_number := Some 1;
          Transaction.p_total_installments := Some 12;
          Transaction.p_recurring_template_id := None |} |}.

Definition scenarioDPaid : World :=
  set_transactions [receiptD]
    (set_installments
       [installmentDue (JSDate.ymd 2024 2 1) PAID (Some (exampleUuid 0))]
       (drawn 1 scenarioD)).

(** A template row that the mapper reads back as it is: its identifiers
    are UUIDs, its numbers are in range, and neither its description nor
    its category is NULL. *)
Definition readableTemplate (t : InstallmentTemplate.t) : Prop :=
  Zod.is_uuid (InstallmentTemplate.id t) = true
  /\ Zod.is_uuid (InstallmentTemplate.couple_id t) = true
  /\ InstallmentTemplate.description t <> None
  /\ (0 <? InstallmentTemplate.total_amount t)%float = true
  /\ 2 <= InstallmentTemplate.total_installments t <= 120
  /\ Zod.is_uuid (InstallmentTemplate.paid_by_id t) = true
  /\ Zod.is_uuid (InstallmentTemplate.account_id t) = true
  /\ exists c,
       InstallmentTemplate.category_id t = Some c /\ Zod.is_uuid c = true.

(** The template that [CreateInstallmentTemplateUseCase.createTemplate]
    builds for [input] in the world [w]: the next identifier of the
    stream, the input's values, active, created now. *)
Definition templateOf (w : World) (input : CreateInstallmentTemplateUseCase.Input)
  : InstallmentTemplate.t :=
  {| InstallmentTemplate.id := uuids w (rng w);
     InstallmentTemplate.couple_id :=
       CreateInstallmentTemplateUseCase.couple_id input;
     InstallmentTemplate.description :=
       CreateInstallmentTemplateUseCase.description input;
     InstallmentTemplate.total_amount :=
       CreateInstallmentTemplateUseCase.total_amount input;
     InstallmentTemplate.total_installments :=
       CreateInstallmentTemplateUseCase.total_installments input;
     InstallmentTemplate.paid_by_id :=
       CreateInstallmentTemplateUseCase.paid_by_id input;
     InstallmentTemplate.account_id :=
       CreateInstallmentTemplateUseCase.account_id input;
     InstallmentTemplate.category_id :=
       CreateInstallmentTemplateUseCase.category_id input;
     InstallmentTemplate.is_couple_expense :=
       CreateInstallmentTemplateUseCase.is_couple_expense input;
     InstallmentTemplate.is_free_spending :=
       CreateInstallmentTemplateUseCase.is_free_spending input;
     InstallmentTemplate.visibility :=
       CreateInstallmentTemplateUseCase.visibility input;
     InstallmentTemplate.first_due_date :=
       CreateInstallmentTemplateUseCase.first_due_date input;
     InstallmentTemplate.is_active := true;
     InstallmentTemplate.created_at := now w;
     InstallmentTemplate.updated_at := now w |}.

(** A purchase that passes [validateInput] and the template schema at the
    instant of [w]: a positive amount, 2 to 120 installments, a first due
    day that is not before today, and UUIDs for the couple, the payer, the
    account and the category if there is one. *)
Definition acceptedPurchase (w : World)
    (input : CreateInstallmentTemplateUseCase.Input) : Prop :=
  (0 <? CreateInstallmentTemplateUseCase.total_amount input)%float = true
  /\ 2 <= CreateInstallmentTemplateUseCase.total_installments input <= 120
  /\ JSDate.Day (now w)
     <= JSDate.Day (CreateInstallmentTemplateUseCase.first_due_date input)
  /\ Zod.is_uuid (CreateInstallmentTemplateUseCase.couple_id input) = true
  /\ Zod.is_uuid (CreateInstallmentTemplateUseCase.paid_by_id input) = true
  /\ Zod.is_uuid (CreateInstallmentTemplateUseCase.account_id input) = true
  /\ Zod.opt_uuid (CreateInstallmentTemplateUseCase.category_id input) = true.

(** [purchase total count] without a description. *)
Definition purchaseUndescribed (total : float) (count : Z)
  : CreateInstallmentTemplateUseCase.Input :=
  {| CreateInstallmentTemplateUseCase.couple_id := coupleId;
     CreateInstallmentTemplateUseCase.description := None;
     CreateInstallmentTemplateUseCase.total_amount := total;
     CreateInstallmentTemplateUseCase.total_installments := count;
     CreateInstallmentTemplateUseCase.paid_by_id := payerId;
     CreateInstallmentTemplateUseCase.account_id := accountId;
     CreateInstallmentTemplateUseCase.category_id := Some categoryId;
     CreateInstallmentTemplateUseCase.is_couple_expense := true;
     CreateInstallmentTemplateUseCase.is_free_spending := false;
     CreateInstallmentTemplateUseCase.visibility := SHARED;
     CreateInstallmentTemplateUseCase.first_due_date := JSDate.ymd 2024 2 1 |}.



Definition jointAccount : Account.t :=
  {| Account.id := accountId; Account.owner_id := None |}.

Definition scenarioRent : World :=
  {| now := JSDate.ymd 2024 1 1; uuids := exampleUuid; rng := O;
     tenant := coupleId; installments := []; occurrences := [];
     installmentTemplates := []; recurringTemplates := []; transactions := [];
     accounts := [jointAccount] |}.

(** The page that the list endpoint returns in scenario D. *)
Definition pageD : InstallmentTemplatePagination.PaginationOutput :=
  {| InstallmentTemplatePagination.data := [tvTemplate];
     InstallmentTemplatePagination.nextCursor := None;
     InstallmentTemplatePagination.hasMore := false;
     InstallmentTemplatePagination.hasInactiveTemplates := false |}.

(** The request that [CreateInstallmentTemplateUseCase] would get for the
    purchase [input] with the visibility [v]. *)
Definition asTemplateInput (input : CreateInstallmentTransactionUseCase.Input)
    (v : TransactionVisibility) : CreateInstallmentTemplateUseCase.Input :=
  {| CreateInstallmentTemplateUseCase.couple_id :=
       CreateInstallmentTransactionUseCase.couple_id input;
     CreateInstallmentTemplateUseCase.description :=
       CreateInstallmentTransactionUseCase.description input;
     CreateInstallmentTemplateUseCase.total_amount :=
       CreateInstallmentTransactionUseCase.total_amount input;
     CreateInstallmentTemplateUseCase.total_installments :=
       CreateInstallmentTransactionUseCase.total_installments input;
     CreateInstallmentTemplateUseCase.paid_by_id :=
       CreateInstallmentTransactionUseCase.paid_by_id input;
     CreateInstallmentTemplateUseCase.account_id :=
       CreateInstallmentTransactionUseCase.account_id input;
     CreateInstallmentTemplateUseCase.category_id :=
       CreateInstallmentTransactionUseCase.category input;
     CreateInstallmentTemplateUseCase.is_couple_expense :=
       CreateInstallmentTransactionUseCase.is_couple_expense input;
     CreateInstallmentTemplateUseCase.is_free_spending :=
       CreateInstallmentTransactionUseCase.is_free_spending input;
     CreateInstallmentTemplateUseCase.visibility := v;
     CreateInstallmentTemplateUseCase.first_due_date :=
       CreateInstallmentTransactionUseCase.first_installment_date input |}.

(** The visibility a use case gives a template on the account [acc]:
    the one asked for, else private on a personal account and shared on
    a joint one. *)
Definition visibilityOn (asked : option TransactionVisibility) (acc : Account.t)
  : TransactionVisibility :=
  nullish asked (if falsy (Account.owner_id acc) then SHARED else PRIVATE).

(** A TV bought in 12 installments from the joint account, no first
    payment, on 2024-01-01. *)
Definition tvPurchase : CreateInstallmentTransactionUseCase.Input :=
  {| CreateInstallmentTransactionUseCase.couple_id := coupleId;
     CreateInstallmentTransactionUseCase.total_amount := 1200%float;
     CreateInstallmentTransactionUseCase.total_installments := 12;
     CreateInstallmentTransactionUseCase.description := Some "TV"%string;
     CreateInstallmentTransactionUseCase.paid_by_id := payerId;
     CreateInstallmentTransactionUseCase.account_id := accountId;
     CreateInstallmentTransactionUseCase.is_couple_expense := true;
     CreateInstallmentTransactionUseCase.is_free_spending := false;
     CreateInstallmentTransactionUseCase.visibility := None;
     CreateInstallmentTransactionUseCase.category := Some categoryId;
     CreateInstallmentTransactionUseCase.first_installment_date :=
       JSDate.ymd 2024 2 1;
     CreateInstallmentTransactionUseCase.pay_first_installment := false |}.

(** * Properties *)

(** ** Calendar arithmetic *)

Section Calendar.

Import JSDate.

Lemma MonthFromTime_range t : 0 <= MonthFromTime t <= 11.
Proof.
  unfold MonthFromTime.
  repeat match goal with |- context [if ?b then _ else _] => destruct b end; lia.
Qed.

Lemma MakeDate_Day_TimeWithinDay t k :
  MakeDate (Day t + k) (TimeWithinDay t) = t + k * msPerDay.
Proof.
  unfold MakeDate, Day, TimeWithinDay.
  pose proof (Z.div_mod t msPerDay ltac:(discriminate)). lia.
Qed.

(** A date's own year, month and day of the month give its day back. *)
Lemma MakeDay_own t k :
  MakeDay (YearFromTime t) (MonthFromTime t) (DateFromTime t + k) = Day t + k.
Proof.
  pose proof (MonthFromTime_range t) as Hm.
  unfold MakeDay. cbv zeta.
  rewrite (Z.div_small (MonthFromTime t) 12), (Z.mod_small (MonthFromTime t) 12)
    by lia.
  rewrite Z.add_0_r.
  unfold DateFromTime, DayWithinYear, InLeapYear. lia.
Qed.

(** [d.setDate(d.getDate() + k)] moves a date by [k] whole days. *)
Lemma setDate_getDate t k : setDate t (getDate t + k) = t + k * msPerDay.
Proof.
  unfold setDate, getDate. rewrite MakeDay_own. apply MakeDate_Day_TimeWithinDay.
Qed.

Lemma setHours0_Day t : setHours0 t = Day t * msPerDay.
Proof. unfold setHours0, MakeDate. lia. Qed.

Lemma DayFromYear_step y : 364 <= DayFromYear (y + 1) - DayFromYear y <= 366.
Proof. unfold DayFromYear. Z.div_mod_to_equations. lia. Qed.

Lemma DayFromYear_mono y i :
  0 <= i -> 364 * i <= DayFromYear (y + i) - DayFromYear y.
Proof. intros Hi. unfold DayFromYear. Z.div_mod_to_equations. lia. Qed.

Lemma DayFromYear_bounds y :
  146097 * (y - 1970) - 800 <= 400 * DayFromYear y <= 146097 * (y - 1970) + 800.
Proof. unfold DayFromYear. Z.div_mod_to_equations. lia. Qed.

(** [YearFromDay d] is the year the day [d] falls in. *)
Lemma YearFromDay_spec d :
  DayFromYear (YearFromDay d) <= d < DayFromYear (YearFromDay d + 1).
Proof.
  unfold YearFromDay. cbv zeta.
  set (y0 := 1970 + d * 400 / 146097).
  assert (Hy0 : 146097 * (y0 - 1970) <= d * 400 < 146097 * (y0 - 1970) + 146097).
  { subst y0. Z.div_mod_to_equations. lia. }
  pose proof (DayFromYear_bounds y0).
  pose proof (DayFromYear_bounds (y0 - 1)).
  pose proof (DayFromYear_bounds (y0 + 1)).
  pose proof (DayFromYear_bounds (y0 + 1 + 1)).
  destruct (Z.ltb_spec d (DayFromYear y0)).
  { replace (y0 - 1 + 1) with y0 by lia. lia. }
  destruct (Z.leb_spec (DayFromYear (y0 + 1)) d); lia.
Qed.

Lemma DaysInYear_spec y : DayFromYear (y + 1) - DayFromYear y = DaysInYear y.
Proof.
  unfold DayFromYear, DaysInYear, leapYear.
  destruct (Z.eqb_spec (y mod 4) 0); cbn [negb];
    [destruct (Z.eqb_spec (y mod 100) 0); cbn [negb];
     [destruct (Z.eqb_spec (y mod 400) 0) |] |];
    Z.div_mod_to_equations; lia.
Qed.

Lemma DayWithinYear_range t :
  0 <= DayWithinYear t < DaysInYear (YearFromTime t).
Proof.
  unfold DayWithinYear, YearFromTime.
  pose proof (YearFromDay_spec (Day t)).
  pose proof (DaysInYear_spec (YearFromDay (Day t))). lia.
Qed.

(** The day of the month is one of 1..31. *)
Lemma DateFromTime_range t : 1 <= DateFromTime t <= 31.
Proof.
  pose proof (DayWithinYear_range t) as Hd.
  unfold DateFromTime, MonthFromTime, InLeapYear, DaysInYear in *.
  destruct (leapYear (YearFromTime t));
    repeat match goal with
           | |- context [if ?b then _ else _] =>
               let H := fresh in destruct b eqn:H;
               [apply Z.ltb_lt in H | apply Z.ltb_ge in H]
           end; cbn; lia.
Qed.

Lemma daysBeforeMonth_step l m :
  0 <= m < 11 -> 28 <= daysBeforeMonth l (m + 1) - daysBeforeMonth l m <= 31.
Proof.
  intros Hm.
  assert (m = 0 \/ m = 1 \/ m = 2 \/ m = 3 \/ m = 4 \/ m = 5 \/ m = 6
          \/ m = 7 \/ m = 8 \/ m = 9 \/ m = 10) as Hcases by lia.
  destruct l;
    repeat (destruct Hcases as [-> | Hcases];
            [vm_compute; split; discriminate |]);
    subst; vm_compute; split; discriminate.
Qed.

Lemma daysBeforeMonth_leap l1 l2 m :
  -1 <= daysBeforeMonth l1 m - daysBeforeMonth l2 m <= 1.
Proof.
  unfold daysBeforeMonth.
  repeat match goal with |- context [if ?b then _ else _] => destruct b end; lia.
Qed.

Lemma monthStart_step y k :
  28 <= DayFromYear (y + (k + 1) / 12)
          + daysBeforeMonth (leapYear (y + (k + 1) / 12)) ((k + 1) mod 12)
        - (DayFromYear (y + k / 12)
           + daysBeforeMonth (leapYear (y + k / 12)) (k mod 12)).
Proof.
  assert (Hc : k mod 12 = 11 \/ 0 <= k mod 12 < 11)
    by (pose proof (Z.mod_pos_bound k 12); lia).
  destruct Hc as [Hc | Hc].
  - assert ((k + 1) / 12 = k / 12 + 1) as -> by (Z.div_mod_to_equations; lia).
    assert ((k + 1) mod 12 = 0) as -> by (Z.div_mod_to_equations; lia).
    rewrite Hc, Z.add_assoc.
    pose proof (DayFromYear_step (y + k / 12)).
    pose proof (daysBeforeMonth_leap (leapYear (y + k / 12)) false 11) as H11.
    change (daysBeforeMonth false 11) with 334 in H11.
    change (daysBeforeMonth (leapYear (y + k / 12 + 1)) 0) with 0. lia.
  - assert ((k + 1) / 12 = k / 12) as -> by (Z.div_mod_to_equations; lia).
    assert ((k + 1) mod 12 = k mod 12 + 1) as -> by (Z.div_mod_to_equations; lia).
    pose proof (daysBeforeMonth_step (leapYear (y + k / 12)) (k mod 12) Hc). lia.
Qed.

Lemma MakeDay_month_mono y k d i :
  0 <= i -> 28 * i <= MakeDay y (k + i) d - MakeDay y k d.
Proof.
  intros Hi. pattern i. apply natlike_ind; [| | exact Hi].
  - rewrite Z.add_0_r. lia.
  - intros x Hx IH. pose proof (monthStart_step y (k + x)) as Hs.
    replace (k + Z.succ x) with (k + x + 1) by lia.
    unfold MakeDay in *. lia.
Qed.

(** [d.setMonth(d.getMonth() + i)] moves a date forward by at least 28
    days when [i >= 1]. *)
Lemma setMonth_getMonth_ge t i :
  1 <= i -> t + 28 * msPerDay <= setMonth t (getMonth t + i).
Proof.
  intros Hi. unfold setMonth, getMonth.
  pose proof (MakeDay_own t 0) as Hown. rewrite !Z.add_0_r in Hown.
  pose proof (MakeDay_month_mono (YearFromTime t) (MonthFromTime t)
                (DateFromTime t) i ltac:(lia)) as Hmono.
  pose proof (MakeDate_Day_TimeWithinDay t
    (MakeDay (YearFromTime t) (MonthFromTime t + i) (DateFromTime t) - Day t))
    as Hd.
  replace (Day t + (MakeDay (YearFromTime t) (MonthFromTime t + i) (DateFromTime t)
                    - Day t))
    with (MakeDay (YearFromTime t) (MonthFromTime t + i) (DateFromTime t))
    in Hd by lia.
  rewrite Hd. unfold msPerDay. lia.
Qed.

(** [d.setFullYear(d.getFullYear() + i)] moves a date forward by at least
    363 days when [i >= 1]. *)
Lemma setFullYear_getFullYear_ge t i :
  1 <= i -> t + 363 * msPerDay <= setFullYear t (getFullYear t + i).
Proof.
  intros Hi. unfold setFullYear, getFullYear.
  pose proof (MakeDay_own t 0) as Hown. rewrite !Z.add_0_r in Hown.
  pose proof (MonthFromTime_range t) as Hm.
  pose proof (DayFromYear_mono (YearFromTime t) i ltac:(lia)) as Hmono.
  pose proof (daysBeforeMonth_leap (leapYear (YearFromTime t + i))
                (leapYear (YearFromTime t)) (MonthFromTime t)) as Hl.
  assert (MakeDay (YearFromTime t + i) (MonthFromTime t) (DateFromTime t)
          = Day t
            + (DayFromYear (YearFromTime t + i) - DayFromYear (YearFromTime t)
               + (daysBeforeMonth (leapYear (YearFromTime t + i)) (MonthFromTime t)
                  - daysBeforeMonth (leapYear (YearFromTime t)) (MonthFromTime t))))
    as ->.
  { rewrite <- Hown. unfold MakeDay. cbv zeta.
    rewrite (Z.div_small (MonthFromTime t) 12),
      (Z.mod_small (MonthFromTime t) 12) by lia.
    rewrite !Z.add_0_r. lia. }
  rewrite MakeDate_Day_TimeWithinDay. unfold msPerDay. lia.
Qed.

Lemma Day_within d ms : 0 <= ms < msPerDay -> Day (d * msPerDay + ms) = d.
Proof.
  intros Hms. unfold Day. rewrite Z.add_comm, Z.div_add by discriminate.
  rewrite Z.div_small by exact Hms. reflexivity.
Qed.

Lemma TimeWithinDay_within d ms :
  0 <= ms < msPerDay -> TimeWithinDay (d * msPerDay + ms) = ms.
Proof.
  intros Hms. unfold TimeWithinDay. rewrite Z.add_comm, Z.mod_add by discriminate.
  apply Z.mod_small. exact Hms.
Qed.

(** Adding months keeps the time of day: the calendar fields depend on
    the day only. *)
Lemma setMonth_time_of_day d ms k :
  0 <= ms < msPerDay ->
  setMonth (d * msPerDay + ms) (getMonth (d * msPerDay + ms) + k)
  = setMonth (d * msPerDay) (getMonth (d * msPerDay) + k) + ms.
Proof.
  intros Hms.
  unfold setMonth, getMonth, DateFromTime, MonthFromTime, InLeapYear,
    DayWithinYear, YearFromTime.
  rewrite (Day_within d ms Hms), (TimeWithinDay_within d ms Hms).
  pose proof (Day_within d 0 ltac:(unfold msPerDay; lia)) as H0.
  pose proof (TimeWithinDay_within d 0 ltac:(unfold msPerDay; lia)) as T0.
  rewrite Z.add_0_r in H0, T0. rewrite H0, T0.
  unfold MakeDate. lia.
Qed.

End Calendar.

(** The recurrence step moves the cursor forward by at least one day. *)
Lemma step_advances tpl d :
  1 <= RecurringTransactionTemplate.interval tpl ->
  d + JSDate.msPerDay <= step tpl d.
Proof.
  intros Hi. unfold step, GenerateRecurringOccurrencesUseCase.calculateNextDate.
  destruct (RecurringTransactionTemplate.frequency tpl).
  - rewrite setDate_getDate. unfold JSDate.msPerDay. lia.
  - rewrite setDate_getDate. unfold JSDate.msPerDay. lia.
  - pose proof (setMonth_getMonth_ge d _ Hi). unfold JSDate.msPerDay in *. lia.
  - pose proof (setFullYear_getFullYear_ge d _ Hi). unfold JSDate.msPerDay in *. lia.
Qed.

(** ** The monad and the world *)

Lemma bind_Ok {A B} (c : M A) (k : A -> M B) w a w' :
  c w = (Ok a, w') -> bind c k w = k a w'.
Proof. intros H. unfold bind. rewrite H. reflexivity. Qed.

Lemma drawn_0 w : drawn 0 w = w.
Proof. destruct w; reflexivity. Qed.

Lemma drawn_drawn a b w : drawn a (drawn b w) = drawn (a + b) w.
Proof. unfold drawn; simpl. f_equal. lia. Qed.

Lemma newOccurrences_drawn j w tid k dates :
  newOccurrences (drawn j w) tid k dates = newOccurrences w tid k dates.
Proof.
  revert k. induction dates as [| d rest IH]; intros k; simpl; [reflexivity |].
  rewrite IH. reflexivity.
Qed.

Lemma newOccurrences_length w tid k dates :
  length (newOccurrences w tid k dates) = length dates.
Proof.
  revert k. induction dates as [| d rest IH]; intros k; simpl; [reflexivity |].
  rewrite IH. reflexivity.
Qed.

Lemma newOccurrences_due_date w tid k dates :
  map RecurringOccurrence.due_date (newOccurrences w tid k dates) = dates.
Proof.
  revert k. induction dates as [| d rest IH]; intros k; simpl; [reflexivity |].
  rewrite IH. reflexivity.
Qed.

Lemma createOccurrence_Ok tid d w :
  Zod.is_uuid tid = true ->
  createOccurrence tid d w
  = (Ok {| RecurringOccurrence.id := uuids w (rng w);
           RecurringOccurrence.template_id := tid;
           RecurringOccurrence.due_date := d;
           RecurringOccurrence.status := PENDING;
           RecurringOccurrence.transaction_id := None;
           RecurringOccurrence.created_at := now w;
           RecurringOccurrence.updated_at := now w |}, drawn 1 w).
Proof.
  intros Hid.
  unfold createOccurrence, bind, lift, randomUUID, newDate,
    RecurringOccurrence.create, RecurringOccurrence.new,
    RecurringOccurrence.validate.
  simpl. rewrite Hid. simpl. reflexivity.
Qed.

(** ** The generation loop *)

Section GenerationLoop.

Variable tpl : RecurringTransactionTemplate.t.
Variable existingDates : gset string.
Variable endDate : Z.

Hypothesis tpl_uuid : Zod.is_uuid (RecurringTransactionTemplate.id tpl) = true.
Hypothesis tpl_interval : 1 <= RecurringTransactionTemplate.interval tpl.
Hypothesis endDate_le :
  forall e, RecurringTransactionTemplate.end_date tpl = Some e -> endDate <= e.

Lemma generateLoop_unfold fuel cur acc :
  GenerateRecurringOccurrencesUseCase.generateLoop (S fuel) tpl existingDates endDate cur acc
  = if cur <=? endDate then
      let* acc' :=
        (if negb (has existingDates (JSDate.toISODate cur)) then
           let* occurrence := createOccurrence (RecurringTransactionTemplate.id tpl) cur in
           ret (acc ++ [occurrence])
         else ret acc) in
      match RecurringTransactionTemplate.end_date tpl with
      | Some e =>
          if e <? step tpl cur then ret (Some acc')
          else GenerateRecurringOccurrencesUseCase.generateLoop fuel tpl existingDates endDate (step tpl cur) acc'
      | None => GenerateRecurringOccurrencesUseCase.generateLoop fuel tpl existingDates endDate (step tpl cur) acc'
      end
    else ret (Some acc).
Proof. reflexivity. Qed.

(** With enough fuel the loop ends: it visits the cursor dates up to
    [endDate] and creates a pending occurrence for each unscheduled one. *)
Lemma generateLoop_spec fuel :
  forall cur acc w,
    endDate - cur < Z.of_nat fuel * JSDate.msPerDay ->
    exists n,
      GenerateRecurringOccurrencesUseCase.generateLoop (S fuel) tpl existingDates endDate cur acc w
      = (Ok (Some (acc ++ newOccurrences w (RecurringTransactionTemplate.id tpl) (rng w)
                            (unscheduled existingDates (cursorsFrom tpl n cur)))),
         drawn (length (unscheduled existingDates (cursorsFrom tpl n cur))) w)
      /\ Forall (fun d => d <= endDate) (cursorsFrom tpl n cur)
      /\ endDate < cursorAt tpl n cur.
Proof.
  induction fuel as [| fuel IH]; intros cur acc w Hfuel.
  - exists O. simpl. unfold JSDate.msPerDay in Hfuel.
    destruct (Z.leb_spec cur endDate) as [Hle | Hgt]; [lia |].
    unfold ret. rewrite app_nil_r, drawn_0. repeat split; [constructor | lia].
  - rewrite generateLoop_unfold.
    destruct (Z.leb_spec cur endDate) as [Hle | Hgt].
    2:{ exists O. simpl. unfold ret. rewrite app_nil_r, drawn_0.
        repeat split; [constructor | lia]. }
    pose proof (step_advances tpl cur tpl_interval) as Hstep.
    assert (Hfuel' : endDate - step tpl cur < Z.of_nat fuel * JSDate.msPerDay)
      by (unfold JSDate.msPerDay in *; lia).
    (* what one iteration adds *)
    set (here := unscheduled existingDates [cur]).
    assert (Hbody :
      (if negb (has existingDates (JSDate.toISODate cur)) then
         let* occurrence := createOccurrence (RecurringTransactionTemplate.id tpl) cur in ret (acc ++ [occurrence])
       else ret acc) w
      = (Ok (acc ++ newOccurrences w (RecurringTransactionTemplate.id tpl) (rng w) here), drawn (length here) w)).
    { subst here. unfold unscheduled. simpl.
      destruct (negb (has existingDates (JSDate.toISODate cur))).
      - erewrite bind_Ok by (apply createOccurrence_Ok; exact tpl_uuid).
        reflexivity.
      - unfold ret. simpl. rewrite app_nil_r, drawn_0. reflexivity. }
    erewrite bind_Ok by exact Hbody.
    destruct (IH (step tpl cur) (acc ++ newOccurrences w (RecurringTransactionTemplate.id tpl) (rng w) here)
                (drawn (length here) w) Hfuel') as (n' & Hrun & Hall & Hend).
    assert (Hsplit : forall m,
      unscheduled existingDates (cursorsFrom tpl (S m) cur)
      = here ++ unscheduled existingDates (cursorsFrom tpl m (step tpl cur))).
    { intros m. subst here. unfold unscheduled. simpl.
      destruct (negb (has existingDates (JSDate.toISODate cur))); reflexivity. }
    assert (Hnew : forall rest,
      (acc ++ newOccurrences w (RecurringTransactionTemplate.id tpl) (rng w) here)
        ++ newOccurrences (drawn (length here) w)
             (RecurringTransactionTemplate.id tpl)
             (rng (drawn (length here) w)) rest
      = acc ++ newOccurrences w (RecurringTransactionTemplate.id tpl) (rng w) (here ++ rest)).
    { intros rest. rewrite newOccurrences_drawn, <- app_assoc. f_equal.
      subst here. unfold unscheduled. simpl.
      destruct (negb (has existingDates (JSDate.toISODate cur))); reflexivity. }
    assert (Hcont :
      exists n,
        GenerateRecurringOccurrencesUseCase.generateLoop (S fuel) tpl existingDates endDate (step tpl cur)
          (acc ++ newOccurrences w (RecurringTransactionTemplate.id tpl) (rng w) here) (drawn (length here) w)
        = (Ok (Some (acc ++ newOccurrences w (RecurringTransactionTemplate.id tpl) (rng w)
                              (unscheduled existingDates (cursorsFrom tpl n cur)))),
           drawn (length (unscheduled existingDates (cursorsFrom tpl n cur))) w)
        /\ Forall (fun d => d <= endDate) (cursorsFrom tpl n cur)
        /\ endDate < cursorAt tpl n cur).
    { exists (S n'). rewrite Hrun, Hsplit, Hnew, drawn_drawn, length_app.
      repeat split.
      - f_equal. f_equal. lia.
      - simpl. constructor; assumption.
      - exact Hend. }
    destruct (RecurringTransactionTemplate.end_date tpl) as [e |] eqn:He;
      [| exact Hcont].
    destruct (Z.ltb_spec e (step tpl cur)) as [Hlt | Hge]; [| exact Hcont].
    exists 1%nat. unfold ret. rewrite (Hsplit O). simpl.
    rewrite app_nil_r. repeat split.
    + constructor; [exact Hle | constructor].
    + pose proof (endDate_le e eq_refl). lia.
Qed.

End GenerationLoop.

(** ** Reading and writing occurrence rows *)

Lemma traverseM_lift_id {A} (f : A -> result A) (l : list A) w :
  Forall (fun x => f x = Ok x) l ->
  traverseM (fun x => lift (f x)) l w = (Ok l, w).
Proof.
  induction 1 as [| x l Hx Hl IH]; [reflexivity |].
  simpl. unfold bind at 1. unfold lift at 1. rewrite Hx.
  unfold bind at 1. rewrite IH. reflexivity.
Qed.

Lemma occurrence_new_toProps o :
  readable o ->
  RecurringOccurrence.new "" 0 (RecurringOccurrence.toProps o) = Ok o.
Proof.
  intros (Hid & Htid & Htx). destruct o as [id tid due st tx ca ua].
  unfold RecurringOccurrence.new, RecurringOccurrence.validate. simpl in *.
  rewrite Hid, Htid, Htx. reflexivity.
Qed.

Lemma occurrences_toDomain l w :
  Forall readable l ->
  traverseM PrismaRecurringOccurrenceMapper.toDomain l w = (Ok l, w).
Proof.
  intros Hl. unfold PrismaRecurringOccurrenceMapper.toDomain.
  apply (traverseM_lift_id
           (fun row => RecurringOccurrence.new "" 0 (RecurringOccurrence.toProps row))).
  eapply Forall_impl; [exact Hl | apply occurrence_new_toProps].
Qed.

Lemma newOccurrences_readable w tid k dates :
  uuidsValid w -> Zod.is_uuid tid = true ->
  Forall readable (newOccurrences w tid k dates).
Proof.
  intros Hw Htid. revert k.
  induction dates as [| d rest IH]; intros k; simpl; constructor; [| apply IH].
  repeat split; simpl; auto.
Qed.

Lemma newOccurrences_template_id w tid k dates :
  Forall (fun o => RecurringOccurrence.template_id o = tid)
    (newOccurrences w tid k dates).
Proof.
  revert k. induction dates as [| d rest IH]; intros k; simpl; constructor; auto.
Qed.

Lemma filter_all {A} (P : A -> Prop) `{forall x, Decision (P x)} (l : list A) :
  Forall P l -> filter P l = l.
Proof.
  induction 1 as [| x l Hx Hl IH]; [reflexivity |].
  rewrite filter_cons_True by exact Hx. rewrite IH. reflexivity.
Qed.

(** [createMany] appends the batch and reads it back, newest first. *)
Lemma occurrences_createMany batch w :
  Forall readable batch ->
  PrismaRecurringOccurrenceRepository.createMany batch w
  = (Ok (rev batch), set_occurrences (occurrences w ++ batch) w).
Proof.
  intros Hb. unfold PrismaRecurringOccurrenceRepository.createMany. cbv zeta.
  replace (occurrences (set_occurrences (occurrences w ++ batch) w))
    with (occurrences w ++ batch) by reflexivity.
  rewrite filter_app.
  rewrite (filter_all _ batch).
  2:{ apply Forall_forall. intros o Ho. apply list_elem_of_In.
      apply in_map. apply list_elem_of_In. exact Ho. }
  rewrite rev_app_distr.
  rewrite take_app_length' by (rewrite length_rev; reflexivity).
  apply occurrences_toDomain.
  apply Forall_forall. intros o Ho.
  apply list_elem_of_In, in_rev, list_elem_of_In in Ho.
  rewrite Forall_forall in Hb. auto.
Qed.

(** ** One generation run *)

Section GenerateRun.

Lemma calculateEndDate_horizon tpl m w :
  GenerateRecurringOccurrencesUseCase.calculateEndDate tpl m w
  = (Ok (horizon (now w) tpl m), w).
Proof.
  unfold GenerateRecurringOccurrencesUseCase.calculateEndDate, horizon, bind, newDate, ret. cbv zeta.
  destruct (RecurringTransactionTemplate.end_date tpl) as [e |]; [| reflexivity].
  destruct (Z.ltb_spec e
              (JSDate.setMonth (now w) (JSDate.getMonth (now w) + m))).
  - rewrite Z.min_r by lia. reflexivity.
  - rewrite Z.min_l by lia. reflexivity.
Qed.

Lemma horizon_le_end today tpl m e :
  RecurringTransactionTemplate.end_date tpl = Some e -> horizon today tpl m <= e.
Proof. intros He. unfold horizon. rewrite He. cbv zeta. lia. Qed.

Lemma fuelFor_enough endDate cur fuel :
  (fuelFor endDate cur <= S fuel)%nat ->
  endDate - cur < Z.of_nat fuel * JSDate.msPerDay.
Proof.
  unfold fuelFor, JSDate.msPerDay. intros Hf.
  pose proof (Z.div_mod (endDate - cur) 86400000 ltac:(discriminate)) as Hdm.
  pose proof (Z.mod_pos_bound (endDate - cur) 86400000 ltac:(reflexivity)) as Hb.
  destruct (Z_lt_le_dec ((endDate - cur) / 86400000 + 1) 0) as [Hneg | Hpos].
  - lia.
  - assert (Z.of_nat fuel >= (endDate - cur) / 86400000 + 1) by lia. nia.
Qed.

Lemma set_occurrences_same w : set_occurrences (occurrences w) w = w.
Proof. destruct w; reflexivity. Qed.

(** A run on an active, well-formed template whose existing rows are
    [existing]: the rows it appends and the occurrences it returns. *)
Lemma execute_run w input tpl existing fuel :
  uuidsValid w ->
  RecurringTransactionTemplateRepository.findById (GenerateRecurringOccurrencesUseCase.template_id input) w
    = (Ok (Some tpl), w) ->
  RecurringTransactionTemplate.is_active tpl = true ->
  RecurringTransactionTemplate.wf tpl = true ->
  PrismaRecurringOccurrenceRepository.findByTemplateId
    (RecurringTransactionTemplate.id tpl) w = (Ok existing, w) ->
  (fuelFor (horizon (now w) tpl (orDefault (GenerateRecurringOccurrencesUseCase.months_ahead input) 3))
     (RecurringTransactionTemplate.next_occurrence tpl) <= fuel)%nat ->
  exists n,
    GenerateRecurringOccurrencesUseCase.execute fuel input w
    = (Ok (Some
         {| GenerateRecurringOccurrencesUseCase.template := tpl;
            GenerateRecurringOccurrencesUseCase.occurrences :=
              rev (newOccurrences w (RecurringTransactionTemplate.id tpl) (rng w)
                     (unscheduled (setOf (map dateKey existing))
                        (cursorsFrom tpl n
                           (RecurringTransactionTemplate.next_occurrence tpl)))) |}),
       set_occurrences
         (occurrences w
            ++ newOccurrences w (RecurringTransactionTemplate.id tpl) (rng w)
                 (unscheduled (setOf (map dateKey existing))
                    (cursorsFrom tpl n
                       (RecurringTransactionTemplate.next_occurrence tpl))))
         (drawn
            (length
               (unscheduled (setOf (map dateKey existing))
                  (cursorsFrom tpl n
                     (RecurringTransactionTemplate.next_occurrence tpl)))) w))
    /\ Forall (fun d => d <= horizon (now w) tpl (orDefault (GenerateRecurringOccurrencesUseCase.months_ahead input) 3))
         (cursorsFrom tpl n (RecurringTransactionTemplate.next_occurrence tpl))
    /\ horizon (now w) tpl (orDefault (GenerateRecurringOccurrencesUseCase.months_ahead input) 3)
       < cursorAt tpl n (RecurringTransactionTemplate.next_occurrence tpl).
Proof.
  intros Hw Hfind Hactive Hwf Hexisting Hfuel.
  unfold RecurringTransactionTemplate.wf in Hwf.
  apply andb_prop in Hwf as [Huuid Hint]. apply Z.leb_le in Hint.
  destruct fuel as [| fuel]; [unfold fuelFor in Hfuel; lia |].
  apply fuelFor_enough in Hfuel.
  set (h := horizon (now w) tpl (orDefault (GenerateRecurringOccurrencesUseCase.months_ahead input) 3)) in *.
  destruct (generateLoop_spec tpl (setOf (map dateKey existing)) h Huuid Hint
              (fun e He => horizon_le_end _ _ _ _ He) fuel
              (RecurringTransactionTemplate.next_occurrence tpl) [] w Hfuel)
    as (n & Hrun & Hall & Hend).
  exists n. split; [| split; assumption].
  set (dates := unscheduled (setOf (map dateKey existing))
                  (cursorsFrom tpl n
                     (RecurringTransactionTemplate.next_occurrence tpl))) in *.
  unfold GenerateRecurringOccurrencesUseCase.execute.
  erewrite bind_Ok by exact Hfind. cbv beta iota. rewrite Hactive. cbn [negb].
  erewrite bind_Ok by exact Hexisting.
  erewrite bind_Ok by apply calculateEndDate_horizon.
  erewrite bind_Ok by exact Hrun.
  cbv beta iota. cbn [app]. rewrite newOccurrences_length.
  destruct dates as [| d rest] eqn:Hdates.
  - simpl. unfold bind, ret. rewrite drawn_0, app_nil_r, set_occurrences_same.
    reflexivity.
  - replace (0 <? length (d :: rest))%nat with true by reflexivity.
    erewrite bind_Ok.
    2:{ apply occurrences_createMany.
        apply newOccurrences_readable; [| exact Huuid].
        intros k. apply Hw. }
    reflexivity.
Qed.

End GenerateRun.

(** ** Where the loop stops *)

Lemma cursorAt_in tpl m :
  forall n c, (m < n)%nat -> In (cursorAt tpl m c) (cursorsFrom tpl n c).
Proof.
  induction m as [| m IH]; intros n c Hlt; destruct n as [| n]; try lia; simpl.
  - left. reflexivity.
  - right. apply IH. lia.
Qed.

Lemma stop_le tpl e c n m :
  Forall (fun d => d <= e) (cursorsFrom tpl n c) ->
  e < cursorAt tpl m c -> (n <= m)%nat.
Proof.
  intros Hall Hend. destruct (le_lt_dec n m) as [Hle | Hlt]; [exact Hle |].
  pose proof (cursorAt_in tpl m n c Hlt) as Hin.
  rewrite Forall_forall in Hall. apply list_elem_of_In, Hall in Hin. lia.
Qed.

Lemma stop_unique tpl e c n m :
  Forall (fun d => d <= e) (cursorsFrom tpl n c) -> e < cursorAt tpl n c ->
  Forall (fun d => d <= e) (cursorsFrom tpl m c) -> e < cursorAt tpl m c ->
  n = m.
Proof.
  intros Hn1 Hn2 Hm1 Hm2.
  pose proof (stop_le tpl e c n m Hn1 Hm2).
  pose proof (stop_le tpl e c m n Hm1 Hn2). lia.
Qed.

Lemma unscheduled_empty dates : unscheduled (setOf []) dates = dates.
Proof.
  unfold unscheduled. induction dates as [| d rest IH]; [reflexivity |].
  simpl. rewrite IH. unfold has, setOf. simpl.
  rewrite bool_decide_eq_false_2 by set_solver. reflexivity.
Qed.

Lemma unscheduled_all existingDates dates :
  Forall (fun d => JSDate.toISODate d ∈ existingDates) dates ->
  unscheduled existingDates dates = [].
Proof.
  unfold unscheduled. induction 1 as [| d rest Hd Hrest IH]; [reflexivity |].
  simpl. unfold has at 1. rewrite bool_decide_eq_true_2 by exact Hd. exact IH.
Qed.

Lemma unscheduled_incl existingDates dates d :
  In d (unscheduled existingDates dates) -> In d dates.
Proof. unfold unscheduled. intros H. apply filter_In in H. tauto. Qed.

(** ** Idempotence of generation *)

Lemma dates_scheduled (l : list RecurringOccurrence.t) :
  Forall (fun d => JSDate.toISODate d ∈ setOf (map dateKey (merge_sort
            PrismaRecurringOccurrenceRepository.byDueDate l)))
    (map RecurringOccurrence.due_date l).
Proof.
  apply Forall_forall. intros d Hd.
  apply list_elem_of_In, in_map_iff in Hd as (o & <- & Ho).
  unfold setOf. apply elem_of_list_to_set.
  apply list_elem_of_In, in_map_iff. exists o. split; [reflexivity |].
  apply list_elem_of_In. rewrite merge_sort_Permutation.
  apply list_elem_of_In. exact Ho.
Qed.

(** C2: generation is idempotent. On an active template that has no
    occurrence yet, a run with enough fuel returns its occurrences [out1]
    and stores them as the template's rows; a second run with the same
    input, in the world the first one left (same clock), returns no
    occurrence and leaves the world as it is. *)
Theorem generate_idempotent w input tpl fuel :
  uuidsValid w ->
  RecurringTransactionTemplateRepository.findById
    (GenerateRecurringOccurrencesUseCase.template_id input) w
    = (Ok (Some tpl), w) ->
  RecurringTransactionTemplate.is_active tpl = true ->
  RecurringTransactionTemplate.wf tpl = true ->
  filter (fun r => RecurringOccurrence.template_id r
                   = RecurringTransactionTemplate.id tpl) (occurrences w) = [] ->
  (fuelFor (horizon (now w) tpl
              (orDefault (GenerateRecurringOccurrencesUseCase.months_ahead input) 3))
     (RecurringTransactionTemplate.next_occurrence tpl) <= fuel)%nat ->
  exists out1 w1,
    GenerateRecurringOccurrencesUseCase.execute fuel input w = (Ok (Some out1), w1)
    /\ now w1 = now w
    /\ filter (fun r => RecurringOccurrence.template_id r
                        = RecurringTransactionTemplate.id tpl) (occurrences w1)
       = rev (GenerateRecurringOccurrencesUseCase.occurrences out1)
    /\ GenerateRecurringOccurrencesUseCase.execute fuel input w1
       = (Ok (Some {| GenerateRecurringOccurrencesUseCase.template := tpl;
                      GenerateRecurringOccurrencesUseCase.occurrences := [] |}),
          w1).
Proof.
  intros Hw Hfind Hactive Hwf Hempty Hfuel.
  assert (Huuid : Zod.is_uuid (RecurringTransactionTemplate.id tpl) = true).
  { unfold RecurringTransactionTemplate.wf in Hwf.
    apply andb_prop in Hwf. tauto. }
  assert (Hread0 :
    PrismaRecurringOccurrenceRepository.findByTemplateId
      (RecurringTransactionTemplate.id tpl) w = (Ok [], w)).
  { unfold PrismaRecurringOccurrenceRepository.findByTemplateId.
    rewrite Hempty. reflexivity. }
  destruct (execute_run w input tpl [] fuel Hw Hfind Hactive Hwf Hread0 Hfuel)
    as (n & Hrun1 & Hall & Hend).
  cbn [map] in Hrun1. rewrite unscheduled_empty in Hrun1.
  set (c0 := RecurringTransactionTemplate.next_occurrence tpl) in *.
  set (tid := RecurringTransactionTemplate.id tpl) in *.
  set (E := newOccurrences w tid (rng w) (cursorsFrom tpl n c0)) in *.
  set (w1 := set_occurrences (occurrences w ++ E)
               (drawn (length (cursorsFrom tpl n c0)) w)) in *.
  assert (Hrows : filter (fun r => RecurringOccurrence.template_id r = tid)
                    (occurrences w1) = E).
  { change (occurrences w1) with (occurrences w ++ E).
    rewrite filter_app, Hempty. cbn [app].
    apply filter_all. apply newOccurrences_template_id. }
  assert (HreadableE : Forall readable E).
  { apply newOccurrences_readable; [exact Hw | exact Huuid]. }
  assert (Hread1 :
    PrismaRecurringOccurrenceRepository.findByTemplateId tid w1
    = (Ok (merge_sort PrismaRecurringOccurrenceRepository.byDueDate E), w1)).
  { unfold PrismaRecurringOccurrenceRepository.findByTemplateId.
    rewrite Hrows. apply occurrences_toDomain.
    rewrite merge_sort_Permutation. exact HreadableE. }
  assert (Hfind1 :
    RecurringTransactionTemplateRepository.findById
      (GenerateRecurringOccurrencesUseCase.template_id input) w1
    = (Ok (Some tpl), w1)).
  { unfold RecurringTransactionTemplateRepository.findById in *.
    change (recurringTemplates w1) with (recurringTemplates w).
    injection Hfind as ->. reflexivity. }
  destruct (execute_run w1 input tpl
              (merge_sort PrismaRecurringOccurrenceRepository.byDueDate E) fuel)
    as (n2 & Hrun2 & Hall2 & Hend2); try assumption.
  change (now w1) with (now w) in *.
  assert (n2 = n) as -> by (eapply stop_unique; eassumption).
  rewrite unscheduled_all in Hrun2.
  2:{ pose proof (dates_scheduled E) as Hs. subst E.
      rewrite newOccurrences_due_date in Hs. exact Hs. }
  cbn [newOccurrences rev length] in Hrun2.
  rewrite app_nil_r, drawn_0, set_occurrences_same in Hrun2.
  eexists. exists w1. split; [exact Hrun1 |]. split; [reflexivity |].
  split; [| exact Hrun2].
  cbn. rewrite rev_involutive. exact Hrows.
Qed.

(** ** The example identifier stream *)

Lemma digit_hex n s j :
  Zod.hexes (S j) (String.append (JSDate.digit n) s) = Zod.hexes j s.
Proof.
  unfold JSDate.digit.
  assert (Hd : n mod 10 = 0 \/ n mod 10 = 1 \/ n mod 10 = 2 \/ n mod 10 = 3
               \/ n mod 10 = 4 \/ n mod 10 = 5 \/ n mod 10 = 6 \/ n mod 10 = 7
               \/ n mod 10 = 8 \/ n mod 10 = 9)
    by (pose proof (Z.mod_pos_bound n 10); lia).
  repeat (destruct Hd as [-> | Hd]; [reflexivity |]). rewrite Hd. reflexivity.
Qed.

Lemma append_assoc (a b c : string) :
  String.append (String.append a b) c = String.append a (String.append b c).
Proof.
  induction a as [| x a IH]; [reflexivity |].
  change (String x (String.append (String.append a b) c)
          = String x (String.append a (String.append b c))).
  rewrite IH. reflexivity.
Qed.

Lemma hexes_pad k :
  forall n s j,
    Zod.hexes (k + j) (String.append (JSDate.pad k n) s) = Zod.hexes j s.
Proof.
  induction k as [| k IH]; intros n s j; [reflexivity |].
  cbn [JSDate.pad]. rewrite append_assoc.
  replace (S k + j)%nat with (k + S j)%nat by lia.
  rewrite IH. apply digit_hex.
Qed.

Lemma exampleUuid_valid k : Zod.is_uuid (exampleUuid k) = true.
Proof.
  unfold exampleUuid, Zod.is_uuid.
  change (Zod.andThen _ (Zod.hexes 12))
    with (Zod.hexes (12 + 0)
            (String.append (JSDate.pad 12 (Z.of_nat k)) EmptyString)).
  rewrite hexes_pad. reflexivity.
Qed.

Lemma emptyWorld_uuidsValid today : uuidsValid (emptyWorld today).
Proof. intros k. apply exampleUuid_valid. Qed.

(** An instance of [generate_idempotent]: scenario C, three months ahead. *)
Lemma generate_idempotent_witness :
  exists out1 w1,
    GenerateRecurringOccurrencesUseCase.execute 100 (generateC (Some 3)) scenarioC
    = (Ok (Some out1), w1)
    /\ now w1 = now scenarioC
    /\ filter (fun r => RecurringOccurrence.template_id r
                        = RecurringTransactionTemplate.id monthlyTemplate)
         (occurrences w1)
       = rev (GenerateRecurringOccurrencesUseCase.occurrences out1)
    /\ GenerateRecurringOccurrencesUseCase.execute 100 (generateC (Some 3)) w1
       = (Ok (Some {| GenerateRecurringOccurrencesUseCase.template := monthlyTemplate;
                      GenerateRecurringOccurrencesUseCase.occurrences := [] |}),
          w1).
Proof.
  apply (generate_idempotent scenarioC (generateC (Some 3)) monthlyTemplate 100).
  - apply emptyWorld_uuidsValid.
  - reflexivity.
  - reflexivity.
  - reflexivity.
  - reflexivity.
  - apply Nat.leb_le. vm_compute. reflexivity.
Defined.

(** ** Due dates of a generation run *)

Lemma step_by_frequency tpl d :
  step tpl d
  = match RecurringTransactionTemplate.frequency tpl with
    | DAILY => d + RecurringTransactionTemplate.interval tpl * JSDate.msPerDay
    | WEEKLY => d + RecurringTransactionTemplate.interval tpl * 7 * JSDate.msPerDay
    | MONTHLY =>
        JSDate.setMonth d
          (JSDate.getMonth d + RecurringTransactionTemplate.interval tpl)
    | YEARLY =>
        JSDate.setFullYear d
          (JSDate.getFullYear d + RecurringTransactionTemplate.interval tpl)
    end.
Proof.
  unfold step, GenerateRecurringOccurrencesUseCase.calculateNextDate.
  destruct (RecurringTransactionTemplate.frequency tpl);
    try reflexivity; apply setDate_getDate.
Qed.

(** Scenario C at any time of the day 2024-01-01. *)
Lemma scenarioC_any_time ms :
  0 <= ms < JSDate.msPerDay ->
  horizon (now (scenarioCAt ms)) monthlyTemplate 3 = JSDate.ymd 2024 4 1 + ms
  /\ exists out w',
       GenerateRecurringOccurrencesUseCase.execute 100 (generateC (Some 3))
         (scenarioCAt ms) = (Ok (Some out), w')
       /\ map RecurringOccurrence.due_date (occurrences w')
          = [JSDate.ymd 2024 1 15; JSDate.ymd 2024 2 15; JSDate.ymd 2024 3 15]
       /\ map dateKey (rev (GenerateRecurringOccurrencesUseCase.occurrences out))
          = ["2024-01-15"; "2024-02-15"; "2024-03-15"]%string.
Proof.
  intros Hms.
  assert (Hh : horizon (now (scenarioCAt ms)) monthlyTemplate 3
               = JSDate.ymd 2024 4 1 + ms).
  { unfold horizon. cbn [RecurringTransactionTemplate.end_date monthlyTemplate].
    change (now (scenarioCAt ms)) with (19723 * JSDate.msPerDay + ms).
    rewrite (setMonth_time_of_day 19723 ms 3 Hms). reflexivity. }
  split; [exact Hh |].
  destruct (execute_run (scenarioCAt ms) (generateC (Some 3)) monthlyTemplate []
              100%nat) as (n & Hrun & Hall & Hend).
  - apply emptyWorld_uuidsValid.
  - reflexivity.
  - reflexivity.
  - reflexivity.
  - reflexivity.
  - change (orDefault
              (GenerateRecurringOccurrencesUseCase.months_ahead (generateC (Some 3)))
              3) with 3.
    rewrite Hh. unfold fuelFor. apply le_n_S, Nat2Z.inj_le.
    change (RecurringTransactionTemplate.next_occurrence monthlyTemplate)
      with (19737 * JSDate.msPerDay).
    change (JSDate.ymd 2024 4 1) with (19814 * JSDate.msPerDay).
    unfold JSDate.msPerDay in *.
    rewrite Z2Nat.id by (Z.div_mod_to_equations; lia).
    Z.div_mod_to_equations; lia.
  - change (orDefault
              (GenerateRecurringOccurrencesUseCase.months_ahead (generateC (Some 3)))
              3) with 3 in *.
    rewrite Hh in Hall, Hend.
    assert (n = 3%nat) as ->.
    { eapply stop_unique; [exact Hall | exact Hend | |].
      - change (cursorsFrom monthlyTemplate 3
                  (RecurringTransactionTemplate.next_occurrence monthlyTemplate))
          with [19737 * JSDate.msPerDay; 19768 * JSDate.msPerDay;
                19797 * JSDate.msPerDay].
        change (JSDate.ymd 2024 4 1) with (19814 * JSDate.msPerDay).
        unfold JSDate.msPerDay in *.
        repeat constructor; lia.
      - change (cursorAt monthlyTemplate 3
                  (RecurringTransactionTemplate.next_occurrence monthlyTemplate))
          with (19828 * JSDate.msPerDay).
        change (JSDate.ymd 2024 4 1) with (19814 * JSDate.msPerDay).
        unfold JSDate.msPerDay in *. lia. }
    eexists. eexists. split; [exact Hrun |].
    cbn [map setOf]. rewrite unscheduled_empty.
    split; [reflexivity |].
    cbn [GenerateRecurringOccurrencesUseCase.occurrences].
    rewrite rev_involutive. reflexivity.
Qed.

(** C7: the recurrence step adds [interval] days, weeks, months or years;
    a run on an active template visits the cursor dates
    [next_occurrence], [step next_occurrence], ... that are not past the
    horizon [min(today + monthsAhead months, end_date)], stops at the first
    cursor past it, and emits one occurrence for each visited date that is
    not scheduled yet, so every emitted due date is at most the horizon.
    In scenario C (monthly from 2024-01-15, three months ahead, at any
    time of the day 2024-01-01) the occurrences are due on 2024-01-15,
    2024-02-15 and 2024-03-15, the horizon being 2024-04-01 at that time. *)
Theorem generation_follows_recurrence :
  (forall tpl d,
     step tpl d
     = match RecurringTransactionTemplate.frequency tpl with
       | DAILY => d + RecurringTransactionTemplate.interval tpl * JSDate.msPerDay
       | WEEKLY =>
           d + RecurringTransactionTemplate.interval tpl * 7 * JSDate.msPerDay
       | MONTHLY =>
           JSDate.setMonth d
             (JSDate.getMonth d + RecurringTransactionTemplate.interval tpl)
       | YEARLY =>
           JSDate.setFullYear d
             (JSDate.getFullYear d + RecurringTransactionTemplate.interval tpl)
       end)
  /\ (forall w input tpl existing fuel,
        uuidsValid w ->
        RecurringTransactionTemplateRepository.findById
          (GenerateRecurringOccurrencesUseCase.template_id input) w
          = (Ok (Some tpl), w) ->
        RecurringTransactionTemplate.is_active tpl = true ->
        RecurringTransactionTemplate.wf tpl = true ->
        PrismaRecurringOccurrenceRepository.findByTemplateId
          (RecurringTransactionTemplate.id tpl) w = (Ok existing, w) ->
        (fuelFor
           (horizon (now w) tpl
              (orDefault (GenerateRecurringOccurrencesUseCase.months_ahead input) 3))
           (RecurringTransactionTemplate.next_occurrence tpl) <= fuel)%nat ->
        exists n out w',
          GenerateRecurringOccurrencesUseCase.execute fuel input w
          = (Ok (Some out), w')
          /\ map RecurringOccurrence.due_date
               (rev (GenerateRecurringOccurrencesUseCase.occurrences out))
             = unscheduled (setOf (map dateKey existing))
                 (cursorsFrom tpl n
                    (RecurringTransactionTemplate.next_occurrence tpl))
          /\ occurrences w'
             = occurrences w
               ++ rev (GenerateRecurringOccurrencesUseCase.occurrences out)
          /\ Forall
               (fun o =>
                  RecurringOccurrence.due_date o
                  <= horizon (now w) tpl
                       (orDefault
                          (GenerateRecurringOccurrencesUseCase.months_ahead input) 3))
               (GenerateRecurringOccurrencesUseCase.occurrences out)
          /\ Forall
               (fun d =>
                  d <= horizon (now w) tpl
                         (orDefault
                            (GenerateRecurringOccurrencesUseCase.months_ahead input)
                            3))
               (cursorsFrom tpl n (RecurringTransactionTemplate.next_occurrence tpl))
          /\ horizon (now w) tpl
               (orDefault (GenerateRecurringOccurrencesUseCase.months_ahead input) 3)
             < cursorAt tpl n (RecurringTransactionTemplate.next_occurrence tpl))
  /\ (forall ms,
        0 <= ms < JSDate.msPerDay ->
        horizon (now (scenarioCAt ms)) monthlyTemplate 3 = JSDate.ymd 2024 4 1 + ms
        /\ exists out w',
             GenerateRecurringOccurrencesUseCase.execute 100 (generateC (Some 3))
               (scenarioCAt ms) = (Ok (Some out), w')
             /\ map RecurringOccurrence.due_date (occurrences w')
                = [JSDate.ymd 2024 1 15; JSDate.ymd 2024 2 15;
                   JSDate.ymd 2024 3 15]
             /\ map dateKey
                  (rev (GenerateRecurringOccurrencesUseCase.occurrences out))
                = ["2024-01-15"; "2024-02-15"; "2024-03-15"]%string).
Proof.
  split; [exact step_by_frequency |]. split.
  - intros w input tpl existing fuel Hw Hfind Hactive Hwf Hexisting Hfuel.
    destruct (execute_run w input tpl existing fuel Hw Hfind Hactive Hwf
                Hexisting Hfuel) as (n & Hrun & Hall & Hend).
    exists n. eexists. eexists. split; [exact Hrun |].
    cbn [GenerateRecurringOccurrencesUseCase.occurrences].
    rewrite rev_involutive, newOccurrences_due_date.
    repeat split; try assumption.
    apply Forall_forall. intros o Ho.
    apply list_elem_of_In, in_rev in Ho.
    apply (in_map RecurringOccurrence.due_date) in Ho.
    rewrite newOccurrences_due_date in Ho.
    apply unscheduled_incl in Ho.
    rewrite Forall_forall in Hall. apply Hall, list_elem_of_In, Ho.
  - exact scenarioC_any_time.
Qed.

(** An instance of the run of [generation_follows_recurrence]: scenario C. *)
Lemma generation_follows_recurrence_witness :
  exists n out w',
    GenerateRecurringOccurrencesUseCase.execute 100 (generateC (Some 3)) scenarioC
    = (Ok (Some out), w')
    /\ map RecurringOccurrence.due_date
         (rev (GenerateRecurringOccurrencesUseCase.occurrences out))
       = unscheduled (setOf (map dateKey []))
           (cursorsFrom monthlyTemplate n
              (RecurringTransactionTemplate.next_occurrence monthlyTemplate))
    /\ occurrences w'
       = occurrences scenarioC
         ++ rev (GenerateRecurringOccurrencesUseCase.occurrences out)
    /\ Forall
         (fun o =>
            RecurringOccurrence.due_date o
            <= horizon (now scenarioC) monthlyTemplate
                 (orDefault
                    (GenerateRecurringOccurrencesUseCase.months_ahead
                       (generateC (Some 3))) 3))
         (GenerateRecurringOccurrencesUseCase.occurrences out)
    /\ Forall
         (fun d =>
            d <= horizon (now scenarioC) monthlyTemplate
                   (orDefault
                      (GenerateRecurringOccurrencesUseCase.months_ahead
                         (generateC (Some 3))) 3))
         (cursorsFrom monthlyTemplate n
            (RecurringTransactionTemplate.next_occurrence monthlyTemplate))
    /\ horizon (now scenarioC) monthlyTemplate
         (orDefault
            (GenerateRecurringOccurrencesUseCase.months_ahead (generateC (Some 3)))
            3)
       < cursorAt monthlyTemplate n
           (RecurringTransactionTemplate.next_occurrence monthlyTemplate).
Proof.
  apply (proj1 (proj2 generation_follows_recurrence)
           scenarioC (generateC (Some 3)) monthlyTemplate [] 100%nat).
  - apply emptyWorld_uuidsValid.
  - reflexivity.
  - reflexivity.
  - reflexivity.
  - reflexivity.
  - apply Nat.leb_le. vm_compute. reflexivity.
Defined.

(** ** The template cursor *)

Lemma keeps_ret {A} (a : A) : keepsTemplates (ret a).
Proof. intros w r w' H. injection H as _ <-. reflexivity. Qed.

Lemma keeps_throw {A} msg : keepsTemplates (@throw A msg).
Proof. intros w r w' H. injection H as _ <-. reflexivity. Qed.

Lemma keeps_lift {A} (x : result A) : keepsTemplates (lift x).
Proof. intros w r w' H. injection H as _ <-. reflexivity. Qed.

Lemma keeps_newDate : keepsTemplates newDate.
Proof. intros w r w' H. injection H as _ <-. reflexivity. Qed.

Lemma keeps_randomUUID : keepsTemplates randomUUID.
Proof. intros w r w' H. injection H as _ <-. reflexivity. Qed.

Lemma keeps_bind {A B} (c : M A) (k : A -> M B) :
  keepsTemplates c -> (forall a, keepsTemplates (k a)) -> keepsTemplates (bind c k).
Proof.
  intros Hc Hk w r w' H. unfold bind in H.
  destruct (c w) as [[a | msg] w1] eqn:Hcw.
  - rewrite (Hk a w1 r w' H). exact (Hc w _ w1 Hcw).
  - injection H as _ <-. exact (Hc w _ w1 Hcw).
Qed.

Lemma keeps_traverseM {A B} (f : A -> M B) l :
  (forall x, keepsTemplates (f x)) -> keepsTemplates (traverseM f l).
Proof.
  intros Hf. induction l as [| x l IH]; simpl.
  - apply keeps_ret.
  - apply keeps_bind; [apply Hf |]. intros y.
    apply keeps_bind; [exact IH |]. intros ys. apply keeps_ret.
Qed.

Create HintDb keeps.

#[local] Hint Resolve keeps_ret keeps_throw keeps_lift keeps_newDate
  keeps_randomUUID keeps_traverseM : keeps.

Ltac keeps :=
  repeat first
    [ progress auto with keeps
    | apply keeps_bind; [| intro]
    | progress cbv zeta
    | lazymatch goal with
      | |- keepsTemplates (if ?b then _ else _) => destruct b
      | |- keepsTemplates (match ?x with Some _ => _ | None => _ end) =>
          destruct x
      | |- keepsTemplates (match ?x with [] => _ | _ :: _ => _ end) =>
          destruct x
      end ].

Lemma keeps_createOccurrence tid d : keepsTemplates (createOccurrence tid d).
Proof. unfold createOccurrence. keeps. Qed.

Lemma keeps_templateFindById id :
  keepsTemplates (RecurringTransactionTemplateRepository.findById id).
Proof. intros w r w' H. injection H as _ <-. reflexivity. Qed.

Lemma keeps_occurrenceToDomain row :
  keepsTemplates (PrismaRecurringOccurrenceMapper.toDomain row).
Proof. apply keeps_lift. Qed.

#[local] Hint Resolve keeps_createOccurrence keeps_templateFindById
  keeps_occurrenceToDomain : keeps.

Lemma keeps_findByTemplateId tid :
  keepsTemplates (PrismaRecurringOccurrenceRepository.findByTemplateId tid).
Proof.
  intros w r w' H.
  unfold PrismaRecurringOccurrenceRepository.findByTemplateId in H.
  eapply keeps_traverseM in H; [exact H | auto with keeps].
Qed.

Lemma keeps_occurrenceCreateMany batch :
  keepsTemplates (PrismaRecurringOccurrenceRepository.createMany batch).
Proof.
  intros w r w' H.
  unfold PrismaRecurringOccurrenceRepository.createMany in H. cbv zeta in H.
  eapply keeps_traverseM in H; [| auto with keeps]. rewrite H. reflexivity.
Qed.

Lemma keeps_occurrenceMarkAsPaid id tx :
  keepsTemplates (PrismaRecurringOccurrenceRepository.markAsPaid id tx).
Proof.
  intros w r w' H. unfold PrismaRecurringOccurrenceRepository.markAsPaid in H.
  destruct (updateWhere _ _ _); injection H as _ <-; reflexivity.
Qed.

Lemma keeps_transactionCreate props :
  keepsTemplates (TransactionRepository.create props).
Proof.
  unfold TransactionRepository.create. keeps.
  intros w r w' H. injection H as _ <-. reflexivity.
Qed.

Lemma keeps_accountFindById id : keepsTemplates (AccountRepository.findById id).
Proof. intros w r w' H. injection H as _ <-. reflexivity. Qed.

#[local] Hint Resolve keeps_findByTemplateId keeps_occurrenceCreateMany
  keeps_occurrenceMarkAsPaid keeps_transactionCreate keeps_accountFindById
  : keeps.

Lemma keeps_calculateEndDate tpl m :
  keepsTemplates (GenerateRecurringOccurrencesUseCase.calculateEndDate tpl m).
Proof. unfold GenerateRecurringOccurrencesUseCase.calculateEndDate. keeps. Qed.

Lemma keeps_generateLoop fuel tpl existingDates endDate :
  forall cur acc,
    keepsTemplates
      (GenerateRecurringOccurrencesUseCase.generateLoop fuel tpl existingDates
         endDate cur acc).
Proof.
  induction fuel as [| fuel IH]; intros cur acc; simpl; keeps; apply IH.
Qed.

#[local] Hint Resolve keeps_calculateEndDate keeps_generateLoop : keeps.

Lemma keeps_execute fuel input :
  keepsTemplates (GenerateRecurringOccurrencesUseCase.execute fuel input).
Proof. unfold GenerateRecurringOccurrencesUseCase.execute. keeps. Qed.

Lemma keeps_create_calculateEndDate tpl m :
  keepsTemplates (CreateRecurringTransactionUseCase.calculateEndDate tpl m).
Proof. unfold CreateRecurringTransactionUseCase.calculateEndDate. keeps. Qed.

Lemma keeps_create_generateLoop fuel tpl endDate :
  forall cur acc,
    keepsTemplates
      (CreateRecurringTransactionUseCase.generateLoop fuel tpl endDate cur acc).
Proof.
  induction fuel as [| fuel IH]; intros cur acc; simpl; keeps; apply IH.
Qed.

#[local] Hint Resolve keeps_create_calculateEndDate keeps_create_generateLoop
  : keeps.

Lemma keeps_generateOccurrences fuel tpl m :
  keepsTemplates (CreateRecurringTransactionUseCase.generateOccurrences fuel tpl m).
Proof. unfold CreateRecurringTransactionUseCase.generateOccurrences. keeps. Qed.

Lemma keeps_createFirstTransaction tpl o :
  keepsTemplates (CreateRecurringTransactionUseCase.createFirstTransaction tpl o).
Proof.
  unfold CreateRecurringTransactionUseCase.createFirstTransaction. keeps.
Qed.

Lemma bind_inv_Ok {A B} (c : M A) (k : A -> M B) w b w' :
  bind c k w = (Ok b, w') ->
  exists a w1, c w = (Ok a, w1) /\ k a w1 = (Ok b, w').
Proof.
  unfold bind. destruct (c w) as [[a | msg] w1]; intros H.
  - exists a, w1. split; [reflexivity | exact H].
  - discriminate H.
Qed.

Lemma keeps_validateInput input :
  keepsTemplates (CreateRecurringTransactionUseCase.validateInput input).
Proof. unfold CreateRecurringTransactionUseCase.validateInput. keeps. Qed.

Lemma keeps_createTemplate input cfg v :
  keepsTemplates (CreateRecurringTransactionUseCase.createTemplate input cfg v).
Proof. unfold CreateRecurringTransactionUseCase.createTemplate. keeps. Qed.

Lemma createTemplate_cursor input cfg v w tpl w' :
  CreateRecurringTransactionUseCase.createTemplate input cfg v w = (Ok tpl, w') ->
  RecurringTransactionTemplate.next_occurrence tpl = RecurrenceConfig.startDate cfg.
Proof.
  unfold CreateRecurringTransactionUseCase.createTemplate, bind, randomUUID, ret.
  intros H. injection H as <- _. reflexivity.
Qed.

Lemma RecurrenceConfig_startDate f i s e cfg :
  RecurrenceConfig.create f i s e = Ok cfg -> RecurrenceConfig.startDate cfg = s.
Proof.
  unfold RecurrenceConfig.create.
  destruct (i <? 1); [discriminate |].
  destruct e as [e |]; [destruct (e <=? s); [discriminate |] |];
    intros H; injection H as <-; reflexivity.
Qed.

(** Creating a recurring transaction stores its template once, with the
    cursor on the start date, whatever it generates. *)
Lemma create_execute_cursor fuel input w out w' :
  CreateRecurringTransactionUseCase.execute fuel input w = (Ok (Some out), w') ->
  recurringTemplates w'
  = recurringTemplates w ++ [CreateRecurringTransactionUseCase.template out]
  /\ RecurringTransactionTemplate.next_occurrence
       (CreateRecurringTransactionUseCase.template out)
     = CreateRecurringTransactionUseCase.start_date input.
Proof.
  unfold CreateRecurringTransactionUseCase.execute. intros H.
  apply bind_inv_Ok in H as (u & w1 & Hv & H).
  apply bind_inv_Ok in H as (acc & w2 & Ha & H).
  destruct acc as [acc |]; [| discriminate H].
  apply bind_inv_Ok in H as (cfg & w3 & Hcfg & H).
  apply bind_inv_Ok in H as (tpl & w4 & Htpl & H).
  apply bind_inv_Ok in H as (created & w5 & Hcreated & H).
  apply bind_inv_Ok in H as (generated & w6 & Hgen & H).
  apply keeps_validateInput in Hv. apply keeps_accountFindById in Ha.
  unfold lift in Hcfg. injection Hcfg as Hcfg <-.
  apply RecurrenceConfig_startDate in Hcfg.
  pose proof (createTemplate_cursor _ _ _ _ _ _ Htpl) as Hcursor.
  apply keeps_createTemplate in Htpl.
  unfold RecurringTransactionTemplateRepository.create in Hcreated.
  injection Hcreated as <- <-.
  apply keeps_generateOccurrences in Hgen. cbn in Hgen.
  assert (Hrows : recurringTemplates w6 = recurringTemplates w ++ [tpl])
    by congruence.
  assert (Hrest : recurringTemplates w' = recurringTemplates w6
                  /\ CreateRecurringTransactionUseCase.template out = tpl).
  { destruct generated as [occs |]; [| discriminate H].
    destruct occs as [| firstOccurrence rest].
    - injection H as <- <-. split; reflexivity.
    - destruct (CreateRecurringTransactionUseCase.create_first_transaction input).
      + apply bind_inv_Ok in H as (tx & w7 & Htx & H).
        apply bind_inv_Ok in H as (paid & w8 & Hpaid & H).
        apply bind_inv_Ok in H as (u' & w9 & Hmark & H).
        apply keeps_createFirstTransaction in Htx.
        apply keeps_lift in Hpaid. apply keeps_occurrenceMarkAsPaid in Hmark.
        injection H as <- <-. split; [congruence | reflexivity].
      + injection H as <- <-. split; reflexivity. }
  destruct Hrest as [Hw' ->]. split; congruence.
Qed.

(** C9, as the code has it: a generation run does not move the template's
    cursor. The run leaves the template table as it was and returns the
    stored template, whose [next_occurrence] is the one the run started
    from; creating a recurring transaction stores the template with the
    cursor on its start date and generating occurrences does not move it. *)
Theorem generation_keeps_cursor :
  (forall fuel input w r w',
     GenerateRecurringOccurrencesUseCase.execute fuel input w = (r, w') ->
     recurringTemplates w' = recurringTemplates w
     /\ forall out,
          r = Ok (Some out) ->
          find (fun t => String.eqb (RecurringTransactionTemplate.id t)
                           (GenerateRecurringOccurrencesUseCase.template_id input))
            (recurringTemplates w')
          = Some (GenerateRecurringOccurrencesUseCase.template out))
  /\ (forall fuel tpl monthsAhead w r w',
        CreateRecurringTransactionUseCase.generateOccurrences fuel tpl monthsAhead w
        = (r, w') ->
        recurringTemplates w' = recurringTemplates w)
  /\ (forall fuel input w out w',
        CreateRecurringTransactionUseCase.execute fuel input w
        = (Ok (Some out), w') ->
        recurringTemplates w'
        = recurringTemplates w ++ [CreateRecurringTransactionUseCase.template out]
        /\ RecurringTransactionTemplate.next_occurrence
             (CreateRecurringTransactionUseCase.template out)
           = CreateRecurringTransactionUseCase.start_date input).
Proof.
  split; [| split].
  - intros fuel input w r w' H.
    pose proof (keeps_execute fuel input w r w' H) as Hkeep.
    split; [exact Hkeep |]. intros out ->. rewrite Hkeep.
    unfold GenerateRecurringOccurrencesUseCase.execute in H.
    apply bind_inv_Ok in H as (found & w1 & Hfind & H).
    unfold RecurringTransactionTemplateRepository.findById in Hfind.
    injection Hfind as <- <-.
    destruct (find _ (recurringTemplates w)) as [tpl |]; [| discriminate H].
    destruct (negb (RecurringTransactionTemplate.is_active tpl));
      [discriminate H |].
    apply bind_inv_Ok in H as (existing & w2 & _ & H).
    apply bind_inv_Ok in H as (endDate & w3 & _ & H).
    apply bind_inv_Ok in H as (generated & w4 & _ & H).
    destruct generated as [occs |]; [| discriminate H].
    apply bind_inv_Ok in H as (created & w5 & _ & H).
    injection H as <- _. reflexivity.
  - intros fuel tpl monthsAhead w r w' H.
    exact (keeps_generateOccurrences fuel tpl monthsAhead w r w' H).
  - exact create_execute_cursor.
Qed.

(** An instance of [generation_keeps_cursor]: scenario C. *)
Lemma generation_keeps_cursor_witness :
  recurringTemplates
    (snd (GenerateRecurringOccurrencesUseCase.execute 100 (generateC (Some 3))
            scenarioC))
  = recurringTemplates scenarioC
  /\ forall out,
       fst (GenerateRecurringOccurrencesUseCase.execute 100 (generateC (Some 3))
              scenarioC) = Ok (Some out) ->
       find (fun t => String.eqb (RecurringTransactionTemplate.id t)
                        (GenerateRecurringOccurrencesUseCase.template_id
                           (generateC (Some 3))))
         (recurringTemplates
            (snd (GenerateRecurringOccurrencesUseCase.execute 100
                    (generateC (Some 3)) scenarioC)))
       = Some (GenerateRecurringOccurrencesUseCase.template out).
Proof.
  apply (proj1 generation_keeps_cursor 100%nat (generateC (Some 3)) scenarioC).
  apply surjective_pairing.
Defined.

(** C9 as stated fails: in scenario C the run emits three occurrences and
    the cursor still equals its value before the run, 2024-01-15, which is
    not past the due dates just generated. *)
Lemma cursor_not_advanced :
  exists out w',
    GenerateRecurringOccurrencesUseCase.execute 100 (generateC (Some 3)) scenarioC
    = (Ok (Some out), w')
    /\ length (GenerateRecurringOccurrencesUseCase.occurrences out) = 3%nat
    /\ map RecurringTransactionTemplate.next_occurrence (recurringTemplates w')
       = map RecurringTransactionTemplate.next_occurrence
           (recurringTemplates scenarioC)
    /\ RecurringTransactionTemplate.next_occurrence
         (GenerateRecurringOccurrencesUseCase.template out)
       = JSDate.ymd 2024 1 15
    /\ ~ Forall
           (fun o =>
              RecurringOccurrence.due_date o
              < RecurringTransactionTemplate.next_occurrence
                  (GenerateRecurringOccurrencesUseCase.template out))
           (GenerateRecurringOccurrencesUseCase.occurrences out).
Proof.
  match eval vm_compute in
        (GenerateRecurringOccurrencesUseCase.execute 100%nat (generateC (Some 3))
           scenarioC) with
  | (Ok (Some ?out), ?w') => exists out, w'
  end.
  split; [vm_compute; reflexivity |].
  split; [reflexivity |]. split; [reflexivity |]. split; [reflexivity |].
  intros Hall. apply Forall_cons in Hall as [Hlt _].
  vm_compute in Hlt. discriminate Hlt.
Qed.

(** ** The default of [months_ahead] *)

Lemma create_calculateEndDate_horizon tpl m w :
  CreateRecurringTransactionUseCase.calculateEndDate tpl m w
  = (Ok (horizon (now w) tpl m), w).
Proof. exact (calculateEndDate_horizon tpl m w). Qed.

(** C10: a request with [months_ahead = 0] is served as one with
    [months_ahead = 3], by the generation use case and by the creation use
    case alike: the two requests run the same computation, and the horizon
    of the run is the one of three months ahead. An absent [months_ahead]
    gives the same. *)
Theorem zero_months_ahead_is_default :
  (forall fuel tid,
     GenerateRecurringOccurrencesUseCase.execute fuel
       {| GenerateRecurringOccurrencesUseCase.template_id := tid;
          GenerateRecurringOccurrencesUseCase.months_ahead := Some 0 |}
     = GenerateRecurringOccurrencesUseCase.execute fuel
         {| GenerateRecurringOccurrencesUseCase.template_id := tid;
            GenerateRecurringOccurrencesUseCase.months_ahead := Some 3 |})
  /\ (forall fuel tid,
        GenerateRecurringOccurrencesUseCase.execute fuel
          {| GenerateRecurringOccurrencesUseCase.template_id := tid;
             GenerateRecurringOccurrencesUseCase.months_ahead := Some 0 |}
        = GenerateRecurringOccurrencesUseCase.execute fuel
            {| GenerateRecurringOccurrencesUseCase.template_id := tid;
               GenerateRecurringOccurrencesUseCase.months_ahead := None |})
  /\ (forall fuel input,
        CreateRecurringTransactionUseCase.execute fuel
          (withMonthsAhead (Some 0) input)
        = CreateRecurringTransactionUseCase.execute fuel
            (withMonthsAhead (Some 3) input))
  /\ (forall fuel input,
        CreateRecurringTransactionUseCase.execute fuel
          (withMonthsAhead (Some 0) input)
        = CreateRecurringTransactionUseCase.execute fuel
            (withMonthsAhead None input))
  /\ (forall tpl w,
        GenerateRecurringOccurrencesUseCase.calculateEndDate tpl
          (orDefault (Some 0) 3) w
        = (Ok (horizon (now w) tpl 3), w))
  /\ (forall tpl w,
        CreateRecurringTransactionUseCase.calculateEndDate tpl
          (orDefault (Some 0) 3) w
        = (Ok (horizon (now w) tpl 3), w)).
Proof.
  repeat split; try reflexivity.
  - intros tpl w. apply calculateEndDate_horizon.
  - intros tpl w. apply create_calculateEndDate_horizon.
Qed.

(** ** The overdue gate *)

Lemma thirtyDaysAgo today :
  JSDate.setDate (JSDate.setHours0 today)
    (JSDate.getDate (JSDate.setHours0 today) - 30)
  = JSDate.setHours0 today - 30 * JSDate.msPerDay.
Proof.
  replace (JSDate.getDate (JSDate.setHours0 today) - 30)
    with (JSDate.getDate (JSDate.setHours0 today) + -30) by lia.
  rewrite setDate_getDate. lia.
Qed.

Lemma Day_shift t k : JSDate.Day (t + k * JSDate.msPerDay) = JSDate.Day t + k.
Proof. unfold JSDate.Day. apply Z.div_add. discriminate. Qed.

Lemma overdue_spec today due :
  (JSDate.setHours0 due
   <? JSDate.setDate (JSDate.setHours0 today)
        (JSDate.getDate (JSDate.setHours0 today) - 30)) = true
  <-> JSDate.setHours0 due < JSDate.setHours0 today - 30 * JSDate.msPerDay.
Proof. rewrite thirtyDaysAgo. apply Z.ltb_lt. Qed.

Lemma overdue_days today due :
  JSDate.setHours0 due < JSDate.setHours0 today - 30 * JSDate.msPerDay
  <-> 30 < JSDate.Day today - JSDate.Day due.
Proof. rewrite !setHours0_Day. unfold JSDate.msPerDay. lia. Qed.

Lemma overdue_31 today :
  JSDate.setHours0 (today - 31 * JSDate.msPerDay)
  < JSDate.setHours0 today - 30 * JSDate.msPerDay.
Proof.
  apply overdue_days.
  replace (today - 31 * JSDate.msPerDay) with (today + -31 * JSDate.msPerDay)
    by lia.
  rewrite Day_shift. lia.
Qed.

Lemma not_overdue_29 today :
  ~ JSDate.setHours0 (today - 29 * JSDate.msPerDay)
    < JSDate.setHours0 today - 30 * JSDate.msPerDay.
Proof.
  rewrite overdue_days.
  replace (today - 29 * JSDate.msPerDay) with (today + -29 * JSDate.msPerDay)
    by lia.
  rewrite Day_shift. lia.
Qed.

(** Once overdue, always overdue: a later reading of the clock cannot
    make an entry payable again. *)
Lemma overdue_monotone today today' due :
  today <= today' ->
  JSDate.setHours0 due < JSDate.setHours0 today - 30 * JSDate.msPerDay ->
  JSDate.setHours0 due < JSDate.setHours0 today' - 30 * JSDate.msPerDay.
Proof.
  intros Hle. rewrite !overdue_days.
  assert (JSDate.Day today <= JSDate.Day today')
    by (unfold JSDate.Day; apply Z.div_le_mono; [reflexivity | exact Hle]).
  lia.
Qed.

(** C4: an entry is overdue exactly when its due date, brought to the
    start of its day, is more than 30 days before the start of the current
    day; [canBePaid] is [PENDING] and not overdue. An entry due 31 days
    before today is overdue and cannot be paid; a pending entry due 29 days
    before today can be paid. This holds for installments and occurrences. *)
Theorem overdue_after_thirty_days :
  (forall today i,
     (Installment.isOverdue today i = true
      <-> JSDate.setHours0 (Installment.due_date i)
          < JSDate.setHours0 today - 30 * JSDate.msPerDay)
     /\ Installment.canBePaid today i
        = status_eqb (Installment.status i) PENDING
          && negb (Installment.isOverdue today i))
  /\ (forall today o,
        (RecurringOccurrence.isOverdue today o = true
         <-> JSDate.setHours0 (RecurringOccurrence.due_date o)
             < JSDate.setHours0 today - 30 * JSDate.msPerDay)
        /\ RecurringOccurrence.canBePaid today o
           = status_eqb (RecurringOccurrence.status o) PENDING
             && negb (RecurringOccurrence.isOverdue today o))
  /\ (forall today i,
        Installment.due_date i = today - 31 * JSDate.msPerDay ->
        Installment.isOverdue today i = true
        /\ Installment.canBePaid today i = false)
  /\ (forall today o,
        RecurringOccurrence.due_date o = today - 31 * JSDate.msPerDay ->
        RecurringOccurrence.isOverdue today o = true
        /\ RecurringOccurrence.canBePaid today o = false)
  /\ (forall today i,
        Installment.status i = PENDING ->
        Installment.due_date i = today - 29 * JSDate.msPerDay ->
        Installment.canBePaid today i = true)
  /\ (forall today o,
        RecurringOccurrence.status o = PENDING ->
        RecurringOccurrence.due_date o = today - 29 * JSDate.msPerDay ->
        RecurringOccurrence.canBePaid today o = true).
Proof.
  split; [| split; [| split; [| split; [| split]]]].
  - intros today i. split; [apply overdue_spec | reflexivity].
  - intros today o. split; [apply overdue_spec | reflexivity].
  - intros today i H.
    assert (Hover : Installment.isOverdue today i = true).
    { unfold Installment.isOverdue. rewrite H. apply overdue_spec, overdue_31. }
    split; [exact Hover |].
    unfold Installment.canBePaid. rewrite Hover. apply andb_false_r.
  - intros today o H.
    assert (Hover : RecurringOccurrence.isOverdue today o = true).
    { unfold RecurringOccurrence.isOverdue. rewrite H.
      apply overdue_spec, overdue_31. }
    split; [exact Hover |].
    unfold RecurringOccurrence.canBePaid. rewrite Hover. apply andb_false_r.
  - intros today i Hs Hd.
    unfold Installment.canBePaid, Installment.isPending, Installment.isOverdue.
    rewrite Hs, Hd. cbn [status_eqb andb].
    destruct (_ <? _) eqn:Hlt; [| reflexivity].
    apply overdue_spec in Hlt. destruct (not_overdue_29 today Hlt).
  - intros today o Hs Hd.
    unfold RecurringOccurrence.canBePaid, RecurringOccurrence.isPending,
      RecurringOccurrence.isOverdue.
    rewrite Hs, Hd. cbn [status_eqb andb].
    destruct (_ <? _) eqn:Hlt; [| reflexivity].
    apply overdue_spec in Hlt. destruct (not_overdue_29 today Hlt).
Qed.

(** An instance of [overdue_after_thirty_days]: today is 2024-03-01 at
    noon; entries due 31 and 29 days before. *)
Lemma overdue_after_thirty_days_witness :
  (Installment.isOverdue (JSDate.ymd 2024 3 1 + 43200000)
     (installmentDue (JSDate.ymd 2024 3 1 + 43200000 - 31 * JSDate.msPerDay)
        PENDING None) = true
   /\ Installment.canBePaid (JSDate.ymd 2024 3 1 + 43200000)
        (installmentDue (JSDate.ymd 2024 3 1 + 43200000 - 31 * JSDate.msPerDay)
           PENDING None) = false)
  /\ (RecurringOccurrence.isOverdue (JSDate.ymd 2024 3 1 + 43200000)
        (occurrenceDue (JSDate.ymd 2024 3 1 + 43200000 - 31 * JSDate.msPerDay)
           PENDING None) = true
      /\ RecurringOccurrence.canBePaid (JSDate.ymd 2024 3 1 + 43200000)
           (occurrenceDue (JSDate.ymd 2024 3 1 + 43200000 - 31 * JSDate.msPerDay)
              PENDING None) = false)
  /\ Installment.canBePaid (JSDate.ymd 2024 3 1 + 43200000)
       (installmentDue (JSDate.ymd 2024 3 1 + 43200000 - 29 * JSDate.msPerDay)
          PENDING None) = true
  /\ RecurringOccurrence.canBePaid (JSDate.ymd 2024 3 1 + 43200000)
       (occurrenceDue (JSDate.ymd 2024 3 1 + 43200000 - 29 * JSDate.msPerDay)
          PENDING None) = true.
Proof.
  destruct overdue_after_thirty_days as (_ & _ & H31i & H31o & H29i & H29o).
  split; [apply H31i; reflexivity |].
  split; [apply H31o; reflexivity |].
  split; [apply H29i; reflexivity | apply H29o; reflexivity].
Defined.

(** ** The pay and skip transitions of an entry *)

(** C3 as stated fails: an overdue pending installment is marked as paid
    by [markAsPaid], and a paid and a skipped installment refuse it with
    one and the same error. *)
Lemma pay_ignores_overdue :
  Installment.isOverdue (JSDate.ymd 2024 3 1)
    (installmentDue (JSDate.ymd 2024 1 1) PENDING None) = true
  /\ Installment.status (installmentDue (JSDate.ymd 2024 1 1) PENDING None)
     = PENDING
  /\ Installment.markAsPaid ledgerId
       (installmentDue (JSDate.ymd 2024 1 1) PENDING None)
     = Ok (installmentDue (JSDate.ymd 2024 1 1) PAID (Some ledgerId))
  /\ Installment.markAsPaid ledgerId
       (installmentDue (JSDate.ymd 2024 1 1) PAID (Some ledgerId))
     = Installment.markAsPaid ledgerId
         (installmentDue (JSDate.ymd 2024 1 1) SKIPPED None)
  /\ ~ (isOk (Installment.markAsPaid ledgerId
                (installmentDue (JSDate.ymd 2024 1 1) PENDING None)) = true
        <-> Installment.status (installmentDue (JSDate.ymd 2024 1 1) PENDING None)
            = PENDING
            /\ Installment.isOverdue (JSDate.ymd 2024 3 1)
                 (installmentDue (JSDate.ymd 2024 1 1) PENDING None) = false
            /\ ledgerId <> ""%string).
Proof.
  repeat split; try reflexivity.
  intros [Hto _]. destruct (Hto eq_refl) as (_ & Hover & _).
  vm_compute in Hover. discriminate Hover.
Qed.

(** C3, as the code has it: [markAsPaid] succeeds exactly on a pending
    entry with a non-empty transaction id, whether the entry is overdue or
    not, and then the entry is [PAID] and holds the id; on an entry that is
    not pending it fails with the "only pending" error, the same for a paid
    and a skipped entry, and on a pending entry with an empty id with the
    "transaction id required" error. [markAsSkipped] succeeds exactly on a
    pending entry, which becomes [SKIPPED]. No transition yields a pending
    entry from one that is not. *)
Theorem entry_transitions :
  (forall tx i,
     (isOk (Installment.markAsPaid tx i) = true
      <-> Installment.status i = PENDING /\ tx <> ""%string)
     /\ (forall i',
           Installment.markAsPaid tx i = Ok i' ->
           i' = Installment.set_status PAID (Some tx) i)
     /\ (Installment.status i <> PENDING ->
         Installment.markAsPaid tx i
         = Throw "Only pending installments can be marked as paid")
     /\ (Installment.status i = PENDING -> tx = ""%string ->
         Installment.markAsPaid tx i
         = Throw "Transaction ID is required to mark as paid")
     /\ (isOk (Installment.markAsSkipped i) = true
         <-> Installment.status i = PENDING)
     /\ (forall i',
           Installment.markAsSkipped i = Ok i' ->
           i' = Installment.set_status SKIPPED (Installment.transaction_id i) i)
     /\ (Installment.status i <> PENDING ->
         Installment.markAsSkipped i
         = Throw "Only pending installments can be skipped"))
  /\ (forall tx o,
        (isOk (RecurringOccurrence.markAsPaid tx o) = true
         <-> RecurringOccurrence.status o = PENDING /\ tx <> ""%string)
        /\ (forall o',
              RecurringOccurrence.markAsPaid tx o = Ok o' ->
              o' = RecurringOccurrence.set_status PAID (Some tx) o)
        /\ (RecurringOccurrence.status o <> PENDING ->
            RecurringOccurrence.markAsPaid tx o
            = Throw "Only pending occurrences can be marked as paid")
        /\ (RecurringOccurrence.status o = PENDING -> tx = ""%string ->
            RecurringOccurrence.markAsPaid tx o
            = Throw "Transaction ID is required to mark as paid")
        /\ (isOk (RecurringOccurrence.markAsSkipped o) = true
            <-> RecurringOccurrence.status o = PENDING)
        /\ (forall o',
              RecurringOccurrence.markAsSkipped o = Ok o' ->
              o' = RecurringOccurrence.set_status SKIPPED
                     (RecurringOccurrence.transaction_id o) o)
        /\ (RecurringOccurrence.status o <> PENDING ->
            RecurringOccurrence.markAsSkipped o
            = Throw "Only pending occurrences can be skipped"))
  /\ (forall tx i i',
        Installment.markAsPaid tx i = Ok i' \/ Installment.markAsSkipped i = Ok i' ->
        Installment.status i = PENDING /\ Installment.status i' <> PENDING)
  /\ (forall tx o o',
        RecurringOccurrence.markAsPaid tx o = Ok o'
        \/ RecurringOccurrence.markAsSkipped o = Ok o' ->
        RecurringOccurrence.status o = PENDING
        /\ RecurringOccurrence.status o' <> PENDING).
Proof.
  split; [| split; [| split]].
  - intros tx i.
    unfold Installment.markAsPaid, Installment.markAsSkipped,
      Installment.isPending.
    destruct (Installment.status i) eqn:Hs; cbn [status_eqb negb];
      destruct (String.eqb_spec tx ""); cbn [isOk];
      repeat split; intros; try congruence; try tauto;
      try (destruct H; congruence).
  - intros tx o.
    unfold RecurringOccurrence.markAsPaid, RecurringOccurrence.markAsSkipped,
      RecurringOccurrence.isPending.
    destruct (RecurringOccurrence.status o) eqn:Hs; cbn [status_eqb negb];
      destruct (String.eqb_spec tx ""); cbn [isOk];
      repeat split; intros; try congruence; try tauto;
      try (destruct H; congruence).
  - intros tx i i'.
    unfold Installment.markAsPaid, Installment.markAsSkipped,
      Installment.isPending.
    destruct (Installment.status i) eqn:Hs; cbn [status_eqb negb];
      destruct (String.eqb tx ""); intros [H | H]; try discriminate H;
      injection H as <-; split; (reflexivity || discriminate).
  - intros tx o o'.
    unfold RecurringOccurrence.markAsPaid, RecurringOccurrence.markAsSkipped,
      RecurringOccurrence.isPending.
    destruct (RecurringOccurrence.status o) eqn:Hs; cbn [status_eqb negb];
      destruct (String.eqb tx ""); intros [H | H]; try discriminate H;
      injection H as <-; split; (reflexivity || discriminate).
Qed.

(** An instance of [entry_transitions]: paying and skipping a pending
    installment and a pending occurrence. *)
Lemma entry_transitions_witness :
  (Installment.status (installmentDue (JSDate.ymd 2024 1 1) PENDING None)
   = PENDING
   /\ Installment.status
        (installmentDue (JSDate.ymd 2024 1 1) PAID (Some ledgerId)) <> PENDING)
  /\ (RecurringOccurrence.status (occurrenceDue (JSDate.ymd 2024 1 1) PENDING None)
      = PENDING
      /\ RecurringOccurrence.status
           (occurrenceDue (JSDate.ymd 2024 1 1) SKIPPED None) <> PENDING).
Proof.
  destruct entry_transitions as (_ & _ & Hi & Ho).
  split.
  - apply (Hi ledgerId). left. reflexivity.
  - apply (Ho ledgerId). right. reflexivity.
Defined.

(** ** The link between status and transaction *)

(** C6: evaluated on a paid installment and a paid occurrence, the skip
    endpoints answer with success and leave a row that is [SKIPPED] and
    still holds its transaction id, which breaks "transaction id set iff
    PAID"; the entity's own [markAsSkipped] refuses a paid entry. The
    constructor also accepts a [PAID] entry without a transaction id. *)
Theorem skip_endpoint_breaks_link :
  linked PAID (Some ledgerId)
  /\ ~ linked SKIPPED (Some ledgerId)
  /\ (exists w',
        InstallmentController.skipInstallment entryId
          (set_installments
             [installmentDue (JSDate.ymd 2024 2 1) PAID (Some ledgerId)]
             (emptyWorld (JSDate.ymd 2024 2 1)))
        = (Ok "Installment skipped successfully"%string, w')
        /\ PrismaInstallmentRepository.findById entryId w'
           = (Ok (Some (installmentDue (JSDate.ymd 2024 2 1) SKIPPED
                          (Some ledgerId))), w'))
  /\ Installment.markAsSkipped
       (installmentDue (JSDate.ymd 2024 2 1) PAID (Some ledgerId))
     = Throw "Only pending installments can be skipped"
  /\ (exists w',
        RecurringOccurrenceController.skipOccurrence entryId
          (set_occurrences
             [occurrenceDue (JSDate.ymd 2024 2 1) PAID (Some ledgerId)]
             (emptyWorld (JSDate.ymd 2024 2 1)))
        = (Ok "Occurrence skipped successfully"%string, w')
        /\ PrismaRecurringOccurrenceRepository.findById entryId w'
           = (Ok (Some (occurrenceDue (JSDate.ymd 2024 2 1) SKIPPED
                          (Some ledgerId))), w'))
  /\ RecurringOccurrence.markAsSkipped
       (occurrenceDue (JSDate.ymd 2024 2 1) PAID (Some ledgerId))
     = Throw "Only pending occurrences can be skipped"
  /\ (exists i,
        Installment.new entryId (JSDate.ymd 2024 2 1)
          {| Installment.p_id := None; Installment.p_template_id := templateId;
             Installment.p_installment_number := 1;
             Installment.p_amount := 100.5%float;
             Installment.p_due_date := JSDate.ymd 2024 2 1;
             Installment.p_status := Some PAID;
             Installment.p_transaction_id := None;
             Installment.p_created_at := None;
             Installment.p_updated_at := None |} = Ok i
        /\ ~ linked (Installment.status i) (Installment.transaction_id i)).
Proof.
  assert (Hbroken : ~ linked SKIPPED (Some ledgerId)).
  { unfold linked. intros [Hto _].
    assert (SKIPPED = PAID) by (apply Hto; discriminate). discriminate. }
  split; [unfold linked; split; [reflexivity | discriminate] |].
  split; [exact Hbroken |].
  split; [eexists; split; vm_compute; reflexivity |].
  split; [reflexivity |].
  split; [eexists; split; vm_compute; reflexivity |].
  split; [reflexivity |].
  eexists. split; [vm_compute; reflexivity |].
  unfold linked. cbn. intros [_ Hfrom]. apply Hfrom; reflexivity.
Qed.

(** ** Settlement *)

Lemma installment_new_toProps u n row e :
  Installment.new u n (Installment.toProps row) = Ok e -> e = row.
Proof.
  unfold Installment.new. destruct (Installment.validate _) as [p |] eqn:Hv;
    [| discriminate].
  unfold Installment.validate in Hv.
  repeat match type of Hv with
         | (if ?b then _ else _) = _ => destruct b; [discriminate Hv |]
         end.
  injection Hv as <-. intros H. injection H as <-. destruct row; reflexivity.
Qed.

Lemma occurrence_new_toProps_inv u n row o :
  RecurringOccurrence.new u n (RecurringOccurrence.toProps row) = Ok o -> o = row.
Proof.
  unfold RecurringOccurrence.new.
  destruct (RecurringOccurrence.validate _) as [p |] eqn:Hv; [| discriminate].
  unfold RecurringOccurrence.validate in Hv.
  repeat match type of Hv with
         | (if ?b then _ else _) = _ => destruct b; [discriminate Hv |]
         end.
  injection Hv as <-. intros H. injection H as <-. destruct row; reflexivity.
Qed.

(** A successful lookup returns the stored row and leaves the world. *)
Lemma installment_findById_inv id w e w' :
  PrismaInstallmentRepository.findById id w = (Ok (Some e), w') ->
  w' = w
  /\ find (fun r => String.eqb (Installment.id r) id) (installments w) = Some e.
Proof.
  unfold PrismaInstallmentRepository.findById.
  destruct (find _ (installments w)) as [row |]; [| discriminate].
  unfold bind, PrismaInstallmentMapper.toDomain, lift, ret.
  destruct (Installment.new _ _ _) as [i |] eqn:Hnew; [| discriminate].
  apply installment_new_toProps in Hnew as ->.
  intros H. injection H as <- <-. split; reflexivity.
Qed.

Lemma installment_findById_world id w r w' :
  PrismaInstallmentRepository.findById id w = (r, w') -> w' = w.
Proof.
  unfold PrismaInstallmentRepository.findById.
  destruct (find _ (installments w)) as [row |].
  - unfold bind, PrismaInstallmentMapper.toDomain, lift, ret.
    destruct (Installment.new _ _ _); intros H; injection H as _ <-; reflexivity.
  - intros H. injection H as _ <-. reflexivity.
Qed.

Lemma occurrence_findById_inv id w o w' :
  PrismaRecurringOccurrenceRepository.findById id w = (Ok (Some o), w') ->
  w' = w
  /\ find (fun r => String.eqb (RecurringOccurrence.id r) id) (occurrences w)
     = Some o.
Proof.
  unfold PrismaRecurringOccurrenceRepository.findById.
  destruct (find _ (occurrences w)) as [row |]; [| discriminate].
  unfold bind, PrismaRecurringOccurrenceMapper.toDomain, lift, ret.
  destruct (RecurringOccurrence.new _ _ _) as [i |] eqn:Hnew; [| discriminate].
  apply occurrence_new_toProps_inv in Hnew as ->.
  intros H. injection H as <- <-. split; reflexivity.
Qed.

Lemma occurrence_findById_world id w r w' :
  PrismaRecurringOccurrenceRepository.findById id w = (r, w') -> w' = w.
Proof.
  unfold PrismaRecurringOccurrenceRepository.findById.
  destruct (find _ (occurrences w)) as [row |].
  - unfold bind, PrismaRecurringOccurrenceMapper.toDomain, lift, ret.
    destruct (RecurringOccurrence.new _ _ _); intros H; injection H as _ <-;
      reflexivity.
  - intros H. injection H as _ <-. reflexivity.
Qed.

Lemma installmentTemplate_findById_world id w r w' :
  PrismaInstallmentTemplateRepository.findById id w = (r, w') -> w' = w.
Proof.
  unfold PrismaInstallmentTemplateRepository.findById.
  destruct (find _ (installmentTemplates w)) as [row |].
  - unfold bind, PrismaInstallmentTemplateMapper.toDomain, lift, ret.
    destruct (InstallmentTemplate.new _ _ _); intros H; injection H as _ <-;
      reflexivity.
  - intros H. injection H as _ <-. reflexivity.
Qed.

(** Updating the rows selected by [p] shows in a lookup by [p]. *)
Lemma find_updateWhere {A} (p : A -> bool) (f : A -> A) rows rows' :
  (forall r, p (f r) = p r) ->
  updateWhere p f rows = Ok rows' ->
  find p rows' = option_map f (find p rows).
Proof.
  intros Hp. unfold updateWhere. destruct (existsb p rows); [| discriminate].
  intros H. injection H as <-.
  induction rows as [| r rows IH]; [reflexivity |]. simpl.
  destruct (p r) eqn:Hr.
  - rewrite Hp, Hr. reflexivity.
  - rewrite Hr. exact IH.
Qed.

Lemma eqb_find_id {A} (key : A -> string) id rows x :
  find (fun r => String.eqb (key r) id) rows = Some x -> key x = id.
Proof.
  intros H. apply find_some in H as [_ H]. apply String.eqb_eq in H. exact H.
Qed.

Lemma pay_installment_refused w input e :
  PrismaInstallmentRepository.findById
    (PayInstallmentUseCase.installment_id input) w = (Ok (Some e), w) ->
  Installment.canBePaid (now w) e = false ->
  (Installment.status e = PAID
   /\ PayInstallmentUseCase.execute input w
      = (Throw "Installment is already paid", w))
  \/ (Installment.status e = SKIPPED
      /\ PayInstallmentUseCase.execute input w
         = (Throw "Cannot pay skipped installment", w))
  \/ (Installment.status e = PENDING
      /\ Installment.isOverdue (now w) e = true
      /\ PayInstallmentUseCase.execute input w
         = (Throw "Cannot pay overdue installment (>30 days past due)", w)).
Proof.
  intros Hfind Hcan. unfold PayInstallmentUseCase.execute.
  erewrite bind_Ok by exact Hfind. cbv beta iota.
  erewrite (bind_Ok newDate) by reflexivity.
  rewrite Hcan. cbn [negb].
  unfold Installment.canBePaid, Installment.isPending in Hcan.
  unfold Installment.isPaid, Installment.isSkipped.
  destruct (Installment.status e); cbn [status_eqb andb] in *.
  - right. right. destruct (Installment.isOverdue (now w) e);
      [repeat split; reflexivity | discriminate Hcan].
  - left. split; reflexivity.
  - right. left. split; reflexivity.
Qed.

Lemma pay_installment_settles w input out w' :
  PayInstallmentUseCase.execute input w = (Ok out, w') ->
  exists e,
    PrismaInstallmentRepository.findById
      (PayInstallmentUseCase.installment_id input) w = (Ok (Some e), w)
    /\ Installment.canBePaid (now w) e = true
    /\ Transaction.transaction_date (PayInstallmentUseCase.transaction out)
       = match PayInstallmentUseCase.transaction_date input with
         | Some d => d
         | None => Installment.due_date e
         end
    /\ Transaction.amount (PayInstallmentUseCase.transaction out)
       = Installment.amount e
    /\ PayInstallmentUseCase.installment out
       = Installment.set_status PAID
           (Some (Transaction.id (PayInstallmentUseCase.transaction out))) e
    /\ In (PayInstallmentUseCase.transaction out) (transactions w')
    /\ find (fun r => String.eqb (Installment.id r)
                        (PayInstallmentUseCase.installment_id input))
         (installments w')
       = Some (PayInstallmentUseCase.installment out).
Proof.
  unfold PayInstallmentUseCase.execute. intros H.
  apply bind_inv_Ok in H as (found & w1 & Hfind & H).
  pose proof (installment_findById_world _ _ _ _ Hfind) as ->.
  destruct found as [e |]; [| discriminate H].
  apply bind_inv_Ok in H as (today & w2 & Htoday & H).
  unfold newDate in Htoday. injection Htoday as <- <-.
  destruct (Installment.canBePaid (now w) e) eqn:Hcan; cbn [negb] in H.
  2:{ repeat match type of H with
             | (if ?b then _ else _) _ = _ => destruct b
             end; discriminate H. }
  apply bind_inv_Ok in H as (tplFound & w3 & Htpl & H).
  pose proof (installmentTemplate_findById_world _ _ _ _ Htpl) as ->.
  destruct tplFound as [tpl |]; [| discriminate H].
  apply bind_inv_Ok in H as (tx & w4 & Htx & H).
  apply bind_inv_Ok in H as (paid & w5 & Hpaid & H).
  apply bind_inv_Ok in H as (u & w6 & Hmark & H).
  unfold ret in H. injection H as <- <-.
  unfold PayInstallmentUseCase.createTransactionFromInstallment,
    TransactionRepository.create, bind, randomUUID in Htx.
  injection Htx as <- <-.
  unfold lift in Hpaid. injection Hpaid as Hpaid <-.
  unfold Installment.markAsPaid in Hpaid.
  destruct (negb (Installment.isPending e)); [discriminate Hpaid |].
  destruct (String.eqb _ ""); [discriminate Hpaid |].
  injection Hpaid as <-.
  unfold PrismaInstallmentRepository.markAsPaid in Hmark.
  destruct (updateWhere _ _ _) as [rows |] eqn:Hrows; [| discriminate Hmark].
  injection Hmark as _ <-.
  apply installment_findById_inv in Hfind as Hrow. destruct Hrow as [_ Hrow].
  pose proof (eqb_find_id Installment.id _ _ _ Hrow) as Hid.
  exists e. cbn.
  repeat split; try reflexivity; try assumption.
  - apply in_or_app. right. left. reflexivity.
  - cbn in Hrows. rewrite Hid in Hrows.
    erewrite find_updateWhere; [| | exact Hrows]; [| reflexivity].
    rewrite Hrow. reflexivity.
Qed.

Lemma pay_occurrence_refused w input e :
  PrismaRecurringOccurrenceRepository.findById
    (PayRecurringOccurrenceUseCase.occurrence_id input) w = (Ok (Some e), w) ->
  RecurringOccurrence.canBePaid (now w) e = false ->
  (RecurringOccurrence.status e = PAID
   /\ PayRecurringOccurrenceUseCase.execute input w
      = (Throw "Occurrence is already paid", w))
  \/ (RecurringOccurrence.status e = SKIPPED
      /\ PayRecurringOccurrenceUseCase.execute input w
         = (Throw "Cannot pay skipped occurrence", w))
  \/ (RecurringOccurrence.status e = PENDING
      /\ RecurringOccurrence.isOverdue (now w) e = true
      /\ PayRecurringOccurrenceUseCase.execute input w
         = (Throw "Cannot pay overdue occurrence (>30 days past due)", w)).
Proof.
  intros Hfind Hcan. unfold PayRecurringOccurrenceUseCase.execute.
  erewrite bind_Ok by exact Hfind. cbv beta iota.
  erewrite (bind_Ok newDate) by reflexivity.
  rewrite Hcan. cbn [negb].
  unfold RecurringOccurrence.canBePaid, RecurringOccurrence.isPending in Hcan.
  unfold RecurringOccurrence.isPaid, RecurringOccurrence.isSkipped.
  destruct (RecurringOccurrence.status e); cbn [status_eqb andb] in *.
  - right. right. destruct (RecurringOccurrence.isOverdue (now w) e);
      [repeat split; reflexivity | discriminate Hcan].
  - left. split; reflexivity.
  - right. left. split; reflexivity.
Qed.

Lemma pay_occurrence_settles w input out w' :
  PayRecurringOccurrenceUseCase.execute input w = (Ok out, w') ->
  exists e tpl,
    PrismaRecurringOccurrenceRepository.findById
      (PayRecurringOccurrenceUseCase.occurrence_id input) w = (Ok (Some e), w)
    /\ RecurringOccurrence.canBePaid (now w) e = true
    /\ RecurringTransactionTemplateRepository.findById
         (RecurringOccurrence.template_id e) w = (Ok (Some tpl), w)
    /\ Transaction.transaction_date (PayRecurringOccurrenceUseCase.transaction out)
       = match PayRecurringOccurrenceUseCase.transaction_date input with
         | Some d => d
         | None => RecurringOccurrence.due_date e
         end
    /\ Transaction.amount (PayRecurringOccurrenceUseCase.transaction out)
       = RecurringTransactionTemplate.amount tpl
    /\ PayRecurringOccurrenceUseCase.occurrence out
       = RecurringOccurrence.set_status PAID
           (Some (Transaction.id (PayRecurringOccurrenceUseCase.transaction out)))
           e
    /\ In (PayRecurringOccurrenceUseCase.transaction out) (transactions w')
    /\ find (fun r => String.eqb (RecurringOccurrence.id r)
                        (PayRecurringOccurrenceUseCase.occurrence_id input))
         (occurrences w')
       = Some (PayRecurringOccurrenceUseCase.occurrence out).
Proof.
  unfold PayRecurringOccurrenceUseCase.execute. intros H.
  apply bind_inv_Ok in H as (found & w1 & Hfind & H).
  pose proof (occurrence_findById_world _ _ _ _ Hfind) as ->.
  destruct found as [e |]; [| discriminate H].
  apply bind_inv_Ok in H as (today & w2 & Htoday & H).
  unfold newDate in Htoday. injection Htoday as <- <-.
  destruct (RecurringOccurrence.canBePaid (now w) e) eqn:Hcan; cbn [negb] in H.
  2:{ repeat match type of H with
             | (if ?b then _ else _) _ = _ => destruct b
             end; discriminate H. }
  apply bind_inv_Ok in H as (tplFound & w3 & Htpl & H).
  assert (w3 = w) as ->.
  { unfold RecurringTransactionTemplateRepository.findById in Htpl.
    injection Htpl as _ <-. reflexivity. }
  destruct tplFound as [tpl |]; [| discriminate H].
  apply bind_inv_Ok in H as (tx & w4 & Htx & H).
  apply bind_inv_Ok in H as (paid & w5 & Hpaid & H).
  apply bind_inv_Ok in H as (u & w6 & Hmark & H).
  unfold ret in H. injection H as <- <-.
  unfold PayRecurringOccurrenceUseCase.createTransactionFromTemplate,
    TransactionRepository.create, bind, randomUUID in Htx.
  injection Htx as <- <-.
  unfold lift in Hpaid. injection Hpaid as Hpaid <-.
  unfold RecurringOccurrence.markAsPaid in Hpaid.
  destruct (negb (RecurringOccurrence.isPending e)); [discriminate Hpaid |].
  destruct (String.eqb _ ""); [discriminate Hpaid |].
  injection Hpaid as <-.
  unfold PrismaRecurringOccurrenceRepository.markAsPaid in Hmark.
  destruct (updateWhere _ _ _) as [rows |] eqn:Hrows; [| discriminate Hmark].
  injection Hmark as _ <-.
  apply occurrence_findById_inv in Hfind as Hrow. destruct Hrow as [_ Hrow].
  pose proof (eqb_find_id RecurringOccurrence.id _ _ _ Hrow) as Hid.
  exists e, tpl. cbn.
  repeat split; try reflexivity; try assumption.
  - apply in_or_app. right. left. reflexivity.
  - cbn in Hrows. rewrite Hid in Hrows.
    erewrite find_updateWhere; [| | exact Hrows]; [| reflexivity].
    rewrite Hrow. reflexivity.
Qed.

(** C5: a settlement call on an entry that cannot be paid fails with the
    reason that applies, already paid, skipped or overdue, and changes
    nothing; a call that succeeds found a payable entry, created a
    transaction dated with the supplied date or else the entry's due
    date, with the installment's amount (the template's amount for an
    occurrence), and left the entry, as returned and as stored, [PAID]
    with the id of that transaction. *)
Theorem settlement :
  (forall w input e,
     PrismaInstallmentRepository.findById
       (PayInstallmentUseCase.installment_id input) w = (Ok (Some e), w) ->
     Installment.canBePaid (now w) e = false ->
     (Installment.status e = PAID
      /\ PayInstallmentUseCase.execute input w
         = (Throw "Installment is already paid", w))
     \/ (Installment.status e = SKIPPED
         /\ PayInstallmentUseCase.execute input w
            = (Throw "Cannot pay skipped installment", w))
     \/ (Installment.status e = PENDING
         /\ Installment.isOverdue (now w) e = true
         /\ PayInstallmentUseCase.execute input w
            = (Throw "Cannot pay overdue installment (>30 days past due)", w)))
  /\ (forall w input e,
        PrismaRecurringOccurrenceRepository.findById
          (PayRecurringOccurrenceUseCase.occurrence_id input) w
          = (Ok (Some e), w) ->
        RecurringOccurrence.canBePaid (now w) e = false ->
        (RecurringOccurrence.status e = PAID
         /\ PayRecurringOccurrenceUseCase.execute input w
            = (Throw "Occurrence is already paid", w))
        \/ (RecurringOccurrence.status e = SKIPPED
            /\ PayRecurringOccurrenceUseCase.execute input w
               = (Throw "Cannot pay skipped occurrence", w))
        \/ (RecurringOccurrence.status e = PENDING
            /\ RecurringOccurrence.isOverdue (now w) e = true
            /\ PayRecurringOccurrenceUseCase.execute input w
               = (Throw "Cannot pay overdue occurrence (>30 days past due)", w)))
  /\ (forall w input out w',
        PayInstallmentUseCase.execute input w = (Ok out, w') ->
        exists e,
          PrismaInstallmentRepository.findById
            (PayInstallmentUseCase.installment_id input) w = (Ok (Some e), w)
          /\ Installment.canBePaid (now w) e = true
          /\ Transaction.transaction_date (PayInstallmentUseCase.transaction out)
             = match PayInstallmentUseCase.transaction_date input with
               | Some d => d
               | None => Installment.due_date e
               end
          /\ Transaction.amount (PayInstallmentUseCase.transaction out)
             = Installment.amount e
          /\ PayInstallmentUseCase.installment out
             = Installment.set_status PAID
                 (Some (Transaction.id (PayInstallmentUseCase.transaction out))) e
          /\ In (PayInstallmentUseCase.transaction out) (transactions w')
          /\ find (fun r => String.eqb (Installment.id r)
                              (PayInstallmentUseCase.installment_id input))
               (installments w')
             = Some (PayInstallmentUseCase.installment out))
  /\ (forall w input out w',
        PayRecurringOccurrenceUseCase.execute input w = (Ok out, w') ->
        exists e tpl,
          PrismaRecurringOccurrenceRepository.findById
            (PayRecurringOccurrenceUseCase.occurrence_id input) w
            = (Ok (Some e), w)
          /\ RecurringOccurrence.canBePaid (now w) e = true
          /\ RecurringTransactionTemplateRepository.findById
               (RecurringOccurrence.template_id e) w = (Ok (Some tpl), w)
          /\ Transaction.transaction_date
               (PayRecurringOccurrenceUseCase.transaction out)
             = match PayRecurringOccurrenceUseCase.transaction_date input with
               | Some d => d
               | None => RecurringOccurrence.due_date e
               end
          /\ Transaction.amount (PayRecurringOccurrenceUseCase.transaction out)
             = RecurringTransactionTemplate.amount tpl
          /\ PayRecurringOccurrenceUseCase.occurrence out
             = RecurringOccurrence.set_status PAID
                 (Some (Transaction.id
                          (PayRecurringOccurrenceUseCase.transaction out))) e
          /\ In (PayRecurringOccurrenceUseCase.transaction out) (transactions w')
          /\ find (fun r => String.eqb (RecurringOccurrence.id r)
                              (PayRecurringOccurrenceUseCase.occurrence_id input))
               (occurrences w')
             = Some (PayRecurringOccurrenceUseCase.occurrence out)).
Proof.
  split; [exact pay_installment_refused |].
  split; [exact pay_occurrence_refused |].
  split; [exact pay_installment_settles | exact pay_occurrence_settles].
Qed.

(** An instance of [settlement]: in scenario D the pending installment is
    settled with no date supplied, and a settlement of the same installment
    once skipped is refused. *)
Lemma settlement_witness :
  (exists out w',
     PayInstallmentUseCase.execute (payD None) scenarioD = (Ok out, w')
     /\ exists e,
          PrismaInstallmentRepository.findById
            (PayInstallmentUseCase.installment_id (payD None)) scenarioD
          = (Ok (Some e), scenarioD)
          /\ Installment.canBePaid (now scenarioD) e = true
          /\ Transaction.transaction_date (PayInstallmentUseCase.transaction out)
             = match PayInstallmentUseCase.transaction_date (payD None) with
               | Some d => d
               | None => Installment.due_date e
               end
          /\ Transaction.amount (PayInstallmentUseCase.transaction out)
             = Installment.amount e
          /\ PayInstallmentUseCase.installment out
             = Installment.set_status PAID
                 (Some (Transaction.id (PayInstallmentUseCase.transaction out))) e
          /\ In (PayInstallmentUseCase.transaction out) (transactions w')
          /\ find (fun r => String.eqb (Installment.id r)
                              (PayInstallmentUseCase.installment_id (payD None)))
               (installments w')
             = Some (PayInstallmentUseCase.installment out))
  /\ PayInstallmentUseCase.execute (payD None)
       (set_installments [installmentDue (JSDate.ymd 2024 2 1) SKIPPED None]
          scenarioD)
     = (Throw "Cannot pay skipped installment",
        set_installments [installmentDue (JSDate.ymd 2024 2 1) SKIPPED None]
          scenarioD).
Proof.
  split.
  - match eval vm_compute in (PayInstallmentUseCase.execute (payD None) scenarioD)
    with
    | (Ok ?out, ?w') =>
        exists out, w';
        assert (H : PayInstallmentUseCase.execute (payD None) scenarioD
                    = (Ok out, w')) by (vm_compute; reflexivity)
    end.
    split; [exact H |].
    exact (proj1 (proj2 (proj2 settlement)) _ _ _ _ H).
  - destruct (proj1 settlement
                (set_installments
                   [installmentDue (JSDate.ymd 2024 2 1) SKIPPED None] scenarioD)
                (payD None)
                (installmentDue (JSDate.ymd 2024 2 1) SKIPPED None)
                eq_refl eq_refl)
      as [[Hs _] | [[_ H] | [Hs _]]]; [discriminate Hs | exact H | discriminate Hs].
Defined.

(** ** Installment generation *)

Lemma createInstallment_Ok tid i amt due w :
  Zod.is_uuid tid = true -> 0 < i -> (0 <? amt)%float = true ->
  createInstallment tid i amt due w
  = (Ok {| Installment.id := uuids w (rng w); Installment.template_id := tid;
           Installment.installment_number := i; Installment.amount := amt;
           Installment.due_date := due; Installment.status := PENDING;
           Installment.transaction_id := None;
           Installment.created_at := now w; Installment.updated_at := now w |},
     drawn 1 w).
Proof.
  intros Hid Hi Hamt.
  unfold createInstallment, bind, lift, randomUUID, newDate,
    Installment.create, Installment.new, Installment.validate.
  cbn [Installment.p_id Installment.p_template_id
       Installment.p_installment_number Installment.p_amount
       Installment.p_transaction_id Zod.opt_uuid negb].
  rewrite Hid, Hamt. rewrite (proj2 (Z.ltb_lt 0 i) Hi). reflexivity.
Qed.

Lemma generateInstallment_Ok tpl i w :
  Zod.is_uuid (InstallmentTemplate.id tpl) = true ->
  1 <= i <= InstallmentTemplate.total_installments tpl ->
  amountsPositive tpl = true ->
  CreateInstallmentTemplateUseCase.generateInstallment tpl
    (InstallmentTemplate.getInstallmentAmount tpl) i w
  = (Ok {| Installment.id := uuids w (rng w);
           Installment.template_id := InstallmentTemplate.id tpl;
           Installment.installment_number := i;
           Installment.amount := installmentAmountFor tpl i;
           Installment.due_date :=
             addMonths (InstallmentTemplate.first_due_date tpl) (i - 1);
           Installment.status := PENDING;
           Installment.transaction_id := None;
           Installment.created_at := now w; Installment.updated_at := now w |},
     drawn 1 w).
Proof.
  intros Hid Hi Hpos.
  unfold CreateInstallmentTemplateUseCase.generateInstallment.
  assert (Hdue : InstallmentTemplate.calculateDueDate tpl i
                 = Ok (addMonths (InstallmentTemplate.first_due_date tpl) (i - 1))).
  { unfold InstallmentTemplate.calculateDueDate.
    rewrite (proj2 (Z.ltb_ge i 1)) by lia.
    rewrite (proj2 (Z.ltb_ge (InstallmentTemplate.total_installments tpl) i))
      by lia.
    reflexivity. }
  erewrite bind_Ok by (unfold lift; rewrite Hdue; reflexivity).
  assert (Hamt :
    JSNumber.round2
      (if i =? InstallmentTemplate.total_installments tpl
       then (InstallmentTemplate.total_amount tpl
             - InstallmentTemplate.getInstallmentAmount tpl
               * JSNumber.of_Z (InstallmentTemplate.total_installments tpl - 1))%float
       else InstallmentTemplate.getInstallmentAmount tpl)
    = installmentAmountFor tpl i).
  { unfold installmentAmountFor, lastAmount, regularAmount.
    destruct (i =? InstallmentTemplate.total_installments tpl); reflexivity. }
  rewrite Hamt. apply createInstallment_Ok; [exact Hid | lia |].
  unfold amountsPositive in Hpos. apply andb_prop in Hpos as [Hr Hl].
  unfold installmentAmountFor.
  destruct (i =? InstallmentTemplate.total_installments tpl); assumption.
Qed.

Lemma newInstallments_drawn j w tpl k numbers :
  newInstallments (drawn j w) tpl k numbers = newInstallments w tpl k numbers.
Proof.
  revert k. induction numbers as [| i rest IH]; intros k; simpl; [reflexivity |].
  rewrite IH. reflexivity.
Qed.

Lemma newInstallments_length w tpl k numbers :
  length (newInstallments w tpl k numbers) = length numbers.
Proof.
  revert k. induction numbers as [| i rest IH]; intros k; simpl; [reflexivity |].
  rewrite IH. reflexivity.
Qed.

Lemma newInstallments_lookup w tpl numbers :
  forall k j i,
    numbers !! j = Some i ->
    newInstallments w tpl k numbers !! j
    = Some {| Installment.id := uuids w (k + j);
              Installment.template_id := InstallmentTemplate.id tpl;
              Installment.installment_number := i;
              Installment.amount := installmentAmountFor tpl i;
              Installment.due_date :=
                addMonths (InstallmentTemplate.first_due_date tpl) (i - 1);
              Installment.status := PENDING;
              Installment.transaction_id := None;
              Installment.created_at := now w;
              Installment.updated_at := now w |}.
Proof.
  induction numbers as [| x rest IH]; intros k j i Hj; [discriminate Hj |].
  destruct j as [| j]; simpl in *.
  - injection Hj as ->. rewrite Nat.add_0_r. reflexivity.
  - rewrite (IH (S k) j i Hj).
    replace (S k + j)%nat with (k + S j)%nat by lia. reflexivity.
Qed.

Lemma traverse_generateInstallment tpl numbers :
  Zod.is_uuid (InstallmentTemplate.id tpl) = true ->
  amountsPositive tpl = true ->
  Forall (fun i => 1 <= i <= InstallmentTemplate.total_installments tpl) numbers ->
  forall w,
    traverseM
      (CreateInstallmentTemplateUseCase.generateInstallment tpl
         (InstallmentTemplate.getInstallmentAmount tpl)) numbers w
    = (Ok (newInstallments w tpl (rng w) numbers), drawn (length numbers) w).
Proof.
  intros Hid Hpos. induction 1 as [| i rest Hi Hrest IH]; intros w.
  - simpl. unfold ret. rewrite drawn_0. reflexivity.
  - cbn [traverseM]. erewrite bind_Ok by (apply generateInstallment_Ok; assumption).
    erewrite bind_Ok by apply IH. unfold ret. cbn [newInstallments].
    rewrite newInstallments_drawn, drawn_drawn. cbn [rng drawn length].
    replace (length rest + 1)%nat with (S (length rest)) by lia.
    replace (1 + rng w)%nat with (S (rng w)) by lia. reflexivity.
Qed.

Lemma generateInstallments_same tpl :
  CreateInstallmentTransactionUseCase.generateInstallments tpl
  = CreateInstallmentTemplateUseCase.generateInstallments tpl.
Proof. reflexivity. Qed.

(** C8 as stated fails: a purchase of one cent in three installments is a
    valid template, and generating its installments throws, because the
    rounded amount of an installment is zero and an installment must have
    a positive amount. *)
Lemma tiny_purchase_generates_nothing :
  InstallmentTemplate.new templateId (JSDate.ymd 2024 1 1)
    (purchaseProps (1 / 100)%float 3)
  = Ok (purchaseTemplate (1 / 100)%float 3)
  /\ CreateInstallmentTemplateUseCase.generateInstallments
       (purchaseTemplate (1 / 100)%float 3) (emptyWorld (JSDate.ymd 2024 1 1))
     = (Throw "Amount must be positive", emptyWorld (JSDate.ymd 2024 1 1))
  /\ CreateInstallmentTransactionUseCase.generateInstallments
       (purchaseTemplate (1 / 100)%float 3) (emptyWorld (JSDate.ymd 2024 1 1))
     = (Throw "Amount must be positive", emptyWorld (JSDate.ymd 2024 1 1)).
Proof. repeat split; vm_compute; reflexivity. Qed.

(** C8, as the code has it: for a template with 2 to 120 installments
    whose rounded amounts are positive, generation creates exactly
    [total_installments] entries; the [i]-th has number [i], is due
    [i - 1] calendar months after the first due date and is pending, with
    no transaction. Both use cases generate alike. In scenario A the
    twelve installments are 100.00 each, due on the first of each month
    from 2024-02-01 to 2025-01-01. *)
Theorem installments_generated :
  (forall w tpl,
     Zod.is_uuid (InstallmentTemplate.id tpl) = true ->
     2 <= InstallmentTemplate.total_installments tpl <= 120 ->
     amountsPositive tpl = true ->
     exists l,
       CreateInstallmentTemplateUseCase.generateInstallments tpl w
       = (Ok l, drawn (length l) w)
       /\ CreateInstallmentTransactionUseCase.generateInstallments tpl w
          = (Ok l, drawn (length l) w)
       /\ Z.of_nat (length l) = InstallmentTemplate.total_installments tpl
       /\ forall i,
            1 <= i <= InstallmentTemplate.total_installments tpl ->
            exists e,
              l !! Z.to_nat (i - 1) = Some e
              /\ Installment.installment_number e = i
              /\ Installment.due_date e
                 = addMonths (InstallmentTemplate.first_due_date tpl) (i - 1)
              /\ Installment.status e = PENDING
              /\ Installment.transaction_id e = None
              /\ Installment.template_id e = InstallmentTemplate.id tpl
              /\ Installment.amount e = installmentAmountFor tpl i)
  /\ (exists out w',
        CreateInstallmentTemplateUseCase.execute (purchase 1200 12)
          (emptyWorld (JSDate.ymd 2024 1 1)) = (Ok out, w')
        /\ CreateInstallmentTemplateUseCase.installments out
           = rev (installments w')
        /\ map shown (installments w')
           = [(1, 100%float, "2024-02-01"%string, PENDING);
              (2, 100%float, "2024-03-01"%string, PENDING);
              (3, 100%float, "2024-04-01"%string, PENDING);
              (4, 100%float, "2024-05-01"%string, PENDING);
              (5, 100%float, "2024-06-01"%string, PENDING);
              (6, 100%float, "2024-07-01"%string, PENDING);
              (7, 100%float, "2024-08-01"%string, PENDING);
              (8, 100%float, "2024-09-01"%string, PENDING);
              (9, 100%float, "2024-10-01"%string, PENDING);
              (10, 100%float, "2024-11-01"%string, PENDING);
              (11, 100%float, "2024-12-01"%string, PENDING);
              (12, 100%float, "2025-01-01"%string, PENDING)]).
Proof.
  split.
  - intros w tpl Hid Hn Hpos.
    set (n := InstallmentTemplate.total_installments tpl) in *.
    exists (newInstallments w tpl (rng w) (seqZ 1 n)).
    rewrite newInstallments_length, length_seqZ.
    assert (Hrun :
      CreateInstallmentTemplateUseCase.generateInstallments tpl w
      = (Ok (newInstallments w tpl (rng w) (seqZ 1 n)), drawn (Z.to_nat n) w)).
    { unfold CreateInstallmentTemplateUseCase.generateInstallments.
      rewrite traverse_generateInstallment; try assumption.
      - rewrite length_seqZ. reflexivity.
      - apply Forall_seqZ. intros i Hi. fold n. lia. }
    split; [exact Hrun |]. split; [rewrite generateInstallments_same; exact Hrun |].
    split; [lia |].
    intros i Hi. eexists. split.
    + apply (newInstallments_lookup w tpl (seqZ 1 n) (rng w)
               (Z.to_nat (i - 1)) i).
      apply lookup_seqZ. rewrite Z2Nat.id by lia. lia.
    + cbn. repeat split; reflexivity.
  - match eval vm_compute in
          (CreateInstallmentTemplateUseCase.execute (purchase 1200 12)
             (emptyWorld (JSDate.ymd 2024 1 1))) with
    | (Ok ?out, ?w') => exists out, w'
    end.
    repeat split; vm_compute; reflexivity.
Qed.

(** An instance of [installments_generated]: the template of scenario A. *)
Lemma installments_generated_witness :
  exists l,
    CreateInstallmentTemplateUseCase.generateInstallments
      (purchaseTemplate 1200 12) (emptyWorld (JSDate.ymd 2024 1 1))
    = (Ok l, drawn (length l) (emptyWorld (JSDate.ymd 2024 1 1)))
    /\ CreateInstallmentTransactionUseCase.generateInstallments
         (purchaseTemplate 1200 12) (emptyWorld (JSDate.ymd 2024 1 1))
       = (Ok l, drawn (length l) (emptyWorld (JSDate.ymd 2024 1 1)))
    /\ Z.of_nat (length l)
       = InstallmentTemplate.total_installments (purchaseTemplate 1200 12)
    /\ forall i,
         1 <= i <= InstallmentTemplate.total_installments (purchaseTemplate 1200 12) ->
         exists e,
           l !! Z.to_nat (i - 1) = Some e
           /\ Installment.installment_number e = i
           /\ Installment.due_date e
              = addMonths
                  (InstallmentTemplate.first_due_date (purchaseTemplate 1200 12))
                  (i - 1)
           /\ Installment.status e = PENDING
           /\ Installment.transaction_id e = None
           /\ Installment.template_id e
              = InstallmentTemplate.id (purchaseTemplate 1200 12)
           /\ Installment.amount e
              = installmentAmountFor (purchaseTemplate 1200 12) i.
Proof.
  apply (proj1 installments_generated (emptyWorld (JSDate.ymd 2024 1 1))
           (purchaseTemplate 1200 12)).
  - reflexivity.
  - cbn. lia.
  - vm_compute. reflexivity.
Defined.

(** ** The split of the total amount *)

(** [Math.round] rounds ties towards +infinity. *)
Example Math_round_ties :
  JSNumber.Math_round (5 / 2) = 3%float
  /\ JSNumber.Math_round (- (5 / 2)) = (-2)%float
  /\ JSNumber.Math_round (1 / 2) = 1%float
  /\ JSNumber.Math_round (PrimFloat.next_down (1 / 2)) = 0%float
  /\ JSNumber.Math_round (3333 + 1 / 3) = 3333%float.
Proof. repeat split; vm_compute; reflexivity. Qed.

Lemma exact_round2_Qeq x y :
  (x == y)%Q -> (ExactAmounts.round2 x == ExactAmounts.round2 y)%Q.
Proof.
  intros Hxy. unfold ExactAmounts.round2.
  assert (Qfloor (x * inject_Z 100 + (1 # 2))
          = Qfloor (y * inject_Z 100 + (1 # 2))) as ->
    by (apply Qfloor_comp; rewrite Hxy; reflexivity).
  reflexivity.
Qed.

(** In exact arithmetic the amount of the last installment is that of the
    others, whatever the total and the count: what is subtracted from the
    total is [count - 1] times the quotient, not the rounded amount. *)
Lemma exact_lastAmount_regular total count :
  count <> 0 ->
  (ExactAmounts.lastAmount total count
   == ExactAmounts.regularAmount total count)%Q.
Proof.
  intros Hc. unfold ExactAmounts.lastAmount, ExactAmounts.regularAmount.
  apply exact_round2_Qeq.
  assert (Hc' : ~ (inject_Z count == 0)%Q).
  { intros H. apply Hc. unfold Qeq, inject_Z in H. simpl in H. lia. }
  replace (count - 1) with (count + -1) by lia.
  rewrite inject_Z_plus. field. exact Hc'.
Qed.

Example exact_scenarioB :
  (ExactAmounts.regularAmount (inject_Z 100) 3 == 3333 # 100)%Q
  /\ (ExactAmounts.lastAmount (inject_Z 100) 3 == 3333 # 100)%Q.
Proof. split; vm_compute; reflexivity. Qed.

(** C1: evaluated on scenario B, 100.00 in 3 installments. The template is
    valid and generation succeeds, but the last amount is computed from the
    quotient before rounding, so it is 33.33 like the others and not
    [100 - 33.33 * 2]; the three amounts add up to less than 100. *)
Theorem remainder_not_absorbed :
  InstallmentTemplate.new templateId (JSDate.ymd 2024 1 1) (purchaseProps 100 3)
  = Ok (purchaseTemplate 100 3)
  /\ (exists l w',
        CreateInstallmentTransactionUseCase.generateInstallments
          (purchaseTemplate 100 3) (emptyWorld (JSDate.ymd 2024 1 1))
        = (Ok l, w')
        /\ CreateInstallmentTemplateUseCase.generateInstallments
             (purchaseTemplate 100 3) (emptyWorld (JSDate.ymd 2024 1 1))
           = (Ok l, w')
        /\ map Installment.amount l
           = [(3333 / 100)%float; (3333 / 100)%float; (3333 / 100)%float])
  /\ JSNumber.round2 (100 / 3)%float = (3333 / 100)%float
  /\ lastAmount (purchaseTemplate 100 3) = (3333 / 100)%float
  /\ (lastAmount (purchaseTemplate 100 3)
      =? 100 - JSNumber.round2 (100 / 3) * 2)%float = false
  /\ (3333 / 100 + 3333 / 100 + 3333 / 100 <? 100)%float = true.
Proof.
  split; [vm_compute; reflexivity |]. split.
  - match eval vm_compute in
          (CreateInstallmentTransactionUseCase.generateInstallments
             (purchaseTemplate 100 3) (emptyWorld (JSDate.ymd 2024 1 1))) with
    | (Ok ?l, ?w') => exists l, w'
    end.
    repeat split; vm_compute; reflexivity.
  - repeat split; vm_compute; reflexivity.
Qed.

(** * Further properties of the code *)

(** ** Entities *)

(** X1: an installment is both due and payable exactly when it is
    pending and today is between its due day and the thirtieth day after
    it, counted in whole days; and a pending installment that is overdue
    is still reported as due. *)
Theorem installment_due_window now i :
  Installment.isDue now i && Installment.canBePaid now i
  = Installment.isPending i
    && (0 <=? daysPast now (Installment.due_date i))
    && (daysPast now (Installment.due_date i) <=? 30)
  /\ implb (Installment.isPending i && Installment.isOverdue now i)
       (Installment.isDue now i) = true.
Proof.
  unfold Installment.isDue, Installment.canBePaid, Installment.isOverdue, daysPast.
  cbv zeta. rewrite thirtyDaysAgo, !setHours0_Day.
  set (d := JSDate.Day now). set (e := JSDate.Day (Installment.due_date i)).
  unfold JSDate.msPerDay.
  destruct (Installment.isPending i); cbn [andb negb implb];
    rewrite ?andb_true_r, ?andb_false_r; split; try reflexivity.
  - destruct (Z.leb_spec (e * 86400000) (d * 86400000));
      destruct (Z.ltb_spec (e * 86400000) (d * 86400000 - 30 * 86400000));
      destruct (Z.leb_spec 0 (d - e)); destruct (Z.leb_spec (d - e) 30);
      cbn; try reflexivity; lia.
  - destruct (Z.ltb_spec (e * 86400000) (d * 86400000 - 30 * 86400000));
      destruct (Z.leb_spec (e * 86400000) (d * 86400000));
      cbn; try reflexivity; lia.
Qed.

(** X2: being overdue is permanent. Once an installment or an occurrence
    is overdue at some instant it is overdue at every later instant, and
    [canBePaid] stays false whatever its status. *)
Theorem overdue_is_permanent now now' i o :
  now <= now' ->
  (Installment.isOverdue now i = true ->
   Installment.isOverdue now' i = true /\ Installment.canBePaid now' i = false)
  /\ (RecurringOccurrence.isOverdue now o = true ->
      RecurringOccurrence.isOverdue now' o = true
      /\ RecurringOccurrence.canBePaid now' o = false).
Proof.
  intros Hle. split; intros H.
  - assert (H' : Installment.isOverdue now' i = true).
    { unfold Installment.isOverdue in *. cbv zeta in *.
      apply overdue_spec. apply overdue_spec in H.
      eapply overdue_monotone; eassumption. }
    split; [exact H' |].
    unfold Installment.canBePaid. rewrite H'. apply andb_false_r.
  - assert (H' : RecurringOccurrence.isOverdue now' o = true).
    { unfold RecurringOccurrence.isOverdue in *. cbv zeta in *.
      apply overdue_spec. apply overdue_spec in H.
      eapply overdue_monotone; eassumption. }
    split; [exact H' |].
    unfold RecurringOccurrence.canBePaid. rewrite H'. apply andb_false_r.
Qed.

Lemma overdue_is_permanent_witness :
  (Installment.isOverdue (JSDate.ymd 2024 3 1)
     (installmentDue (JSDate.ymd 2024 1 1) PENDING None) = true ->
   Installment.isOverdue (JSDate.ymd 2025 3 1)
     (installmentDue (JSDate.ymd 2024 1 1) PENDING None) = true
   /\ Installment.canBePaid (JSDate.ymd 2025 3 1)
        (installmentDue (JSDate.ymd 2024 1 1) PENDING None) = false)
  /\ (RecurringOccurrence.isOverdue (JSDate.ymd 2024 3 1)
        (occurrenceDue (JSDate.ymd 2024 1 1) PENDING None) = true ->
      RecurringOccurrence.isOverdue (JSDate.ymd 2025 3 1)
        (occurrenceDue (JSDate.ymd 2024 1 1) PENDING None) = true
      /\ RecurringOccurrence.canBePaid (JSDate.ymd 2025 3 1)
           (occurrenceDue (JSDate.ymd 2024 1 1) PENDING None) = false).
Proof.
  apply (overdue_is_permanent (JSDate.ymd 2024 3 1) (JSDate.ymd 2025 3 1)).
  vm_compute. discriminate.
Defined.

(** X3: the activation switch of an installment template. An active
    template can be deactivated and not activated, an inactive one the
    other way round; deactivating and activating again gives the template
    back, and the second of two equal switches throws. *)
Theorem template_activation_switch tpl :
  (InstallmentTemplate.is_active tpl = true ->
   InstallmentTemplate.activate tpl = Throw "Template is already active"
   /\ exists off,
        InstallmentTemplate.deactivate tpl = Ok off
        /\ InstallmentTemplate.isActive off = false
        /\ InstallmentTemplate.deactivate off
           = Throw "Template is already inactive"
        /\ InstallmentTemplate.activate off = Ok tpl)
  /\ (InstallmentTemplate.is_active tpl = false ->
      InstallmentTemplate.deactivate tpl = Throw "Template is already inactive"
      /\ exists on,
           InstallmentTemplate.activate tpl = Ok on
           /\ InstallmentTemplate.isActive on = true
           /\ InstallmentTemplate.activate on = Throw "Template is already active"
           /\ InstallmentTemplate.deactivate on = Ok tpl).
Proof.
  destruct tpl as [i c d ta ti p a cat ce fs v f act ca ua].
  unfold InstallmentTemplate.activate, InstallmentTemplate.deactivate,
    InstallmentTemplate.canBeActivated, InstallmentTemplate.canBeDeactivated,
    InstallmentTemplate.isActive, InstallmentTemplate.set_is_active.
  cbn. split; intros ->; cbn; (split; [reflexivity |]);
    eexists; repeat split; reflexivity.
Qed.

(** X4: the due dates of a purchase. [calculateDueDate] answers exactly
    for the installment numbers 1 to [total_installments]; number 1 is due
    on the first due date; a later number is due at least 28 days later
    per number, so due dates strictly increase; and every due date keeps
    the time of day of the first one. *)
Theorem due_dates_increase tpl :
  (forall i,
     isOk (InstallmentTemplate.calculateDueDate tpl i)
     = (1 <=? i) && (i <=? InstallmentTemplate.total_installments tpl))
  /\ (1 <= InstallmentTemplate.total_installments tpl ->
      InstallmentTemplate.calculateDueDate tpl 1
      = Ok (InstallmentTemplate.first_due_date tpl))
  /\ (forall i j a b,
        InstallmentTemplate.calculateDueDate tpl i = Ok a ->
        InstallmentTemplate.calculateDueDate tpl j = Ok b ->
        i < j ->
        a + 28 * (j - i) * JSDate.msPerDay <= b)
  /\ (forall i a,
        InstallmentTemplate.calculateDueDate tpl i = Ok a ->
        JSDate.TimeWithinDay a
        = JSDate.TimeWithinDay (InstallmentTemplate.first_due_date tpl)).
Proof.
  unfold InstallmentTemplate.calculateDueDate.
  set (n := InstallmentTemplate.total_installments tpl).
  set (d := InstallmentTemplate.first_due_date tpl).
  cbv zeta.
  assert (Hd : 0 <= JSDate.TimeWithinDay d < JSDate.msPerDay).
  { unfold JSDate.TimeWithinDay. apply Z.mod_pos_bound. reflexivity. }
  repeat split.
  - intros i. destruct (Z.ltb_spec i 1); destruct (Z.ltb_spec n i);
      destruct (Z.leb_spec 1 i); destruct (Z.leb_spec i n);
      cbn; try reflexivity; lia.
  - intros Hn. destruct (Z.ltb_spec 1 1); [lia |].
    destruct (Z.ltb_spec n 1); [lia |]. cbn [orb]. f_equal.
    change (1 - 1) with 0.
    pose proof (setDate_getDate d 0) as Hown.
    unfold JSDate.setDate, JSDate.getDate in Hown.
    unfold JSDate.setMonth, JSDate.getMonth.
    rewrite !Z.add_0_r in *. lia.
  - intros i j a b Ha Hb Hij.
    destruct ((i <? 1) || (n <? i)); [discriminate |].
    destruct ((j <? 1) || (n <? j)); [discriminate |].
    injection Ha as <-. injection Hb as <-.
    unfold JSDate.setMonth, JSDate.getMonth, JSDate.MakeDate.
    pose proof (MakeDay_month_mono (JSDate.YearFromTime d)
                  (JSDate.MonthFromTime d + (i - 1)) (JSDate.DateFromTime d)
                  (j - i) ltac:(lia)) as Hm.
    replace (JSDate.MonthFromTime d + (i - 1) + (j - i))
      with (JSDate.MonthFromTime d + (j - 1)) in Hm by lia.
    unfold JSDate.msPerDay in *. lia.
  - intros i a Ha.
    destruct ((i <? 1) || (n <? i)); [discriminate |].
    injection Ha as <-.
    unfold JSDate.setMonth, JSDate.MakeDate.
    apply TimeWithinDay_within. exact Hd.
Qed.

(** ** Installment rows and the queries of the installment store *)

Lemma status_eqb_eq a b : status_eqb a b = true <-> a = b.
Proof. destruct a, b; simpl; split; intros H; congruence. Qed.

Lemma installment_toDomain_readable row :
  readableInstallment row ->
  Installment.new "" 0 (Installment.toProps row) = Ok row.
Proof.
  intros (Hid & Htid & Hn & Ha & Htx). destruct row as [id tid n a due st tx ca ua].
  unfold Installment.new, Installment.validate. simpl in *.
  rewrite Hid, Htid, Ha, Htx. apply Z.ltb_lt in Hn. rewrite Hn. reflexivity.
Qed.

Lemma installment_toDomain_Ok u n row e :
  Installment.new u n (Installment.toProps row) = Ok e -> readableInstallment row.
Proof.
  unfold Installment.new. destruct (Installment.validate _) as [p |] eqn:Hv;
    [| discriminate].
  intros _. unfold Installment.validate in Hv. simpl in Hv.
  unfold readableInstallment.
  destruct (Zod.is_uuid (Installment.id row)); [| discriminate].
  destruct (Zod.is_uuid (Installment.template_id row)); [| discriminate].
  destruct (Z.ltb_spec 0 (Installment.installment_number row)); [| discriminate].
  destruct (0 <? Installment.amount row)%float; [| discriminate].
  destruct (Zod.opt_uuid (Installment.transaction_id row)); [| discriminate].
  repeat split; auto.
Qed.

(** Mapping rows to entities leaves the world, also when a row is
    rejected. *)
Lemma traverseM_lift_world {A B} (f : A -> result B) l :
  forall w r w', traverseM (fun x => lift (f x)) l w = (r, w') -> w' = w.
Proof.
  induction l as [| x l IH]; intros w r w' H.
  - injection H as _ <-. reflexivity.
  - simpl in H. unfold bind at 1 in H. unfold lift at 1 in H.
    destruct (f x); [| injection H as _ <-; reflexivity].
    unfold bind at 1 in H.
    destruct (traverseM _ l w) as [[ys | msg] w1] eqn:Hl.
    + apply IH in Hl as ->. injection H as _ <-. reflexivity.
    + apply IH in Hl as ->. injection H as _ <-. reflexivity.
Qed.

Lemma traverseM_lift_inv {A B} (f : A -> result B) l :
  forall w l' w',
    traverseM (fun x => lift (f x)) l w = (Ok l', w') ->
    Forall2 (fun x y => f x = Ok y) l l'.
Proof.
  induction l as [| x l IH]; intros w l' w' H.
  - injection H as <- _. constructor.
  - simpl in H. unfold bind at 1 in H. unfold lift at 1 in H.
    destruct (f x) as [y |] eqn:Hx; [| discriminate].
    unfold bind at 1 in H.
    destruct (traverseM _ l w) as [[ys | msg] w1] eqn:Hl; [| discriminate].
    injection H as <- _. constructor; [exact Hx | eapply IH; exact Hl].
Qed.


Lemma installments_toDomain_inv l w l' w' :
  traverseM PrismaInstallmentMapper.toDomain l w = (Ok l', w') ->
  w' = w /\ l' = l /\ Forall readableInstallment l.
Proof.
  intros H. split; [eapply traverseM_lift_world; exact H |].
  apply traverseM_lift_inv in H.
  induction H as [| x y l l' Hxy Hl IH]; [split; constructor |].
  destruct IH as [-> IH].
  pose proof (installment_toDomain_Ok _ _ _ _ Hxy) as Hr.
  apply installment_new_toProps in Hxy as ->.
  split; [reflexivity | constructor; assumption].
Qed.

Lemma installment_toDomain_one row w :
  readableInstallment row ->
  PrismaInstallmentMapper.toDomain row w = (Ok row, w).
Proof.
  intros Hr. unfold PrismaInstallmentMapper.toDomain, lift.
  rewrite installment_toDomain_readable by exact Hr. reflexivity.
Qed.

(** The first row with a given key, in a table without duplicate keys. *)
Lemma find_NoDup_key {A} (key : A -> string) (l : list A) e :
  NoDup (map key l) -> In e l ->
  find (fun r => String.eqb (key r) (key e)) l = Some e.
Proof.
  induction l as [| x l IH]; intros Hnd Hin; [destruct Hin |].
  simpl in Hnd. apply NoDup_cons in Hnd as [Hx Hnd]. simpl.
  destruct Hin as [-> | Hin].
  - rewrite String.eqb_refl. reflexivity.
  - destruct (String.eqb_spec (key x) (key e)) as [Heq | _].
    + exfalso. apply Hx. rewrite Heq. apply list_elem_of_In, in_map. exact Hin.
    + apply IH; assumption.
Qed.

Lemma find_absent_key {A} (key : A -> string) (l : list A) id :
  ~ In id (map key l) -> find (fun r => String.eqb (key r) id) l = None.
Proof.
  induction l as [| x l IH]; intros Hn; [reflexivity |]. simpl.
  destruct (String.eqb_spec (key x) id) as [Heq | _].
  - exfalso. apply Hn. left. exact Heq.
  - apply IH. intros Hin. apply Hn. right. exact Hin.
Qed.

Lemma find_app_absent {A} (p : A -> bool) (l1 l2 : list A) :
  find p l2 = None -> find p (l1 ++ l2) = find p l1.
Proof.
  intros H2. induction l1 as [| x l1 IH]; simpl; [exact H2 |].
  destruct (p x); [reflexivity | exact IH].
Qed.

(** What [createMany] reads back is the batch itself. *)
Lemma installments_createMany_inv batch w l w' :
  PrismaInstallmentRepository.createMany batch w = (Ok l, w') ->
  w' = set_installments (installments w ++ batch) w
  /\ l = rev batch
  /\ Forall readableInstallment batch.
Proof.
  unfold PrismaInstallmentRepository.createMany. cbv zeta.
  replace (installments (set_installments (installments w ++ batch) w))
    with (installments w ++ batch) by reflexivity.
  rewrite filter_app.
  rewrite (filter_all _ batch).
  2:{ apply Forall_forall. intros o Ho. apply list_elem_of_In.
      apply in_map. apply list_elem_of_In. exact Ho. }
  rewrite rev_app_distr.
  rewrite take_app_length' by (rewrite length_rev; reflexivity).
  intros H. apply installments_toDomain_inv in H as (-> & -> & Hr).
  repeat split; try reflexivity.
  apply Forall_forall. intros x Hx. rewrite Forall_forall in Hr. apply Hr.
  apply list_elem_of_In, in_rev. rewrite rev_involutive.
  apply list_elem_of_In. exact Hx.
Qed.

(** X5: storing a batch and looking it up. When [createMany] succeeds on
    a table whose identifiers stay pairwise distinct, it returns the
    batch (in some order) and appends it to the table; afterwards
    [findById] finds every installment of the batch as it was stored, and
    answers for every other identifier as it did before. *)
Theorem installments_createMany_lookup batch w l w' :
  PrismaInstallmentRepository.createMany batch w = (Ok l, w') ->
  NoDup (map Installment.id (installments w ++ batch)) ->
  Permutation l batch
  /\ installments w' = installments w ++ batch
  /\ (forall e,
        In e batch ->
        PrismaInstallmentRepository.findById (Installment.id e) w'
        = (Ok (Some e), w'))
  /\ (forall id,
        ~ In id (map Installment.id batch) ->
        fst (PrismaInstallmentRepository.findById id w')
        = fst (PrismaInstallmentRepository.findById id w)).
Proof.
  intros H Hnd. apply installments_createMany_inv in H as (-> & -> & Hr).
  split; [symmetry; apply Permutation_rev |].
  split; [reflexivity |].
  split.
  - intros e He. unfold PrismaInstallmentRepository.findById.
    replace (installments (set_installments (installments w ++ batch) w))
      with (installments w ++ batch) by reflexivity.
    rewrite (find_NoDup_key Installment.id) by (auto using in_or_app).
    unfold bind. rewrite installment_toDomain_one; [reflexivity |].
    rewrite Forall_forall in Hr. apply Hr, list_elem_of_In, He.
  - intros id Hid. unfold PrismaInstallmentRepository.findById.
    replace (installments (set_installments (installments w ++ batch) w))
      with (installments w ++ batch) by reflexivity.
    rewrite find_app_absent by (apply find_absent_key; exact Hid).
    destruct (find _ (installments w)) as [row |]; [| reflexivity].
    unfold bind, PrismaInstallmentMapper.toDomain, lift.
    destruct (Installment.new _ _ _); reflexivity.
Qed.

Lemma installments_createMany_lookup_witness :
  Permutation [installmentDue (JSDate.ymd 2024 2 1) PENDING None]
    [installmentDue (JSDate.ymd 2024 2 1) PENDING None]
  /\ installments
       (set_installments [installmentDue (JSDate.ymd 2024 2 1) PENDING None]
          (emptyWorld (JSDate.ymd 2024 1 1)))
     = installments (emptyWorld (JSDate.ymd 2024 1 1))
       ++ [installmentDue (JSDate.ymd 2024 2 1) PENDING None]
  /\ (forall e,
        In e [installmentDue (JSDate.ymd 2024 2 1) PENDING None] ->
        PrismaInstallmentRepository.findById (Installment.id e)
          (set_installments [installmentDue (JSDate.ymd 2024 2 1) PENDING None]
             (emptyWorld (JSDate.ymd 2024 1 1)))
        = (Ok (Some e),
           set_installments [installmentDue (JSDate.ymd 2024 2 1) PENDING None]
             (emptyWorld (JSDate.ymd 2024 1 1))))
  /\ (forall id,
        ~ In id (map Installment.id
                   [installmentDue (JSDate.ymd 2024 2 1) PENDING None]) ->
        fst (PrismaInstallmentRepository.findById id
               (set_installments
                  [installmentDue (JSDate.ymd 2024 2 1) PENDING None]
                  (emptyWorld (JSDate.ymd 2024 1 1))))
        = fst (PrismaInstallmentRepository.findById id
                 (emptyWorld (JSDate.ymd 2024 1 1)))).
Proof.
  apply (installments_createMany_lookup
           [installmentDue (JSDate.ymd 2024 2 1) PENDING None]
           (emptyWorld (JSDate.ymd 2024 1 1))).
  - vm_compute. reflexivity.
  - simpl. apply NoDup_cons. split; [intros H; inversion H | apply NoDup_nil_2].
Defined.

#[local] Instance byNumber_total : Total PrismaInstallmentRepository.byNumber.
Proof. intros a b. unfold PrismaInstallmentRepository.byNumber. lia. Qed.

#[local] Instance byNumber_trans : Transitive PrismaInstallmentRepository.byNumber.
Proof. intros a b c. unfold PrismaInstallmentRepository.byNumber. lia. Qed.

#[local] Instance installment_byDueDate_total :
  Total PrismaInstallmentRepository.byDueDate.
Proof. intros a b. unfold PrismaInstallmentRepository.byDueDate. lia. Qed.

#[local] Instance installment_byDueDate_trans :
  Transitive PrismaInstallmentRepository.byDueDate.
Proof. intros a b c. unfold PrismaInstallmentRepository.byDueDate. lia. Qed.

Lemma in_merge_sort {A} (R : A -> A -> Prop) `{!forall a b, Decision (R a b)}
    (l : list A) x :
  In x (merge_sort R l) <-> In x l.
Proof.
  rewrite <- !list_elem_of_In. rewrite merge_sort_Permutation. reflexivity.
Qed.

(** [findMany] returns the matching rows themselves, in the order asked
    for, and leaves the world. *)
Lemma installments_findMany_inv where_ R `{!forall a b, Decision (R a b)}
    `{!Total R} w l w' :
  PrismaInstallmentRepository.findMany where_ R w = (Ok l, w') ->
  w' = w
  /\ l = merge_sort R (List.filter where_ (installments w))
  /\ Sorted R l
  /\ forall i, In i l <-> In i (installments w) /\ where_ i = true.
Proof.
  unfold PrismaInstallmentRepository.findMany. intros Hf.
  apply installments_toDomain_inv in Hf as (-> & -> & _).
  split; [reflexivity |]. split; [reflexivity |].
  split; [apply Sorted_merge_sort; assumption |].
  intros i. rewrite in_merge_sort, filter_In. reflexivity.
Qed.

(** X6: the next pending installment. When [findNextPendingInstallment]
    returns an installment, it is a stored pending installment of the
    template and no pending installment of the template has a smaller
    number; it returns [null] exactly when the template has no pending
    installment. It never changes the world. *)
Theorem next_pending_is_least templateId w :
  (forall i w',
     PrismaInstallmentRepository.findNextPendingInstallment templateId w
     = (Ok (Some i), w') ->
     w' = w
     /\ In i (installments w)
     /\ Installment.template_id i = templateId
     /\ Installment.status i = PENDING
     /\ forall r,
          In r (installments w) ->
          Installment.template_id r = templateId ->
          Installment.status r = PENDING ->
          Installment.installment_number i <= Installment.installment_number r)
  /\ (PrismaInstallmentRepository.findNextPendingInstallment templateId w
      = (Ok None, w)
      <-> forall r,
            In r (installments w) ->
            Installment.template_id r = templateId ->
            Installment.status r <> PENDING).
Proof.
  unfold PrismaInstallmentRepository.findNextPendingInstallment.
  set (p := fun r : Installment.t =>
              String.eqb (Installment.template_id r) templateId
              && status_eqb (Installment.status r) PENDING).
  assert (Hp : forall r, p r = true
                         <-> Installment.template_id r = templateId
                             /\ Installment.status r = PENDING).
  { intros r. unfold p. rewrite andb_true_iff, String.eqb_eq, status_eqb_eq.
    reflexivity. }
  pose proof (StronglySorted_merge_sort PrismaInstallmentRepository.byNumber
                (List.filter p (installments w))) as Hs.
  pose proof (in_merge_sort PrismaInstallmentRepository.byNumber
                (List.filter p (installments w))) as Hin.
  destruct (merge_sort PrismaInstallmentRepository.byNumber
              (List.filter p (installments w))) as [| row rest] eqn:Hm.
  - split; [intros i w' H; discriminate |].
    split; [| reflexivity].
    intros _ r Hr Ht Hst.
    assert (Hf : In r []) by (apply Hin, filter_In; split; [exact Hr | apply Hp; auto]).
    destruct Hf.
  - split.
    + intros i w'. unfold bind, PrismaInstallmentMapper.toDomain, lift, ret.
      destruct (Installment.new _ _ _) as [e |] eqn:Hnew; [| discriminate].
      apply installment_new_toProps in Hnew as ->.
      intros H. injection H as <- <-.
      assert (Hrow : In row (installments w) /\ p row = true).
      { apply filter_In, Hin. left. reflexivity. }
      destruct Hrow as [Hrow Hprow]. apply Hp in Hprow as [Ht Hst].
      repeat split; auto.
      intros r Hr Htr Hsr.
      assert (Hr' : In r (row :: rest)).
      { apply Hin, filter_In. split; [exact Hr | apply Hp; auto]. }
      destruct Hr' as [<- | Hr']; [lia |].
      apply StronglySorted_inv in Hs as [_ Hall].
      rewrite Forall_forall in Hall. apply Hall, list_elem_of_In, Hr'.
    + split.
      * unfold bind, PrismaInstallmentMapper.toDomain, lift, ret.
        destruct (Installment.new _ _ _); discriminate.
      * intros Hnone. exfalso.
        assert (Hrow : In row (installments w) /\ p row = true).
        { apply filter_In, Hin. left. reflexivity. }
        destruct Hrow as [Hrow Hprow]. apply Hp in Hprow as [Ht Hst].
        exact (Hnone row Hrow Ht Hst).
Qed.

Lemma count_partition {A} (p : A -> bool) (st : A -> OccurrenceStatus) (l : list A) :
  (length (List.filter (fun r => p r && status_eqb (st r) PENDING) l)
   + length (List.filter (fun r => p r && status_eqb (st r) PAID) l)
   + length (List.filter (fun r => p r && status_eqb (st r) SKIPPED) l))%nat
  = length (List.filter p l).
Proof.
  induction l as [| x l IH]; [reflexivity |]. simpl.
  destruct (p x); simpl; [| exact IH].
  destruct (st x); simpl; lia.
Qed.

(** X7: the status counts of a template add up. The numbers of pending,
    paid and skipped installments that [countByStatus] reports sum to
    what [countByTemplateId] reports, and [countByTemplateId] is the
    length of the list that [findByTemplateId] returns. *)
Theorem installment_counts_add_up templateId w :
  (exists pending paid skipped,
     PrismaInstallmentRepository.countByStatus templateId PENDING w
     = (Ok pending, w)
     /\ PrismaInstallmentRepository.countByStatus templateId PAID w = (Ok paid, w)
     /\ PrismaInstallmentRepository.countByStatus templateId SKIPPED w
        = (Ok skipped, w)
     /\ 0 <= pending /\ 0 <= paid /\ 0 <= skipped
     /\ PrismaInstallmentRepository.countByTemplateId templateId w
        = (Ok (pending + paid + skipped), w))
  /\ (forall l w',
        PrismaInstallmentRepository.findByTemplateId templateId w = (Ok l, w') ->
        PrismaInstallmentRepository.countByTemplateId templateId w
        = (Ok (Z.of_nat (length l)), w)).
Proof.
  split.
  - unfold PrismaInstallmentRepository.countByStatus,
      PrismaInstallmentRepository.countByTemplateId.
    do 3 eexists. do 3 (split; [reflexivity |]).
    do 3 (split; [apply Nat2Z.is_nonneg |]).
    rewrite <- (count_partition
                  (fun r => String.eqb (Installment.template_id r) templateId)
                  Installment.status (installments w)).
    rewrite !Nat2Z.inj_add. reflexivity.
  - intros l w' H. unfold PrismaInstallmentRepository.findByTemplateId in H.
    apply installments_findMany_inv in H as (_ & -> & _); [| typeclasses eauto].
    unfold PrismaInstallmentRepository.countByTemplateId.
    rewrite merge_sort_Permutation. reflexivity.
Qed.

(** X8: the overdue list against the entity's rule. The list that
    [findOverdueInstallments] returns is sorted by due date and holds
    exactly the stored pending installments due more than 30 times 24
    hours before the current instant. It holds every pending installment
    that [isOverdue] declares overdue; an installment of the list that
    [isOverdue] does not declare overdue is one that was due exactly 30
    days ago by the calendar, earlier in the day than the current time. *)
Theorem overdue_list_covers_overdue currentDate w l w' :
  PrismaInstallmentRepository.findOverdueInstallments currentDate w = (Ok l, w') ->
  w' = w
  /\ Sorted PrismaInstallmentRepository.byDueDate l
  /\ (forall i,
        In i l
        <-> In i (installments w)
            /\ Installment.status i = PENDING
            /\ Installment.due_date i
               < nullish currentDate (now w) - 30 * JSDate.msPerDay)
  /\ (forall i,
        In i (installments w) -> Installment.status i = PENDING ->
        Installment.isOverdue (nullish currentDate (now w)) i = true ->
        In i l)
  /\ (forall i,
        In i l ->
        (Installment.isOverdue (nullish currentDate (now w)) i = false
         <-> daysPast (nullish currentDate (now w)) (Installment.due_date i) = 30
             /\ JSDate.TimeWithinDay (Installment.due_date i)
                < JSDate.TimeWithinDay (nullish currentDate (now w)))).
Proof.
  unfold PrismaInstallmentRepository.findOverdueInstallments.
  set (cur := nullish currentDate (now w)).
  assert (Hcur : (match currentDate with Some d => ret d | None => newDate end) w
                 = (Ok cur, w)).
  { unfold cur. destruct currentDate; reflexivity. }
  rewrite (bind_Ok _ _ _ _ _ Hcur). cbv zeta.
  replace (JSDate.getDate cur - 30) with (JSDate.getDate cur + -30) by lia.
  rewrite setDate_getDate.
  intros H. apply installments_findMany_inv in H as (-> & _ & Hs & Hin);
    [| typeclasses eauto].
  assert (Hmem : forall i,
             In i l
             <-> In i (installments w)
                 /\ Installment.status i = PENDING
                 /\ Installment.due_date i < cur - 30 * JSDate.msPerDay).
  { intros i. rewrite Hin, andb_true_iff, status_eqb_eq, Z.ltb_lt.
    replace (cur + -30 * JSDate.msPerDay) with (cur - 30 * JSDate.msPerDay) by lia.
    tauto. }
  assert (Hov : forall i,
             Installment.isOverdue cur i = true
             <-> 30 < daysPast cur (Installment.due_date i)).
  { intros i. unfold Installment.isOverdue. cbv zeta.
    rewrite overdue_spec, overdue_days. reflexivity. }
  assert (Hdm : forall t, t = JSDate.Day t * JSDate.msPerDay + JSDate.TimeWithinDay t
                          /\ 0 <= JSDate.TimeWithinDay t < JSDate.msPerDay).
  { intros t. unfold JSDate.Day, JSDate.TimeWithinDay. split.
    - pose proof (Z.div_mod t JSDate.msPerDay ltac:(discriminate)). lia.
    - apply Z.mod_pos_bound. reflexivity. }
  split; [reflexivity |]. split; [exact Hs |]. split; [exact Hmem |]. split.
  - intros i Hi Hst Ho. apply Hmem. repeat split; auto.
    apply Hov in Ho. unfold daysPast in Ho.
    destruct (Hdm cur) as [Hc Hcb]. destruct (Hdm (Installment.due_date i)) as [Hd Hdb].
    unfold JSDate.msPerDay in *. lia.
  - intros i Hi. apply Hmem in Hi as (_ & _ & Hlt).
    rewrite <- not_true_iff_false, Hov. unfold daysPast.
    destruct (Hdm cur) as [Hc Hcb]. destruct (Hdm (Installment.due_date i)) as [Hd Hdb].
    unfold JSDate.msPerDay in *. lia.
Qed.

Lemma overdue_list_covers_overdue_witness :
  scenarioOverdue = scenarioOverdue
  /\ Sorted PrismaInstallmentRepository.byDueDate
       [installmentDue (JSDate.ymd 2024 1 1) PENDING None]
  /\ (forall i,
        In i [installmentDue (JSDate.ymd 2024 1 1) PENDING None]
        <-> In i (installments scenarioOverdue)
            /\ Installment.status i = PENDING
            /\ Installment.due_date i
               < nullish None (now scenarioOverdue) - 30 * JSDate.msPerDay)
  /\ (forall i,
        In i (installments scenarioOverdue) ->
        Installment.status i = PENDING ->
        Installment.isOverdue (nullish None (now scenarioOverdue)) i = true ->
        In i [installmentDue (JSDate.ymd 2024 1 1) PENDING None])
  /\ (forall i,
        In i [installmentDue (JSDate.ymd 2024 1 1) PENDING None] ->
        (Installment.isOverdue (nullish None (now scenarioOverdue)) i = false
         <-> daysPast (nullish None (now scenarioOverdue))
               (Installment.due_date i) = 30
             /\ JSDate.TimeWithinDay (Installment.due_date i)
                < JSDate.TimeWithinDay (nullish None (now scenarioOverdue)))).
Proof.
  apply (overdue_list_covers_overdue None scenarioOverdue).
  vm_compute. reflexivity.
Defined.

(** ** Skipping and paying schedule entries *)

Lemma updateWhere_absent {A} (p : A -> bool) (f : A -> A) rows :
  (forall r, In r rows -> p r = false) ->
  updateWhere p f rows = Throw "Record to update not found.".
Proof.
  intros H. unfold updateWhere.
  destruct (existsb p rows) eqn:He; [| reflexivity].
  apply existsb_exists in He as (r & Hr & Hp). rewrite (H r Hr) in Hp. discriminate.
Qed.

Lemma updateWhere_Ok {A} (p : A -> bool) (f : A -> A) rows rows' :
  updateWhere p f rows = Ok rows' ->
  rows' = map (fun r => if p r then f r else r) rows
  /\ exists r, In r rows /\ p r = true.
Proof.
  unfold updateWhere. destruct (existsb p rows) eqn:He; [| discriminate].
  intros H. injection H as <-. split; [reflexivity |].
  apply existsb_exists in He. exact He.
Qed.

Lemma updateWhere_present {A} (p : A -> bool) (f : A -> A) rows r :
  In r rows -> p r = true ->
  updateWhere p f rows = Ok (map (fun r => if p r then f r else r) rows).
Proof.
  intros Hr Hp. unfold updateWhere.
  replace (existsb p rows) with true; [reflexivity |].
  symmetry. apply existsb_exists. exists r. split; assumption.
Qed.

Lemma installment_findById_readable id w e w' :
  PrismaInstallmentRepository.findById id w = (Ok (Some e), w') ->
  readableInstallment e.
Proof.
  unfold PrismaInstallmentRepository.findById.
  destruct (find _ (installments w)) as [row |]; [| discriminate].
  unfold bind, PrismaInstallmentMapper.toDomain, lift, ret.
  destruct (Installment.new _ _ _) as [i |] eqn:Hnew; [| discriminate].
  pose proof (installment_toDomain_Ok _ _ _ _ Hnew) as Hr.
  apply installment_new_toProps in Hnew as ->.
  intros H. injection H as <- _. exact Hr.
Qed.

Lemma installment_findById_hit id w row :
  find (fun r => String.eqb (Installment.id r) id) (installments w) = Some row ->
  readableInstallment row ->
  PrismaInstallmentRepository.findById id w = (Ok (Some row), w).
Proof.
  intros Hf Hr. unfold PrismaInstallmentRepository.findById. rewrite Hf.
  unfold bind. rewrite installment_toDomain_one by exact Hr. reflexivity.
Qed.

Lemma installment_findById_miss id w :
  (forall r, In r (installments w) -> Installment.id r <> id) ->
  PrismaInstallmentRepository.findById id w = (Ok None, w).
Proof.
  intros H. unfold PrismaInstallmentRepository.findById.
  destruct (find _ (installments w)) as [row |] eqn:Hf; [| reflexivity].
  apply find_some in Hf as [Hin Heq]. apply String.eqb_eq in Heq.
  destruct (H row Hin Heq).
Qed.

(** A stored row is read back as it is, or the read throws. *)
Lemma installment_findById_cases id w row :
  find (fun r => String.eqb (Installment.id r) id) (installments w) = Some row ->
  PrismaInstallmentRepository.findById id w = (Ok (Some row), w)
  \/ exists msg, PrismaInstallmentRepository.findById id w = (Throw msg, w).
Proof.
  intros Hf. unfold PrismaInstallmentRepository.findById. rewrite Hf.
  unfold bind, PrismaInstallmentMapper.toDomain, lift, ret.
  destruct (Installment.new _ _ _) as [i | msg] eqn:Hnew.
  - apply installment_new_toProps in Hnew as ->. left. reflexivity.
  - right. exists msg. reflexivity.
Qed.

Lemma skipInstallment_Ok id w msg w' :
  InstallmentController.skipInstallment id w = (Ok msg, w') ->
  msg = "Installment skipped successfully"%string
  /\ w' = set_installments
            (map (fun r => if String.eqb (Installment.id r) id
                           then Installment.set_status SKIPPED
                                  (Installment.transaction_id r) r
                           else r) (installments w)) w
  /\ exists r, In r (installments w) /\ Installment.id r = id.
Proof.
  unfold InstallmentController.skipInstallment,
    PrismaInstallmentRepository.markAsSkipped, bind.
  destruct (updateWhere _ _ _) as [rows |] eqn:Hu; [| discriminate].
  apply updateWhere_Ok in Hu as (-> & r & Hr & Hp).
  unfold ret. intros H. injection H as <- <-.
  repeat split. exists r. split; [exact Hr | apply String.eqb_eq; exact Hp].
Qed.

(** X9: what the skip endpoint changes. For an identifier that no stored
    installment has it throws and changes nothing. When it succeeds it
    sets the status of the installments with that identifier to SKIPPED
    and changes no other field and no other row, leaves the ledger and the
    templates alone, and calling it again succeeds without any further
    change. *)
Theorem skip_changes_one_status installmentId w :
  ((forall r, In r (installments w) -> Installment.id r <> installmentId) ->
   InstallmentController.skipInstallment installmentId w
   = (Throw "Record to update not found.", w))
  /\ (forall msg w',
        InstallmentController.skipInstallment installmentId w = (Ok msg, w') ->
        (exists r, In r (installments w) /\ Installment.id r = installmentId)
        /\ length (installments w') = length (installments w)
        /\ (forall k r,
              installments w !! k = Some r ->
              installments w' !! k
              = Some (if String.eqb (Installment.id r) installmentId
                      then Installment.set_status SKIPPED
                             (Installment.transaction_id r) r
                      else r))
        /\ transactions w' = transactions w
        /\ installmentTemplates w' = installmentTemplates w
        /\ InstallmentController.skipInstallment installmentId w'
           = (Ok msg, w')).
Proof.
  split.
  - intros H. unfold InstallmentController.skipInstallment,
      PrismaInstallmentRepository.markAsSkipped, bind.
    rewrite updateWhere_absent; [reflexivity |].
    intros r Hr. apply String.eqb_neq. apply H. exact Hr.
  - intros msg w' H. apply skipInstallment_Ok in H as (-> & -> & r & Hr & Hid).
    split; [exists r; split; assumption |].
    split; [cbn; apply length_map |].
    split; [intros k x Hk; cbn; rewrite list_lookup_fmap, Hk; reflexivity |].
    split; [reflexivity |]. split; [reflexivity |].
    unfold InstallmentController.skipInstallment,
      PrismaInstallmentRepository.markAsSkipped, bind. cbn [installments set_installments].
    set (g := fun r0 : Installment.t =>
                if String.eqb (Installment.id r0) installmentId
                then Installment.set_status SKIPPED (Installment.transaction_id r0) r0
                else r0).
    erewrite (updateWhere_present _ _ _ (g r)).
    + unfold ret. f_equal. unfold set_installments. cbn. f_equal.
      rewrite map_map. apply map_ext. intros x. unfold g.
      destruct (String.eqb (Installment.id x) installmentId) eqn:Hx; cbn.
      * rewrite Hx. reflexivity.
      * rewrite Hx. reflexivity.
    + apply in_map. exact Hr.
    + unfold g. rewrite Hid, String.eqb_refl. cbn. rewrite Hid.
      apply String.eqb_refl.
Qed.

Lemma installmentTemplate_findById_miss id w :
  (forall t,
     In t (installmentTemplates w) -> InstallmentTemplate.id t = id ->
     InstallmentTemplate.couple_id t <> tenant w) ->
  PrismaInstallmentTemplateRepository.findById id w = (Ok None, w).
Proof.
  intros H. unfold PrismaInstallmentTemplateRepository.findById.
  destruct (find _ (installmentTemplates w)) as [row |] eqn:Hf; [| reflexivity].
  apply find_some in Hf as [Hin Heq]. apply andb_true_iff in Heq as [Hid Hc].
  apply String.eqb_eq in Hid, Hc. destruct (H row Hin Hid Hc).
Qed.

Lemma pay_installment_template_missing input w e :
  PrismaInstallmentRepository.findById
    (PayInstallmentUseCase.installment_id input) w = (Ok (Some e), w) ->
  Installment.canBePaid (now w) e = true ->
  (forall t,
     In t (installmentTemplates w) ->
     InstallmentTemplate.id t = Installment.template_id e ->
     InstallmentTemplate.couple_id t <> tenant w) ->
  PayInstallmentUseCase.execute input w = (Throw "Template not found", w).
Proof.
  intros Hfind Hcan Htpl. unfold PayInstallmentUseCase.execute.
  erewrite bind_Ok by exact Hfind. cbv beta iota.
  erewrite (bind_Ok newDate) by reflexivity.
  rewrite Hcan. cbn [negb].
  erewrite bind_Ok by (apply installmentTemplate_findById_miss; exact Htpl).
  reflexivity.
Qed.

(** X10: paying what cannot be found. [PayInstallmentUseCase] throws
    [Installment not found] when no stored installment has the identifier,
    and [Template not found] when the installment is payable but the
    couple of the request has no template with the installment's
    template identifier; in both cases nothing is written. *)
Theorem pay_installment_not_found input w :
  ((forall r,
      In r (installments w) ->
      Installment.id r <> PayInstallmentUseCase.installment_id input) ->
   PayInstallmentUseCase.execute input w = (Throw "Installment not found", w))
  /\ (forall e,
        PrismaInstallmentRepository.findById
          (PayInstallmentUseCase.installment_id input) w = (Ok (Some e), w) ->
        Installment.canBePaid (now w) e = true ->
        (forall t,
           In t (installmentTemplates w) ->
           InstallmentTemplate.id t = Installment.template_id e ->
           InstallmentTemplate.couple_id t <> tenant w) ->
        PayInstallmentUseCase.execute input w = (Throw "Template not found", w)).
Proof.
  split.
  - intros H. unfold PayInstallmentUseCase.execute.
    erewrite bind_Ok by (apply installment_findById_miss; exact H).
    reflexivity.
  - intros e. apply pay_installment_template_missing.
Qed.

(** X11: a payable installment is paid. When the installment is found
    and payable, its template is found for the couple of the request and
    the identifier drawn for the transaction is not empty,
    [PayInstallmentUseCase] succeeds: it appends exactly one transaction
    to the ledger, with the drawn identifier, the installment's amount and
    the template's account, and marks the installment as paid by it. *)
Theorem pay_installment_succeeds input w e tpl :
  PrismaInstallmentRepository.findById
    (PayInstallmentUseCase.installment_id input) w = (Ok (Some e), w) ->
  Installment.canBePaid (now w) e = true ->
  PrismaInstallmentTemplateRepository.findById (Installment.template_id e) w
  = (Ok (Some tpl), w) ->
  uuids w (rng w) <> ""%string ->
  exists out w',
    PayInstallmentUseCase.execute input w = (Ok out, w')
    /\ transactions w' = transactions w ++ [PayInstallmentUseCase.transaction out]
    /\ Transaction.id (PayInstallmentUseCase.transaction out) = uuids w (rng w)
    /\ Transaction.amount (PayInstallmentUseCase.transaction out)
       = Installment.amount e
    /\ Transaction.p_account_id
         (Transaction.props (PayInstallmentUseCase.transaction out))
       = InstallmentTemplate.account_id tpl
    /\ PayInstallmentUseCase.installment out
       = Installment.set_status PAID (Some (uuids w (rng w))) e
    /\ PrismaInstallmentRepository.findById
         (PayInstallmentUseCase.installment_id input) w'
       = (if Zod.is_uuid (uuids w (rng w))
          then Ok (Some (PayInstallmentUseCase.installment out))
          else Throw "Invalid uuid", w').
Proof.
  intros Hfind Hcan Htpl Hid.
  pose proof (installment_findById_readable _ _ _ _ Hfind) as Hre.
  apply installment_findById_inv in Hfind as Hrow. destruct Hrow as [_ Hrow].
  pose proof (eqb_find_id Installment.id _ _ _ Hrow) as Heid.
  apply find_some in Hrow as Hin. destruct Hin as [Hin _].
  assert (Hpend : Installment.isPending e = true).
  { unfold Installment.canBePaid in Hcan. apply andb_true_iff in Hcan. tauto. }
  unfold PayInstallmentUseCase.execute.
  erewrite bind_Ok by exact Hfind. cbv beta iota.
  erewrite (bind_Ok newDate) by reflexivity.
  rewrite Hcan. cbn [negb].
  erewrite bind_Ok by exact Htpl. cbv beta iota zeta.
  unfold PayInstallmentUseCase.createTransactionFromInstallment,
    TransactionRepository.create.
  unfold bind at 1. unfold bind at 1. unfold randomUUID at 1. cbv beta iota.
  unfold bind at 1. unfold lift at 1. unfold Installment.markAsPaid.
  rewrite Hpend. cbn [negb Transaction.id].
  destruct (String.eqb_spec (uuids w (rng w)) "") as [Hempty | _];
    [destruct (Hid Hempty) |].
  unfold bind at 1. unfold PrismaInstallmentRepository.markAsPaid.
  cbn [installments set_transactions Installment.id Installment.set_status].
  erewrite (updateWhere_present _ _ _ e);
    [| exact Hin | rewrite Heid; apply String.eqb_refl].
  unfold ret. do 2 eexists. split; [reflexivity |].
  cbn. repeat split.
  unfold PrismaInstallmentRepository.findById. cbn.
  assert (Hf : find (fun r => String.eqb (Installment.id r)
                                (PayInstallmentUseCase.installment_id input))
                 (map (fun r => if String.eqb (Installment.id r) (Installment.id e)
                                then Installment.set_status PAID
                                       (Some (uuids w (rng w))) r
                                else r) (installments w))
               = Some (Installment.set_status PAID (Some (uuids w (rng w))) e)).
  { rewrite Heid. clear -Hrow. induction (installments w) as [| x l IH];
      [discriminate |]. simpl in *.
    destruct (String.eqb (Installment.id x)
                (PayInstallmentUseCase.installment_id input)) eqn:Hx.
    - injection Hrow as ->. cbn. rewrite Hx. reflexivity.
    - rewrite Hx. apply IH. exact Hrow. }
  rewrite Hf. unfold bind, PrismaInstallmentMapper.toDomain, lift, ret.
  destruct Hre as (H1 & H2 & H3 & H4 & H5).
  unfold Installment.new, Installment.validate. cbn.
  rewrite H1, H2, H4. apply Z.ltb_lt in H3. rewrite H3. cbn.
  destruct (Zod.is_uuid (uuids w (rng w))); reflexivity.
Qed.

Lemma pay_installment_succeeds_witness :
  exists out w',
    PayInstallmentUseCase.execute (payD None) scenarioD = (Ok out, w')
    /\ transactions w'
       = transactions scenarioD ++ [PayInstallmentUseCase.transaction out]
    /\ Transaction.id (PayInstallmentUseCase.transaction out)
       = uuids scenarioD (rng scenarioD)
    /\ Transaction.amount (PayInstallmentUseCase.transaction out)
       = Installment.amount (installmentDue (JSDate.ymd 2024 2 1) PENDING None)
    /\ Transaction.p_account_id
         (Transaction.props (PayInstallmentUseCase.transaction out))
       = InstallmentTemplate.account_id tvTemplate
    /\ PayInstallmentUseCase.installment out
       = Installment.set_status PAID (Some (uuids scenarioD (rng scenarioD)))
           (installmentDue (JSDate.ymd 2024 2 1) PENDING None)
    /\ PrismaInstallmentRepository.findById
         (PayInstallmentUseCase.installment_id (payD None)) w'
       = (if Zod.is_uuid (uuids scenarioD (rng scenarioD))
          then Ok (Some (PayInstallmentUseCase.installment out))
          else Throw "Invalid uuid", w').
Proof.
  apply (pay_installment_succeeds (payD None) scenarioD
           (installmentDue (JSDate.ymd 2024 2 1) PENDING None) tvTemplate).
  - vm_compute. reflexivity.
  - vm_compute. reflexivity.
  - vm_compute. reflexivity.
  - vm_compute. discriminate.
Defined.

Lemma pay_installment_read_fails input w msg :
  PrismaInstallmentRepository.findById
    (PayInstallmentUseCase.installment_id input) w = (Throw msg, w) ->
  PayInstallmentUseCase.execute input w = (Throw msg, w).
Proof.
  intros H. unfold PayInstallmentUseCase.execute. unfold bind at 1.
  rewrite H. reflexivity.
Qed.

Lemma set_status_readable s tx e :
  readableInstallment e -> Zod.opt_uuid tx = true ->
  readableInstallment (Installment.set_status s tx e).
Proof.
  intros (H1 & H2 & H3 & H4 & H5) Htx. repeat split; assumption.
Qed.

(** Paying an entry whose stored row is not pending throws and writes
    nothing. *)
Lemma pay_installment_settled_row input w row :
  find (fun r => String.eqb (Installment.id r)
                   (PayInstallmentUseCase.installment_id input))
    (installments w) = Some row ->
  Installment.status row <> PENDING ->
  (exists msg, PayInstallmentUseCase.execute input w = (Throw msg, w))
  /\ (readableInstallment row ->
      PayInstallmentUseCase.execute input w
      = (Throw (match Installment.status row with
                | PAID => "Installment is already paid"
                | _ => "Cannot pay skipped installment"
                end), w)).
Proof.
  intros Hf Hst.
  assert (Hcan : Installment.canBePaid (now w) row = false).
  { unfold Installment.canBePaid, Installment.isPending.
    destruct (Installment.status row); [congruence | reflexivity | reflexivity]. }
  assert (Hhit : PrismaInstallmentRepository.findById
                   (PayInstallmentUseCase.installment_id input) w
                 = (Ok (Some row), w) ->
                 PayInstallmentUseCase.execute input w
                 = (Throw (match Installment.status row with
                           | PAID => "Installment is already paid"
                           | _ => "Cannot pay skipped installment"
                           end), w)).
  { intros Hfind.
    destruct (pay_installment_refused w input row Hfind Hcan)
      as [[Hs H] | [[Hs H] | [Hs _]]]; [| | congruence];
      rewrite H, Hs; reflexivity. }
  split.
  - destruct (installment_findById_cases _ _ _ Hf) as [Hfind | [msg Hfind]].
    + eexists. apply Hhit. exact Hfind.
    + exists msg. apply pay_installment_read_fails. exact Hfind.
  - intros Hr. apply Hhit. apply installment_findById_hit; assumption.
Qed.

(** X12: an installment is paid once. After [PayInstallmentUseCase] has
    succeeded, running it again for the same installment throws and writes
    nothing, so no second transaction is created; when the transaction's
    identifier is a UUID the error is [Installment is already paid]. *)
Theorem installment_paid_once input w out w' :
  PayInstallmentUseCase.execute input w = (Ok out, w') ->
  (exists msg, PayInstallmentUseCase.execute input w' = (Throw msg, w'))
  /\ (Zod.is_uuid (Transaction.id (PayInstallmentUseCase.transaction out)) = true ->
      PayInstallmentUseCase.execute input w'
      = (Throw "Installment is already paid", w')).
Proof.
  intros H.
  apply pay_installment_settles in H
    as (e & Hfind & _ & _ & _ & Hout & _ & Hrow).
  pose proof (installment_findById_readable _ _ _ _ Hfind) as Hre.
  assert (Hst : Installment.status (PayInstallmentUseCase.installment out) <> PENDING)
    by (rewrite Hout; discriminate).
  destruct (pay_installment_settled_row input w' _ Hrow Hst) as [Hany Hmsg].
  split; [exact Hany |].
  intros Hu. rewrite Hmsg.
  - rewrite Hout. reflexivity.
  - rewrite Hout. apply set_status_readable; [exact Hre | exact Hu].
Qed.

Lemma installment_paid_once_witness :
  (exists msg,
     PayInstallmentUseCase.execute (payD None) scenarioDPaid
     = (Throw msg, scenarioDPaid))
  /\ (Zod.is_uuid
        (Transaction.id
           (PayInstallmentUseCase.transaction
              {| PayInstallmentUseCase.installment :=
                   installmentDue (JSDate.ymd 2024 2 1) PAID
                     (Some (exampleUuid 0));
                 PayInstallmentUseCase.transaction := receiptD |})) = true ->
      PayInstallmentUseCase.execute (payD None) scenarioDPaid
      = (Throw "Installment is already paid", scenarioDPaid)).
Proof.
  apply (installment_paid_once (payD None) scenarioD).
  vm_compute. reflexivity.
Defined.

Lemma find_map_update {A} (p : A -> bool) (g : A -> A) (l : list A) :
  (forall r, p (g r) = p r) ->
  find p (map (fun r => if p r then g r else r) l) = option_map g (find p l).
Proof.
  intros Hp. induction l as [| x l IH]; [reflexivity |]. simpl.
  destruct (p x) eqn:Hx.
  - rewrite Hp, Hx. reflexivity.
  - rewrite Hx. exact IH.
Qed.

(** The row that a lookup finds after the skip endpoint has run. *)
Lemma skipInstallment_row id w msg w' :
  InstallmentController.skipInstallment id w = (Ok msg, w') ->
  exists r,
    find (fun x => String.eqb (Installment.id x) id) (installments w) = Some r
    /\ find (fun x => String.eqb (Installment.id x) id) (installments w')
       = Some (Installment.set_status SKIPPED (Installment.transaction_id r) r).
Proof.
  intros H. apply skipInstallment_Ok in H as (_ & -> & r & Hr & Hid).
  destruct (find (fun x => String.eqb (Installment.id x) id) (installments w))
    as [r0 |] eqn:Hf.
  - exists r0. split; [reflexivity |]. cbn [installments set_installments].
    rewrite (find_map_update (fun x => String.eqb (Installment.id x) id)
               (fun x => Installment.set_status SKIPPED
                           (Installment.transaction_id x) x))
      by reflexivity.
    rewrite Hf. reflexivity.
  - exfalso. apply (find_none _ _ Hf) in Hr. rewrite Hid, String.eqb_refl in Hr.
    discriminate.
Qed.

(** X13: a skipped installment is not paid. After the skip endpoint has
    succeeded for an installment, [PayInstallmentUseCase] throws for it
    and writes nothing, whatever the installment's status was before the
    skip; when the installment could be read before the skip, the error is
    [Cannot pay skipped installment]. *)
Theorem skipped_installment_is_not_paid input w msg w' :
  InstallmentController.skipInstallment
    (PayInstallmentUseCase.installment_id input) w = (Ok msg, w') ->
  (exists m, PayInstallmentUseCase.execute input w' = (Throw m, w'))
  /\ (forall e,
        PrismaInstallmentRepository.findById
          (PayInstallmentUseCase.installment_id input) w = (Ok (Some e), w) ->
        PayInstallmentUseCase.execute input w'
        = (Throw "Cannot pay skipped installment", w')).
Proof.
  intros H. apply skipInstallment_row in H as (r & Hf & Hf').
  assert (Hst : Installment.status
                  (Installment.set_status SKIPPED (Installment.transaction_id r) r)
                <> PENDING) by discriminate.
  destruct (pay_installment_settled_row input w' _ Hf' Hst) as [Hany Hmsg].
  split; [exact Hany |].
  intros e He.
  pose proof (installment_findById_readable _ _ _ _ He) as Hre.
  apply installment_findById_inv in He as [_ He]. rewrite Hf in He.
  injection He as ->.
  rewrite Hmsg; [reflexivity |].
  apply set_status_readable; [exact Hre |].
  destruct Hre as (_ & _ & _ & _ & Htx). exact Htx.
Qed.

Lemma skipped_installment_is_not_paid_witness :
  (exists m,
     PayInstallmentUseCase.execute (payD None)
       (set_installments [installmentDue (JSDate.ymd 2024 2 1) SKIPPED None]
          scenarioD)
     = (Throw m,
        set_installments [installmentDue (JSDate.ymd 2024 2 1) SKIPPED None]
          scenarioD))
  /\ (forall e,
        PrismaInstallmentRepository.findById
          (PayInstallmentUseCase.installment_id (payD None)) scenarioD
        = (Ok (Some e), scenarioD) ->
        PayInstallmentUseCase.execute (payD None)
          (set_installments [installmentDue (JSDate.ymd 2024 2 1) SKIPPED None]
             scenarioD)
        = (Throw "Cannot pay skipped installment",
           set_installments [installmentDue (JSDate.ymd 2024 2 1) SKIPPED None]
             scenarioD)).
Proof.
  apply (skipped_installment_is_not_paid (payD None) scenarioD
           "Installment skipped successfully").
  vm_compute. reflexivity.
Defined.

(** X14: the skip endpoint does not look at the couple of the request.
    For a payable installment whose template belongs to another couple,
    [PayInstallmentUseCase] throws [Template not found] and writes
    nothing, while the skip endpoint succeeds and the installment is
    stored as skipped. *)
Theorem skip_ignores_the_couple input w e :
  PrismaInstallmentRepository.findById
    (PayInstallmentUseCase.installment_id input) w = (Ok (Some e), w) ->
  Installment.canBePaid (now w) e = true ->
  (forall t,
     In t (installmentTemplates w) ->
     InstallmentTemplate.id t = Installment.template_id e ->
     InstallmentTemplate.couple_id t <> tenant w) ->
  PayInstallmentUseCase.execute input w = (Throw "Template not found", w)
  /\ exists w',
       InstallmentController.skipInstallment
         (PayInstallmentUseCase.installment_id input) w
       = (Ok "Installment skipped successfully"%string, w')
       /\ PrismaInstallmentRepository.findById
            (PayInstallmentUseCase.installment_id input) w'
          = (Ok (Some (Installment.set_status SKIPPED
                         (Installment.transaction_id e) e)), w').
Proof.
  intros Hfind Hcan Htpl.
  split; [apply pay_installment_template_missing with (e := e); assumption |].
  pose proof (installment_findById_readable _ _ _ _ Hfind) as Hre.
  apply installment_findById_inv in Hfind as [_ Hrow].
  pose proof (eqb_find_id Installment.id _ _ _ Hrow) as Hid.
  apply find_some in Hrow as Hin. destruct Hin as [Hin _].
  destruct (InstallmentController.skipInstallment
              (PayInstallmentUseCase.installment_id input) w)
    as [[m | m] w1] eqn:Hskip.
  - pose proof (skipInstallment_row _ _ _ _ Hskip) as (r & Hf & Hf').
    rewrite Hrow in Hf. injection Hf as <-.
    apply skipInstallment_Ok in Hskip as Hm. destruct Hm as (-> & _ & _).
    exists w1. split; [reflexivity |].
    apply installment_findById_hit; [exact Hf' |].
    apply set_status_readable; [exact Hre |].
    destruct Hre as (_ & _ & _ & _ & Htx). exact Htx.
  - exfalso.
    unfold InstallmentController.skipInstallment,
      PrismaInstallmentRepository.markAsSkipped, bind in Hskip.
    erewrite (updateWhere_present _ _ _ e) in Hskip;
      [discriminate Hskip | exact Hin | rewrite Hid; apply String.eqb_refl].
Qed.

Lemma skip_ignores_the_couple_witness :
  PayInstallmentUseCase.execute (payD None) (set_tenant payerId scenarioD)
  = (Throw "Template not found", set_tenant payerId scenarioD)
  /\ exists w',
       InstallmentController.skipInstallment
         (PayInstallmentUseCase.installment_id (payD None))
         (set_tenant payerId scenarioD)
       = (Ok "Installment skipped successfully"%string, w')
       /\ PrismaInstallmentRepository.findById
            (PayInstallmentUseCase.installment_id (payD None)) w'
          = (Ok (Some (Installment.set_status SKIPPED
                         (Installment.transaction_id
                            (installmentDue (JSDate.ymd 2024 2 1) PENDING None))
                         (installmentDue (JSDate.ymd 2024 2 1) PENDING None))),
             w').
Proof.
  apply (skip_ignores_the_couple (payD None) (set_tenant payerId scenarioD)
           (installmentDue (JSDate.ymd 2024 2 1) PENDING None)).
  - vm_compute. reflexivity.
  - vm_compute. reflexivity.
  - intros t [<- | []] _. vm_compute. discriminate.
Defined.

(** ** Installment templates in the store *)

Lemma template_toDomain_readable row w :
  readableTemplate row ->
  PrismaInstallmentTemplateMapper.toDomain row w = (Ok row, w).
Proof.
  intros (Hid & Hc & Hd & Ha & [Hn1 Hn2] & Hp & Hacc & c & Hcat & Hcu).
  destruct row as [id cid d ta ti p a cat ce fs v f act ca ua].
  unfold PrismaInstallmentTemplateMapper.toDomain, lift,
    InstallmentTemplate.new, InstallmentTemplate.validate. cbn in *.
  subst cat. destruct d as [d |]; [| congruence].
  rewrite Hid, Hc, Ha, Hp, Hacc. cbn. rewrite Hcu.
  destruct (Z.ltb_spec ti 2); [lia |]. destruct (Z.ltb_spec 120 ti); [lia |].
  reflexivity.
Qed.

Lemma template_toDomain_Ok row w tpl w' :
  PrismaInstallmentTemplateMapper.toDomain row w = (Ok tpl, w') ->
  tpl = row /\ w' = w /\ readableTemplate row.
Proof.
  destruct row as [id cid d ta ti p a cat ce fs v f act ca ua].
  unfold PrismaInstallmentTemplateMapper.toDomain, lift,
    InstallmentTemplate.new, InstallmentTemplate.validate, readableTemplate.
  cbn.
  destruct (Zod.is_uuid id); [| discriminate].
  destruct (Zod.is_uuid cid); [| discriminate].
  destruct d as [d |]; [| discriminate].
  destruct (0 <? ta)%float; [| discriminate].
  destruct (Z.ltb_spec ti 2); [discriminate |].
  destruct (Z.ltb_spec 120 ti); [discriminate |].
  destruct (Zod.is_uuid p); [| discriminate].
  destruct (Zod.is_uuid a); [| discriminate].
  destruct cat as [c |]; [| discriminate]. cbn.
  destruct (Zod.is_uuid c) eqn:Hc; [| discriminate]. cbn.
  intros Heq. injection Heq as <- <-.
  repeat split; try reflexivity; try lia; try discriminate.
  exists c. split; [reflexivity | exact Hc].
Qed.

Lemma set_is_active_readable b t :
  readableTemplate t -> readableTemplate (InstallmentTemplate.set_is_active b t).
Proof. intros H. exact H. Qed.

Lemma installmentTemplate_findById_inv id w tpl w' :
  PrismaInstallmentTemplateRepository.findById id w = (Ok (Some tpl), w') ->
  w' = w
  /\ find (PrismaInstallmentTemplateRepository.ownRow id w) (installmentTemplates w)
     = Some tpl
  /\ readableTemplate tpl.
Proof.
  unfold PrismaInstallmentTemplateRepository.findById.
  change (fun r => String.eqb (InstallmentTemplate.id r) id
                   && String.eqb (InstallmentTemplate.couple_id r) (tenant w))
    with (PrismaInstallmentTemplateRepository.ownRow id w).
  destruct (find _ (installmentTemplates w)) as [row |]; [| discriminate].
  unfold bind.
  destruct (PrismaInstallmentTemplateMapper.toDomain row w) as [[t | m] w1] eqn:Ht;
    [| discriminate].
  apply template_toDomain_Ok in Ht as (-> & -> & Hr).
  unfold ret. intros H. injection H as <- <-.
  split; [reflexivity |]. split; [reflexivity |]. exact Hr.
Qed.

Lemma installmentTemplate_findById_hit id w row :
  find (PrismaInstallmentTemplateRepository.ownRow id w) (installmentTemplates w)
  = Some row ->
  readableTemplate row ->
  PrismaInstallmentTemplateRepository.findById id w = (Ok (Some row), w).
Proof.
  intros Hf Hr. unfold PrismaInstallmentTemplateRepository.findById.
  change (fun r => String.eqb (InstallmentTemplate.id r) id
                   && String.eqb (InstallmentTemplate.couple_id r) (tenant w))
    with (PrismaInstallmentTemplateRepository.ownRow id w).
  rewrite Hf. unfold bind. rewrite template_toDomain_readable by exact Hr.
  reflexivity.
Qed.

(** X15: deactivating a template through its endpoint. For a template
    that the couple of the request can read, the endpoint succeeds and
    stores the template as inactive; calling it again succeeds and
    changes nothing, where the entity's [deactivate] would throw; and a
    payable installment of the deactivated template is still paid by
    [PayInstallmentUseCase]. *)
Theorem deactivated_template_still_pays input w e tpl :
  PrismaInstallmentRepository.findById
    (PayInstallmentUseCase.installment_id input) w = (Ok (Some e), w) ->
  Installment.canBePaid (now w) e = true ->
  PrismaInstallmentTemplateRepository.findById (Installment.template_id e) w
  = (Ok (Some tpl), w) ->
  uuids w (rng w) <> ""%string ->
  exists w1,
    InstallmentController.deactivateTemplate (Installment.template_id e) w
    = (Ok "Template deactivated successfully"%string, w1)
    /\ PrismaInstallmentTemplateRepository.findById (Installment.template_id e) w1
       = (Ok (Some (InstallmentTemplate.set_is_active false tpl)), w1)
    /\ InstallmentTemplate.deactivate (InstallmentTemplate.set_is_active false tpl)
       = Throw "Template is already inactive"
    /\ InstallmentController.deactivateTemplate (Installment.template_id e) w1
       = (Ok "Template deactivated successfully"%string, w1)
    /\ exists out w2,
         PayInstallmentUseCase.execute input w1 = (Ok out, w2)
         /\ transactions w2
            = transactions w ++ [PayInstallmentUseCase.transaction out]
         /\ PayInstallmentUseCase.installment out
            = Installment.set_status PAID (Some (uuids w (rng w))) e.
Proof.
  intros Hfind Hcan Htpl Hid.
  pose proof (installment_findById_readable _ _ _ _ Hfind) as Hre.
  apply installment_findById_inv in Hfind as Hrow. destruct Hrow as [_ Hrow].
  apply installmentTemplate_findById_inv in Htpl as (_ & Hf & Hrt).
  apply find_some in Hf as Hin. destruct Hin as [Hin Hown].
  set (tid := Installment.template_id e) in *.
  set (g := fun r : InstallmentTemplate.t =>
              if PrismaInstallmentTemplateRepository.ownRow tid w r
              then InstallmentTemplate.set_is_active false r else r).
  set (w1 := set_installmentTemplates (map g (installmentTemplates w)) w).
  assert (Hd1 : InstallmentController.deactivateTemplate tid w
                = (Ok "Template deactivated successfully"%string, w1)).
  { unfold InstallmentController.deactivateTemplate,
      PrismaInstallmentTemplateRepository.deactivate, bind.
    erewrite (updateWhere_present _ _ _ tpl); [reflexivity | exact Hin | exact Hown]. }
  assert (Hf1 : find (PrismaInstallmentTemplateRepository.ownRow tid w1)
                  (installmentTemplates w1)
                = Some (InstallmentTemplate.set_is_active false tpl)).
  { change (PrismaInstallmentTemplateRepository.ownRow tid w1)
      with (PrismaInstallmentTemplateRepository.ownRow tid w).
    change (installmentTemplates w1) with (map g (installmentTemplates w)).
    unfold g.
    rewrite (find_map_update (PrismaInstallmentTemplateRepository.ownRow tid w)
               (InstallmentTemplate.set_is_active false)) by reflexivity.
    rewrite Hf. reflexivity. }
  exists w1. split; [exact Hd1 |].
  split; [apply installmentTemplate_findById_hit;
          [exact Hf1 | apply set_is_active_readable; exact Hrt] |].
  split; [reflexivity |].
  split.
  - unfold InstallmentController.deactivateTemplate,
      PrismaInstallmentTemplateRepository.deactivate, bind.
    apply find_some in Hf1 as [Hin1 Hown1].
    erewrite (updateWhere_present _ _ _ _ Hin1 Hown1).
    unfold ret. f_equal. unfold w1, set_installmentTemplates. cbn. f_equal.
    rewrite map_map. apply map_ext. intros x. unfold g.
    change (PrismaInstallmentTemplateRepository.ownRow tid
              {| now := now w; uuids := uuids w; rng := rng w; tenant := tenant w;
                 installments := installments w; occurrences := occurrences w;
                 installmentTemplates :=
                   map (fun r => if PrismaInstallmentTemplateRepository.ownRow tid w r
                                 then InstallmentTemplate.set_is_active false r
                                 else r) (installmentTemplates w);
                 recurringTemplates := recurringTemplates w;
                 transactions := transactions w; accounts := accounts w |})
      with (PrismaInstallmentTemplateRepository.ownRow tid w).
    destruct (PrismaInstallmentTemplateRepository.ownRow tid w x) eqn:Hx.
    + change (PrismaInstallmentTemplateRepository.ownRow tid w
                (InstallmentTemplate.set_is_active false x))
        with (PrismaInstallmentTemplateRepository.ownRow tid w x).
      rewrite Hx. reflexivity.
    + rewrite Hx. reflexivity.
  - destruct (pay_installment_succeeds input w1 e
                (InstallmentTemplate.set_is_active false tpl))
      as (out & w2 & Hex & Htx & _ & _ & _ & Hout & _).
    + apply installment_findById_hit; [exact Hrow | exact Hre].
    + exact Hcan.
    + apply installmentTemplate_findById_hit;
        [exact Hf1 | apply set_is_active_readable; exact Hrt].
    + exact Hid.
    + exists out, w2. repeat split; assumption.
Qed.

Lemma deactivated_template_still_pays_witness :
  exists w1,
    InstallmentController.deactivateTemplate
      (Installment.template_id (installmentDue (JSDate.ymd 2024 2 1) PENDING None))
      scenarioD
    = (Ok "Template deactivated successfully"%string, w1)
    /\ PrismaInstallmentTemplateRepository.findById
         (Installment.template_id
            (installmentDue (JSDate.ymd 2024 2 1) PENDING None)) w1
       = (Ok (Some (InstallmentTemplate.set_is_active false tvTemplate)), w1)
    /\ InstallmentTemplate.deactivate
         (InstallmentTemplate.set_is_active false tvTemplate)
       = Throw "Template is already inactive"
    /\ InstallmentController.deactivateTemplate
         (Installment.template_id
            (installmentDue (JSDate.ymd 2024 2 1) PENDING None)) w1
       = (Ok "Template deactivated successfully"%string, w1)
    /\ exists out w2,
         PayInstallmentUseCase.execute (payD None) w1 = (Ok out, w2)
         /\ transactions w2
            = transactions scenarioD ++ [PayInstallmentUseCase.transaction out]
         /\ PayInstallmentUseCase.installment out
            = Installment.set_status PAID
                (Some (uuids scenarioD (rng scenarioD)))
                (installmentDue (JSDate.ymd 2024 2 1) PENDING None).
Proof.
  apply (deactivated_template_still_pays (payD None) scenarioD
           (installmentDue (JSDate.ymd 2024 2 1) PENDING None) tvTemplate).
  - vm_compute. reflexivity.
  - vm_compute. reflexivity.
  - vm_compute. reflexivity.
  - vm_compute. discriminate.
Defined.

(** ** Creating an installment purchase *)

Lemma float_pos_not_le0 (a : float) :
  (0 <? a)%float = true -> (a <=? 0)%float = false.
Proof.
  rewrite FloatAxioms.ltb_spec, FloatAxioms.leb_spec.
  change (Prim2SF 0) with (S754_zero false).
  destruct (Prim2SF a) as [s | s | | s m e]; try destruct s; cbn; congruence.
Qed.

Lemma purchase_validateInput_Ok input w :
  acceptedPurchase w input ->
  CreateInstallmentTemplateUseCase.validateInput input w = (Ok tt, w).
Proof.
  intros (Ha & [Hn1 Hn2] & Hday & _).
  unfold CreateInstallmentTemplateUseCase.validateInput.
  rewrite (float_pos_not_le0 _ Ha).
  destruct (Z.ltb_spec (CreateInstallmentTemplateUseCase.total_installments input) 2);
    [lia |].
  destruct (Z.ltb_spec 120 (CreateInstallmentTemplateUseCase.total_installments input));
    [lia |].
  erewrite (bind_Ok newDate) by reflexivity. cbv zeta.
  rewrite !setHours0_Day.
  destruct (Z.ltb_spec
              (JSDate.Day (CreateInstallmentTemplateUseCase.first_due_date input)
               * JSDate.msPerDay)
              (JSDate.Day (now w) * JSDate.msPerDay)) as [Hlt | _];
    [unfold JSDate.msPerDay in Hlt; lia | reflexivity].
Qed.

Lemma purchase_createTemplate_Ok input w :
  acceptedPurchase w input ->
  CreateInstallmentTemplateUseCase.createTemplate input w
  = (Ok (templateOf w input), drawn 1 w).
Proof.
  intros (Ha & [Hn1 Hn2] & _ & Hc & Hp & Hacc & Hcat).
  unfold CreateInstallmentTemplateUseCase.createTemplate,
    createInstallmentTemplate.
  unfold bind at 1. unfold lift at 1.
  unfold InstallmentTemplate.new at 1. unfold InstallmentTemplate.validate at 1.
  cbn [InstallmentTemplate.p_id InstallmentTemplate.p_couple_id
       InstallmentTemplate.p_description InstallmentTemplate.p_total_amount
       InstallmentTemplate.p_total_installments InstallmentTemplate.p_paid_by_id
       InstallmentTemplate.p_account_id InstallmentTemplate.p_category_id
       Zod.opt_uuid negb].
  rewrite Hc, Ha, Hp, Hacc. cbn [negb].
  destruct (Z.ltb_spec (CreateInstallmentTemplateUseCase.total_installments input) 2);
    [lia |].
  destruct (Z.ltb_spec 120 (CreateInstallmentTemplateUseCase.total_installments input));
    [lia |].
  assert (Hnull1 : is_null (orUndefined
                              (CreateInstallmentTemplateUseCase.description input))
                   = false)
    by (destruct (CreateInstallmentTemplateUseCase.description input); reflexivity).
  assert (Hnull2 : is_null (orUndefined
                              (CreateInstallmentTemplateUseCase.category_id input))
                   = false)
    by (destruct (CreateInstallmentTemplateUseCase.category_id input); reflexivity).
  assert (Hcat' : Zod.opt_uuid
                    (nullish_null
                       (orUndefined
                          (CreateInstallmentTemplateUseCase.category_id input)))
                  = true)
    by (destruct (CreateInstallmentTemplateUseCase.category_id input);
        [exact Hcat | reflexivity]).
  rewrite Hnull1, Hnull2, Hcat'. cbn [negb].
  unfold bind at 1. unfold randomUUID at 1. cbv beta iota.
  unfold bind at 1. unfold newDate at 1. cbv beta iota.
  unfold lift, InstallmentTemplate.new, InstallmentTemplate.validate.
  cbn [InstallmentTemplate.p_id InstallmentTemplate.p_couple_id
       InstallmentTemplate.p_description InstallmentTemplate.p_total_amount
       InstallmentTemplate.p_total_installments InstallmentTemplate.p_paid_by_id
       InstallmentTemplate.p_account_id InstallmentTemplate.p_category_id
       Zod.opt_uuid negb].
  rewrite Hc, Ha, Hp, Hacc, Hnull1, Hnull2, Hcat'. cbn [negb].
  destruct (Z.ltb_spec (CreateInstallmentTemplateUseCase.total_installments input) 2);
    [lia |].
  destruct (Z.ltb_spec 120 (CreateInstallmentTemplateUseCase.total_installments input));
    [lia |].
  unfold templateOf, drawn. cbn.
  destruct (CreateInstallmentTemplateUseCase.description input),
    (CreateInstallmentTemplateUseCase.category_id input); reflexivity.
Qed.

(** The mapper rejects a row whose description or category is NULL, once
    the checks that come before in the schema have passed. *)
Lemma template_toDomain_null row w :
  Zod.is_uuid (InstallmentTemplate.id row) = true ->
  Zod.is_uuid (InstallmentTemplate.couple_id row) = true ->
  (0 <? InstallmentTemplate.total_amount row)%float = true ->
  2 <= InstallmentTemplate.total_installments row <= 120 ->
  Zod.is_uuid (InstallmentTemplate.paid_by_id row) = true ->
  Zod.is_uuid (InstallmentTemplate.account_id row) = true ->
  InstallmentTemplate.description row = None
  \/ InstallmentTemplate.category_id row = None ->
  PrismaInstallmentTemplateMapper.toDomain row w
  = (Throw "Expected string, received null", w).
Proof.
  intros Hid Hc Ha [Hn1 Hn2] Hp Hacc Hnull.
  destruct row as [id cid d ta ti p a cat ce fs v f act ca ua].
  unfold PrismaInstallmentTemplateMapper.toDomain, lift,
    InstallmentTemplate.new, InstallmentTemplate.validate. cbn in *.
  rewrite Hid, Hc. cbn.
  destruct d as [d |]; cbn; [| reflexivity].
  rewrite Ha, Hp, Hacc. cbn.
  destruct (Z.ltb_spec ti 2); [lia |]. destruct (Z.ltb_spec 120 ti); [lia |].
  destruct Hnull as [Hd | Hcat]; [discriminate |]. subst cat. reflexivity.
Qed.

(** X16: a template without a description or a category is stored and
    then rejected. The mapper throws on a stored template whose
    description column is NULL; so for an accepted purchase that has no
    description or no category, [CreateInstallmentTemplateUseCase] throws
    after the template row has been written, and no installment is
    created. *)
Theorem template_without_description_is_rejected :
  (forall row w,
     Zod.is_uuid (InstallmentTemplate.id row) = true ->
     Zod.is_uuid (InstallmentTemplate.couple_id row) = true ->
     InstallmentTemplate.description row = None ->
     PrismaInstallmentTemplateMapper.toDomain row w
     = (Throw "Expected string, received null", w))
  /\ (forall input w,
        uuidsValid w ->
        acceptedPurchase w input ->
        CreateInstallmentTemplateUseCase.description input = None
        \/ CreateInstallmentTemplateUseCase.category_id input = None ->
        CreateInstallmentTemplateUseCase.execute input w
        = (Throw "Expected string, received null",
           set_installmentTemplates
             (installmentTemplates w ++ [templateOf w input]) (drawn 1 w)))
  /\ CreateInstallmentTemplateUseCase.execute (purchaseUndescribed 1200 12)
       (emptyWorld (JSDate.ymd 2024 1 1))
     = (Throw "Expected string, received null",
        set_installmentTemplates
          [templateOf (emptyWorld (JSDate.ymd 2024 1 1))
             (purchaseUndescribed 1200 12)]
          (drawn 1 (emptyWorld (JSDate.ymd 2024 1 1)))).
Proof.
  split; [| split].
  - intros row w Hid Hc Hd.
    destruct row as [id cid d ta ti p a cat ce fs v f act ca ua].
    unfold PrismaInstallmentTemplateMapper.toDomain, lift,
      InstallmentTemplate.new, InstallmentTemplate.validate. cbn in *.
    rewrite Hid, Hc. subst d. reflexivity.
  - intros input w Hw Hacc Hnull.
    unfold CreateInstallmentTemplateUseCase.execute.
    erewrite bind_Ok by (apply purchase_validateInput_Ok; exact Hacc).
    erewrite bind_Ok by (apply purchase_createTemplate_Ok; exact Hacc).
    unfold bind at 1. unfold PrismaInstallmentTemplateRepository.create.
    destruct Hacc as (Ha & Hn & _ & Hc & Hp & Hac & _).
    rewrite template_toDomain_null; try assumption; [reflexivity | apply Hw].
  - vm_compute. reflexivity.
Qed.







(** ** Generating occurrences *)

Lemma recurringTemplate_findById_miss id w :
  (forall t,
     In t (recurringTemplates w) -> RecurringTransactionTemplate.id t <> id) ->
  RecurringTransactionTemplateRepository.findById id w = (Ok None, w).
Proof.
  intros H. unfold RecurringTransactionTemplateRepository.findById.
  destruct (find _ (recurringTemplates w)) as [row |] eqn:Hf; [| reflexivity].
  apply find_some in Hf as [Hin Heq]. apply String.eqb_eq in Heq.
  destruct (H row Hin Heq).
Qed.

(** X18: generation for a missing or an inactive template. The use case
    throws [Template not found] when no stored template has the
    identifier, and [Cannot generate occurrences for inactive template]
    when the stored template is inactive; in both cases nothing is
    written, whatever the request's [months_ahead]. *)
Theorem generation_refuses_missing_or_inactive fuel input w :
  ((forall t,
      In t (recurringTemplates w) ->
      RecurringTransactionTemplate.id t
      <> GenerateRecurringOccurrencesUseCase.template_id input) ->
   GenerateRecurringOccurrencesUseCase.execute fuel input w
   = (Throw "Template not found", w))
  /\ (forall tpl,
        RecurringTransactionTemplateRepository.findById
          (GenerateRecurringOccurrencesUseCase.template_id input) w
        = (Ok (Some tpl), w) ->
        RecurringTransactionTemplate.is_active tpl = false ->
        GenerateRecurringOccurrencesUseCase.execute fuel input w
        = (Throw "Cannot generate occurrences for inactive template", w)).
Proof.
  split.
  - intros H. unfold GenerateRecurringOccurrencesUseCase.execute. cbv zeta.
    erewrite bind_Ok by (apply recurringTemplate_findById_miss; exact H).
    reflexivity.
  - intros tpl Hfind Hact. unfold GenerateRecurringOccurrencesUseCase.execute.
    cbv zeta. erewrite bind_Ok by exact Hfind. cbv beta iota.
    rewrite Hact. reflexivity.
Qed.

Lemma Day_mono a b : a <= b -> JSDate.Day a <= JSDate.Day b.
Proof. intros H. unfold JSDate.Day. apply Z.div_le_mono; [reflexivity | exact H]. Qed.

Lemma step_next_day tpl d :
  1 <= RecurringTransactionTemplate.interval tpl ->
  JSDate.Day d < JSDate.Day (step tpl d).
Proof.
  intros Hi. pose proof (step_advances tpl d Hi) as Hs.
  apply Day_mono in Hs.
  replace (d + JSDate.msPerDay) with (d + 1 * JSDate.msPerDay) in Hs by lia.
  rewrite Day_shift in Hs. lia.
Qed.

Lemma cursorsFrom_ge tpl n :
  1 <= RecurringTransactionTemplate.interval tpl ->
  forall c, Forall (fun d => c <= d) (cursorsFrom tpl n c).
Proof.
  intros Hi. induction n as [| n IH]; intros c; simpl; constructor; [lia |].
  pose proof (step_advances tpl c Hi) as Hs.
  eapply Forall_impl; [apply IH |]. intros d Hd; simpl in *.
  unfold JSDate.msPerDay in Hs. lia.
Qed.

(** The cursor dates fall on strictly increasing days. *)
Lemma cursorsFrom_days_increase tpl n :
  1 <= RecurringTransactionTemplate.interval tpl ->
  forall c,
    StronglySorted (fun a b => JSDate.Day a < JSDate.Day b) (cursorsFrom tpl n c).
Proof.
  intros Hi. induction n as [| n IH]; intros c; simpl; constructor; [apply IH |].
  pose proof (step_next_day tpl c Hi) as Hs.
  eapply Forall_impl; [apply (cursorsFrom_ge tpl n Hi) |].
  intros d Hd; simpl in *. apply Day_mono in Hd. lia.
Qed.

Lemma StronglySorted_List_filter {A} (R : A -> A -> Prop) (p : A -> bool) l :
  StronglySorted R l -> StronglySorted R (List.filter p l).
Proof.
  induction 1 as [| x l Hl IH Hx]; simpl; [constructor |].
  destruct (p x); [| exact IH].
  constructor; [exact IH |].
  apply Forall_forall. intros y Hy. apply list_elem_of_In, filter_In in Hy as [Hy _].
  rewrite Forall_forall in Hx. apply Hx, list_elem_of_In, Hy.
Qed.

Lemma newOccurrences_Forall (P : Z -> Prop) w tid dates :
  Forall P dates ->
  forall k,
    Forall (fun o => P (RecurringOccurrence.due_date o)
                     /\ RecurringOccurrence.status o = PENDING
                     /\ RecurringOccurrence.transaction_id o = None
                     /\ RecurringOccurrence.template_id o = tid)
      (newOccurrences w tid k dates).
Proof.
  induction 1 as [| d rest Hd Hrest IH]; intros k; simpl; constructor;
    [repeat split; assumption | apply IH].
Qed.

Lemma newOccurrences_sorted (R : Z -> Z -> Prop) w tid dates :
  StronglySorted R dates ->
  forall k,
    StronglySorted
      (fun a b => R (RecurringOccurrence.due_date a) (RecurringOccurrence.due_date b))
      (newOccurrences w tid k dates).
Proof.
  induction 1 as [| d rest Hrest IH Hd]; intros k; simpl; constructor;
    [apply IH |].
  eapply Forall_impl; [apply (newOccurrences_Forall (R d)); exact Hd |].
  intros o Ho; simpl in *. tauto.
Qed.

(** X19: a run never schedules a calendar day twice. On an active,
    well-formed template, with enough iterations, the generation use case
    succeeds; the occurrences it creates are pending, unlinked and of the
    template, none of them falls on a calendar day that an existing
    occurrence of the template already has, and from one to the next (in
    the order of creation) the day of the due date strictly increases. *)
Theorem generation_never_doubles_a_day w input tpl existing fuel :
  uuidsValid w ->
  RecurringTransactionTemplateRepository.findById
    (GenerateRecurringOccurrencesUseCase.template_id input) w
  = (Ok (Some tpl), w) ->
  RecurringTransactionTemplate.is_active tpl = true ->
  RecurringTransactionTemplate.wf tpl = true ->
  PrismaRecurringOccurrenceRepository.findByTemplateId
    (RecurringTransactionTemplate.id tpl) w = (Ok existing, w) ->
  (fuelFor
     (horizon (now w) tpl
        (orDefault (GenerateRecurringOccurrencesUseCase.months_ahead input) 3))
     (RecurringTransactionTemplate.next_occurrence tpl) <= fuel)%nat ->
  exists out w',
    GenerateRecurringOccurrencesUseCase.execute fuel input w = (Ok (Some out), w')
    /\ Forall
         (fun o =>
            has (setOf (map dateKey existing)) (dateKey o) = false
            /\ RecurringOccurrence.status o = PENDING
            /\ RecurringOccurrence.transaction_id o = None
            /\ RecurringOccurrence.template_id o = RecurringTransactionTemplate.id tpl)
         (GenerateRecurringOccurrencesUseCase.occurrences out)
    /\ StronglySorted
         (fun a b =>
            JSDate.Day (RecurringOccurrence.due_date a)
            < JSDate.Day (RecurringOccurrence.due_date b))
         (rev (GenerateRecurringOccurrencesUseCase.occurrences out)).
Proof.
  intros Hw Hfind Hact Hwf Hex Hfuel.
  destruct (execute_run w input tpl existing fuel Hw Hfind Hact Hwf Hex Hfuel)
    as (n & Hrun & _ & _).
  unfold RecurringTransactionTemplate.wf in Hwf.
  apply andb_prop in Hwf as [_ Hint]. apply Z.leb_le in Hint.
  do 2 eexists. split; [exact Hrun |]. cbn [GenerateRecurringOccurrencesUseCase.occurrences].
  split.
  - apply Forall_forall. intros o Ho.
    apply list_elem_of_In, in_rev, list_elem_of_In in Ho. revert o Ho.
    apply Forall_forall.
    eapply Forall_impl.
    + apply (newOccurrences_Forall
               (fun d => has (setOf (map dateKey existing)) (JSDate.toISODate d)
                         = false)).
      apply Forall_forall. intros d Hd.
      apply list_elem_of_In in Hd. unfold unscheduled in Hd.
      apply filter_In in Hd as [_ Hd]. apply negb_true_iff in Hd. exact Hd.
    + intros o Ho; simpl in *. exact Ho.
  - rewrite rev_involutive.
    apply (newOccurrences_sorted (fun a b => JSDate.Day a < JSDate.Day b)).
    unfold unscheduled. apply StronglySorted_List_filter.
    apply cursorsFrom_days_increase. exact Hint.
Qed.

Lemma generation_never_doubles_a_day_witness :
  exists out w',
    GenerateRecurringOccurrencesUseCase.execute 100 (generateC (Some 3)) scenarioC
    = (Ok (Some out), w')
    /\ Forall
         (fun o =>
            has (setOf (map dateKey [])) (dateKey o) = false
            /\ RecurringOccurrence.status o = PENDING
            /\ RecurringOccurrence.transaction_id o = None
            /\ RecurringOccurrence.template_id o
               = RecurringTransactionTemplate.id monthlyTemplate)
         (GenerateRecurringOccurrencesUseCase.occurrences out)
    /\ StronglySorted
         (fun a b =>
            JSDate.Day (RecurringOccurrence.due_date a)
            < JSDate.Day (RecurringOccurrence.due_date b))
         (rev (GenerateRecurringOccurrencesUseCase.occurrences out)).
Proof.
  apply (generation_never_doubles_a_day scenarioC (generateC (Some 3))
           monthlyTemplate [] 100%nat).
  - apply emptyWorld_uuidsValid.
  - reflexivity.
  - reflexivity.
  - vm_compute. reflexivity.
  - reflexivity.
  - vm_compute. lia.
Defined.

(** ** Creating a recurring transaction *)

Lemma has_empty k : has (setOf []) k = false.
Proof. unfold has, setOf. simpl. apply bool_decide_eq_false. set_solver. Qed.

(** The loop of the creation use case is the loop of the generation use
    case run with no existing date. *)
Lemma create_generateLoop_same tpl endDate fuel :
  forall cur acc w,
    CreateRecurringTransactionUseCase.generateLoop fuel tpl endDate cur acc w
    = GenerateRecurringOccurrencesUseCase.generateLoop fuel tpl (setOf [])
        endDate cur acc w.
Proof.
  induction fuel as [| fuel IH]; intros cur acc w; [reflexivity |].
  simpl. destruct (cur <=? endDate); [| reflexivity].
  rewrite has_empty. cbn [negb].
  unfold bind.
  destruct (createOccurrence (RecurringTransactionTemplate.id tpl) cur w)
    as [[o | msg] w1]; [| reflexivity].
  unfold ret at 1. cbv beta iota zeta.
  change (CreateRecurringTransactionUseCase.calculateNextDate cur
            (RecurringTransactionTemplate.frequency tpl)
            (RecurringTransactionTemplate.interval tpl))
    with (GenerateRecurringOccurrencesUseCase.calculateNextDate cur
            (RecurringTransactionTemplate.frequency tpl)
            (RecurringTransactionTemplate.interval tpl)).
  destruct (RecurringTransactionTemplate.end_date tpl) as [e |]; [| apply IH].
  destruct (e <? _); [reflexivity | apply IH].
Qed.

Lemma cursorsFrom_length tpl n : forall c, length (cursorsFrom tpl n c) = n.
Proof. induction n as [| n IH]; intros c; simpl; [reflexivity | rewrite IH; reflexivity]. Qed.

(** The schedule that the creation use case stores for a well-formed
    template. *)
Lemma create_generateOccurrences_run fuel tpl monthsAhead w :
  uuidsValid w ->
  RecurringTransactionTemplate.wf tpl = true ->
  (fuelFor (horizon (now w) tpl monthsAhead)
     (RecurringTransactionTemplate.next_occurrence tpl) <= fuel)%nat ->
  exists n,
    CreateRecurringTransactionUseCase.generateOccurrences fuel tpl monthsAhead w
    = (Ok (Some
             (rev (newOccurrences w (RecurringTransactionTemplate.id tpl) (rng w)
                     (cursorsFrom tpl n
                        (RecurringTransactionTemplate.next_occurrence tpl))))),
       set_occurrences
         (occurrences w
          ++ newOccurrences w (RecurringTransactionTemplate.id tpl) (rng w)
               (cursorsFrom tpl n
                  (RecurringTransactionTemplate.next_occurrence tpl)))
         (drawn n w))
    /\ Forall (fun d => d <= horizon (now w) tpl monthsAhead)
         (cursorsFrom tpl n (RecurringTransactionTemplate.next_occurrence tpl))
    /\ horizon (now w) tpl monthsAhead
       < cursorAt tpl n (RecurringTransactionTemplate.next_occurrence tpl).
Proof.
  intros Hw Hwf Hfuel.
  unfold RecurringTransactionTemplate.wf in Hwf.
  apply andb_prop in Hwf as [Huuid Hint]. apply Z.leb_le in Hint.
  destruct fuel as [| fuel]; [unfold fuelFor in Hfuel; lia |].
  apply fuelFor_enough in Hfuel.
  set (h := horizon (now w) tpl monthsAhead) in *.
  destruct (generateLoop_spec tpl (setOf []) h Huuid Hint
              (fun e He => horizon_le_end _ _ _ _ He) fuel
              (RecurringTransactionTemplate.next_occurrence tpl) [] w Hfuel)
    as (n & Hrun & Hall & Hend).
  rewrite unscheduled_empty, cursorsFrom_length in Hrun.
  exists n. split; [| split; [exact Hall | exact Hend]].
  unfold CreateRecurringTransactionUseCase.generateOccurrences.
  erewrite bind_Ok by apply create_calculateEndDate_horizon.
  erewrite bind_Ok by (rewrite create_generateLoop_same; exact Hrun).
  cbv beta iota. cbn [app]. rewrite newOccurrences_length, cursorsFrom_length.
  destruct n as [| n].
  - simpl. unfold bind, ret. rewrite drawn_0, app_nil_r, set_occurrences_same.
    reflexivity.
  - replace (0 <? S n)%nat with true by reflexivity.
    erewrite bind_Ok.
    2:{ apply occurrences_createMany.
        apply newOccurrences_readable; [| exact Huuid].
        intros k. apply Hw. }
    reflexivity.
Qed.

(** X20: what creation schedules. For a well-formed template and enough
    iterations, [generateOccurrences] of the creation use case succeeds
    and stores one pending occurrence for every cursor date, starting at
    the template's [next_occurrence] and following the recurrence step, up
    to the horizon; its loop is the loop of the generation use case run
    with no existing date. *)
Theorem creation_schedules_every_cursor_date fuel tpl monthsAhead w :
  uuidsValid w ->
  RecurringTransactionTemplate.wf tpl = true ->
  (fuelFor (horizon (now w) tpl monthsAhead)
     (RecurringTransactionTemplate.next_occurrence tpl) <= fuel)%nat ->
  exists n,
    CreateRecurringTransactionUseCase.generateOccurrences fuel tpl monthsAhead w
    = (Ok (Some
             (rev (newOccurrences w (RecurringTransactionTemplate.id tpl) (rng w)
                     (cursorsFrom tpl n
                        (RecurringTransactionTemplate.next_occurrence tpl))))),
       set_occurrences
         (occurrences w
          ++ newOccurrences w (RecurringTransactionTemplate.id tpl) (rng w)
               (cursorsFrom tpl n
                  (RecurringTransactionTemplate.next_occurrence tpl)))
         (drawn n w))
    /\ Forall (fun d => d <= horizon (now w) tpl monthsAhead)
         (cursorsFrom tpl n (RecurringTransactionTemplate.next_occurrence tpl))
    /\ horizon (now w) tpl monthsAhead
       < cursorAt tpl n (RecurringTransactionTemplate.next_occurrence tpl)
    /\ forall endDate cur acc,
         CreateRecurringTransactionUseCase.generateLoop fuel tpl endDate cur acc w
         = GenerateRecurringOccurrencesUseCase.generateLoop fuel tpl (setOf [])
             endDate cur acc w.
Proof.
  intros Hw Hwf Hfuel.
  destruct (create_generateOccurrences_run fuel tpl monthsAhead w Hw Hwf Hfuel)
    as (n & Hrun & Hall & Hend).
  exists n. split; [exact Hrun |]. split; [exact Hall |]. split; [exact Hend |].
  intros endDate cur acc. apply create_generateLoop_same.
Qed.

Lemma creation_schedules_every_cursor_date_witness :
  exists n,
    CreateRecurringTransactionUseCase.generateOccurrences 100 monthlyTemplate 3
      scenarioC
    = (Ok (Some
             (rev (newOccurrences scenarioC
                     (RecurringTransactionTemplate.id monthlyTemplate)
                     (rng scenarioC)
                     (cursorsFrom monthlyTemplate n
                        (RecurringTransactionTemplate.next_occurrence
                           monthlyTemplate))))),
       set_occurrences
         (occurrences scenarioC
          ++ newOccurrences scenarioC
               (RecurringTransactionTemplate.id monthlyTemplate) (rng scenarioC)
               (cursorsFrom monthlyTemplate n
                  (RecurringTransactionTemplate.next_occurrence monthlyTemplate)))
         (drawn n scenarioC))
    /\ Forall (fun d => d <= horizon (now scenarioC) monthlyTemplate 3)
         (cursorsFrom monthlyTemplate n
            (RecurringTransactionTemplate.next_occurrence monthlyTemplate))
    /\ horizon (now scenarioC) monthlyTemplate 3
       < cursorAt monthlyTemplate n
           (RecurringTransactionTemplate.next_occurrence monthlyTemplate)
    /\ forall endDate cur acc,
         CreateRecurringTransactionUseCase.generateLoop 100 monthlyTemplate
           endDate cur acc scenarioC
         = GenerateRecurringOccurrencesUseCase.generateLoop 100 monthlyTemplate
             (setOf []) endDate cur acc scenarioC.
Proof.
  apply (creation_schedules_every_cursor_date 100%nat monthlyTemplate 3 scenarioC).
  - apply emptyWorld_uuidsValid.
  - vm_compute. reflexivity.
  - vm_compute. lia.
Defined.

(** X21: a recurring transaction that is refused. The creation use case
    throws for a non-positive amount, for an interval below 1, for an end
    date that is not after the start date and, when these checks pass,
    for an account that is not stored; in each of these cases nothing is
    written. *)
Theorem recurring_creation_is_refused fuel input w :
  ((CreateRecurringTransactionUseCase.amount input <=? 0)%float = true ->
   CreateRecurringTransactionUseCase.execute fuel input w
   = (Throw "Amount must be positive", w))
  /\ ((CreateRecurringTransactionUseCase.amount input <=? 0)%float = false ->
      CreateRecurringTransactionUseCase.interval input < 1 ->
      CreateRecurringTransactionUseCase.execute fuel input w
      = (Throw "Interval must be at least 1", w))
  /\ (forall e,
        (CreateRecurringTransactionUseCase.amount input <=? 0)%float = false ->
        1 <= CreateRecurringTransactionUseCase.interval input ->
        CreateRecurringTransactionUseCase.end_date input = Some e ->
        e <= CreateRecurringTransactionUseCase.start_date input ->
        CreateRecurringTransactionUseCase.execute fuel input w
        = (Throw "End date must be after start date", w))
  /\ (CreateRecurringTransactionUseCase.validateInput input w = (Ok tt, w) ->
      (forall a,
         In a (accounts w) ->
         Account.id a <> CreateRecurringTransactionUseCase.account_id input) ->
      CreateRecurringTransactionUseCase.execute fuel input w
      = (Throw "AccountNotFoundException", w)).
Proof.
  unfold CreateRecurringTransactionUseCase.execute,
    CreateRecurringTransactionUseCase.validateInput.
  repeat split.
  - intros Ha. unfold bind at 1. rewrite Ha. reflexivity.
  - intros Ha Hi. unfold bind at 1. rewrite Ha.
    destruct (Z.ltb_spec (CreateRecurringTransactionUseCase.interval input) 1);
      [reflexivity | lia].
  - intros e Ha Hi He Hle. unfold bind at 1. rewrite Ha, He.
    destruct (Z.ltb_spec (CreateRecurringTransactionUseCase.interval input) 1);
      [lia |].
    destruct (Z.leb_spec e (CreateRecurringTransactionUseCase.start_date input));
      [reflexivity | lia].
  - intros Hv Hacc. erewrite bind_Ok by exact Hv.
    unfold bind at 1. unfold AccountRepository.findById.
    destruct (find _ (accounts w)) as [a |] eqn:Hf; [| reflexivity].
    apply find_some in Hf as [Hin Heq]. apply String.eqb_eq in Heq.
    destruct (Hacc a Hin Heq).
Qed.

(** ** Calendar months and the day of the month *)

Section DayOfMonth.

Import JSDate.

Lemma YearFromDay_unique y d :
  DayFromYear y <= d < DayFromYear (y + 1) -> YearFromDay d = y.
Proof.
  intros Hd. pose proof (YearFromDay_spec d) as Hs.
  set (y' := YearFromDay d) in *.
  destruct (Z.lt_trichotomy y' y) as [Hlt | [Heq | Hgt]]; [| exact Heq |].
  - pose proof (DayFromYear_mono (y' + 1) (y - (y' + 1)) ltac:(lia)) as Hm.
    replace (y' + 1 + (y - (y' + 1))) with y in Hm by lia. lia.
  - pose proof (DayFromYear_mono (y + 1) (y' - (y + 1)) ltac:(lia)) as Hm.
    replace (y + 1 + (y' - (y + 1))) with y' in Hm by lia. lia.
Qed.

Lemma daysBeforeMonth_bounds l m :
  0 <= m <= 11 -> 0 <= daysBeforeMonth l m <= 335.
Proof.
  intros Hm. unfold daysBeforeMonth.
  destruct l;
    repeat match goal with |- context [if ?b then _ else _] => destruct b end; lia.
Qed.

Lemma month_of_day l m d :
  0 <= m <= 11 -> 1 <= d <= 28 ->
  let x := daysBeforeMonth l m + d - 1 in
  let k := if l then 1 else 0 in
  (if x <? 31 then 0
   else if x <? 59 + k then 1
   else if x <? 90 + k then 2
   else if x <? 120 + k then 3
   else if x <? 151 + k then 4
   else if x <? 181 + k then 5
   else if x <? 212 + k then 6
   else if x <? 243 + k then 7
   else if x <? 273 + k then 8
   else if x <? 304 + k then 9
   else if x <? 334 + k then 10
   else 11) = m.
Proof.
  intros Hm Hd.
  assert (m = 0 \/ m = 1 \/ m = 2 \/ m = 3 \/ m = 4 \/ m = 5 \/ m = 6
          \/ m = 7 \/ m = 8 \/ m = 9 \/ m = 10 \/ m = 11) as Hcases by lia.
  cbv zeta.
  destruct l;
    repeat (destruct Hcases as [-> | Hcases];
            [cbn [daysBeforeMonth Z.leb Z.eqb Z.compare Pos.compare Pos.compare_cont
                  Pos.eqb];
             repeat match goal with
                    | |- context [?a <? ?b] => destruct (Z.ltb_spec a b); try lia
                    end |]);
    subst;
    cbn [daysBeforeMonth Z.leb Z.eqb Z.compare Pos.compare Pos.compare_cont Pos.eqb];
    repeat match goal with
           | |- context [?a <? ?b] => destruct (Z.ltb_spec a b); try lia
           end.
Qed.

(** The year, the month and the day of the month of a date made of
    them, for a day of the month that every month has. *)
Lemma date_of_MakeDay y m d ms :
  1 <= d <= 28 -> 0 <= ms < msPerDay ->
  YearFromTime (MakeDate (MakeDay y m d) ms) = y + m / 12
  /\ MonthFromTime (MakeDate (MakeDay y m d) ms) = m mod 12
  /\ DateFromTime (MakeDate (MakeDay y m d) ms) = d
  /\ TimeWithinDay (MakeDate (MakeDay y m d) ms) = ms.
Proof.
  intros Hd Hms.
  pose proof (Z.mod_pos_bound m 12 ltac:(lia)) as Hmn.
  set (ym := y + m / 12). set (mn := m mod 12) in *.
  pose proof (daysBeforeMonth_bounds (leapYear ym) mn ltac:(lia)) as Hb.
  assert (Hday : Day (MakeDate (MakeDay y m d) ms) = MakeDay y m d)
    by (unfold MakeDate; apply Day_within; exact Hms).
  assert (Htw : TimeWithinDay (MakeDate (MakeDay y m d) ms) = ms)
    by (unfold MakeDate; apply TimeWithinDay_within; exact Hms).
  assert (Hmk : MakeDay y m d
                = DayFromYear ym + daysBeforeMonth (leapYear ym) mn + d - 1)
    by reflexivity.
  assert (Hyear : YearFromTime (MakeDate (MakeDay y m d) ms) = ym).
  { unfold YearFromTime. rewrite Hday. apply YearFromDay_unique.
    pose proof (DaysInYear_spec ym) as Hdy. unfold DaysInYear in Hdy.
    rewrite Hmk. destruct (leapYear ym); lia. }
  assert (Hdwy : DayWithinYear (MakeDate (MakeDay y m d) ms)
                 = daysBeforeMonth (leapYear ym) mn + d - 1).
  { unfold DayWithinYear. rewrite Hday, Hyear, Hmk. lia. }
  assert (Hmonth : MonthFromTime (MakeDate (MakeDay y m d) ms) = mn).
  { unfold MonthFromTime, InLeapYear. rewrite Hdwy, Hyear.
    apply (month_of_day (leapYear ym) mn d); lia. }
  split; [exact Hyear |]. split; [exact Hmonth |]. split; [| exact Htw].
  unfold DateFromTime, InLeapYear. rewrite Hdwy, Hyear, Hmonth. lia.
Qed.

End DayOfMonth.

(** X22: the day of the month is kept. When the first due date falls on
    one of the days 1 to 28 of its month, installment number [i] is due
    on the same day of the month, [i - 1] calendar months later, at the
    same time of day; and the monthly and yearly steps of a recurrence
    keep the day of the month in the same way. *)
Theorem due_dates_keep_the_day_of_month :
  (forall tpl i due,
     1 <= JSDate.getDate (InstallmentTemplate.first_due_date tpl) <= 28 ->
     InstallmentTemplate.calculateDueDate tpl i = Ok due ->
     JSDate.getDate due = JSDate.getDate (InstallmentTemplate.first_due_date tpl)
     /\ JSDate.getMonth due
        = (JSDate.getMonth (InstallmentTemplate.first_due_date tpl) + (i - 1)) mod 12
     /\ JSDate.getFullYear due
        = JSDate.getFullYear (InstallmentTemplate.first_due_date tpl)
          + (JSDate.getMonth (InstallmentTemplate.first_due_date tpl) + (i - 1)) / 12
     /\ JSDate.TimeWithinDay due
        = JSDate.TimeWithinDay (InstallmentTemplate.first_due_date tpl))
  /\ (forall d k,
        1 <= JSDate.getDate d <= 28 ->
        JSDate.getDate
          (GenerateRecurringOccurrencesUseCase.calculateNextDate d MONTHLY k)
        = JSDate.getDate d
        /\ JSDate.getMonth
             (GenerateRecurringOccurrencesUseCase.calculateNextDate d MONTHLY k)
           = (JSDate.getMonth d + k) mod 12
        /\ JSDate.getFullYear
             (GenerateRecurringOccurrencesUseCase.calculateNextDate d MONTHLY k)
           = JSDate.getFullYear d + (JSDate.getMonth d + k) / 12)
  /\ (forall d k,
        1 <= JSDate.getDate d <= 28 ->
        JSDate.getDate
          (GenerateRecurringOccurrencesUseCase.calculateNextDate d YEARLY k)
        = JSDate.getDate d
        /\ JSDate.getMonth
             (GenerateRecurringOccurrencesUseCase.calculateNextDate d YEARLY k)
           = JSDate.getMonth d
        /\ JSDate.getFullYear
             (GenerateRecurringOccurrencesUseCase.calculateNextDate d YEARLY k)
           = JSDate.getFullYear d + k)
  /\ JSDate.toISODate
       (GenerateRecurringOccurrencesUseCase.calculateNextDate
          (JSDate.ymd 2024 1 31) MONTHLY 1) = "2024-03-02"%string.
Proof.
  assert (Htw : forall t, 0 <= JSDate.TimeWithinDay t < JSDate.msPerDay).
  { intros t. unfold JSDate.TimeWithinDay. apply Z.mod_pos_bound. reflexivity. }
  split; [| split; [| split]].
  - intros tpl i due Hd Hdue.
    unfold InstallmentTemplate.calculateDueDate in Hdue.
    destruct ((i <? 1) || (InstallmentTemplate.total_installments tpl <? i));
      [discriminate |].
    cbv zeta in Hdue. injection Hdue as <-.
    unfold JSDate.getDate, JSDate.getMonth, JSDate.getFullYear, JSDate.setMonth in *.
    destruct (date_of_MakeDay
                (JSDate.YearFromTime (InstallmentTemplate.first_due_date tpl))
                (JSDate.MonthFromTime (InstallmentTemplate.first_due_date tpl)
                 + (i - 1))
                (JSDate.DateFromTime (InstallmentTemplate.first_due_date tpl))
                (JSDate.TimeWithinDay (InstallmentTemplate.first_due_date tpl))
                Hd (Htw _)) as (Hy & Hm & Hdt & Ht).
    repeat split; assumption.
  - intros d k Hd.
    unfold GenerateRecurringOccurrencesUseCase.calculateNextDate,
      JSDate.getDate, JSDate.getMonth, JSDate.getFullYear, JSDate.setMonth in *.
    destruct (date_of_MakeDay (JSDate.YearFromTime d)
                (JSDate.MonthFromTime d + k) (JSDate.DateFromTime d)
                (JSDate.TimeWithinDay d) Hd (Htw _)) as (Hy & Hm & Hdt & _).
    repeat split; assumption.
  - intros d k Hd.
    unfold GenerateRecurringOccurrencesUseCase.calculateNextDate,
      JSDate.getDate, JSDate.getMonth, JSDate.getFullYear, JSDate.setFullYear in *.
    pose proof (MonthFromTime_range d) as Hmr.
    destruct (date_of_MakeDay (JSDate.YearFromTime d + k)
                (JSDate.MonthFromTime d) (JSDate.DateFromTime d)
                (JSDate.TimeWithinDay d) Hd (Htw _)) as (Hy & Hm & Hdt & _).
    rewrite Z.div_small in Hy by lia. rewrite Z.mod_small in Hm by lia.
    rewrite Z.add_0_r in Hy. repeat split; assumption.
  - vm_compute. reflexivity.
Qed.




(** ** Listing templates *)

Lemma templates_toDomain_inv l :
  forall w l' w',
    traverseM PrismaInstallmentTemplateMapper.toDomain l w = (Ok l', w') ->
    w' = w /\ l' = l.
Proof.
  induction l as [| x l IH]; intros w l' w' H.
  - injection H as <- <-. split; reflexivity.
  - simpl in H. unfold bind at 1 in H.
    destruct (PrismaInstallmentTemplateMapper.toDomain x w) as [[y | m] w1] eqn:Hx;
      [| discriminate].
    apply template_toDomain_Ok in Hx as (-> & -> & _).
    unfold bind at 1 in H.
    destruct (traverseM _ l w) as [[ys | m] w2] eqn:Hl; [| discriminate].
    apply IH in Hl as (-> & ->). injection H as <- <-. split; reflexivity.
Qed.

#[local] Instance byFirstDueDate_total :
  Total PrismaInstallmentTemplateRepository.byFirstDueDate.
Proof. intros a b. unfold PrismaInstallmentTemplateRepository.byFirstDueDate. lia. Qed.

#[local] Instance byFirstDueDate_trans :
  Transitive PrismaInstallmentTemplateRepository.byFirstDueDate.
Proof.
  intros a b c. unfold PrismaInstallmentTemplateRepository.byFirstDueDate. lia.
Qed.

Lemma removelast_take {A} (l : list A) n :
  (S n <= length l)%nat -> removelast (take (S n) l) = take n l.
Proof.
  intros Hn. destruct (l !! n) as [x |] eqn:Hx.
  - rewrite (take_S_r _ _ _ Hx). apply removelast_last.
  - apply lookup_ge_None in Hx. lia.
Qed.

Lemma filter_nonempty_existsb {A} (p : A -> bool) (l : list A) :
  (0 <? Z.of_nat (length (List.filter p l))) = existsb p l.
Proof.
  induction l as [| x l IH]; [reflexivity |]. simpl.
  destruct (p x); simpl; [| exact IH].
  apply Z.ltb_lt. lia.
Qed.

(** X24: the template list is capped. The list endpoint, which passes no
    page size and no cursor, returns at most 20 templates: active ones of
    the couple, stored ones, in the order of their first due dates.
    [hasMore] tells whether the couple has more than 20 active templates;
    if not, every active template of the couple is in the list and there
    is no next cursor; if so, the list holds exactly 20 templates and the
    next cursor is the identifier of the last one. [hasInactiveTemplates]
    tells whether the couple has an inactive template. *)
Theorem template_list_is_capped atCursor coupleId w page w' :
  InstallmentController.listTemplates atCursor coupleId w = (Ok page, w') ->
  w' = w
  /\ (length (InstallmentTemplatePagination.data page) <= 20)%nat
  /\ (forall t,
        In t (InstallmentTemplatePagination.data page) ->
        In t (installmentTemplates w)
        /\ InstallmentTemplate.couple_id t = coupleId
        /\ InstallmentTemplate.is_active t = true)
  /\ Sorted PrismaInstallmentTemplateRepository.byFirstDueDate
       (InstallmentTemplatePagination.data page)
  /\ (exists c,
        PrismaInstallmentTemplateRepository.countActiveByCoupleId coupleId w
        = (Ok c, w)
        /\ InstallmentTemplatePagination.hasMore page = (20 <? c))
  /\ (InstallmentTemplatePagination.hasMore page = false ->
      InstallmentTemplatePagination.nextCursor page = None
      /\ forall t,
           In t (installmentTemplates w) ->
           InstallmentTemplate.couple_id t = coupleId ->
           InstallmentTemplate.is_active t = true ->
           In t (InstallmentTemplatePagination.data page))
  /\ (InstallmentTemplatePagination.hasMore page = true ->
      length (InstallmentTemplatePagination.data page) = 20%nat
      /\ exists t,
           last (InstallmentTemplatePagination.data page) = Some t
           /\ InstallmentTemplatePagination.nextCursor page
              = Some (InstallmentTemplate.id t))
  /\ InstallmentTemplatePagination.hasInactiveTemplates page
     = existsb
         (fun r => String.eqb (InstallmentTemplate.couple_id r) coupleId
                   && negb (InstallmentTemplate.is_active r))
         (installmentTemplates w).
Proof.
  unfold InstallmentController.listTemplates,
    InstallmentTemplatePagination.findByCoupleId,
    PrismaInstallmentTemplateRepository.countActiveByCoupleId.
  cbv zeta. cbn [orDefault falsy nullish].
  unfold InstallmentTemplatePagination.takeRows.
  change (0 <=? 20 + 1) with true. cbv iota.
  change (Z.to_nat (20 + 1)) with 21%nat.
  set (act := fun r : InstallmentTemplate.t =>
                String.eqb (InstallmentTemplate.couple_id r) coupleId
                && InstallmentTemplate.is_active r).
  set (A := List.filter act (installmentTemplates w)).
  set (L := merge_sort PrismaInstallmentTemplateRepository.byFirstDueDate A).
  assert (Hlen : length L = length A)
    by (unfold L; rewrite merge_sort_Permutation; reflexivity).
  assert (HinL : forall t, In t L <-> In t (installmentTemplates w) /\ act t = true)
    by (intros t; unfold L; rewrite in_merge_sort; unfold A; apply filter_In).
  assert (Hact : forall t, act t = true
                           <-> InstallmentTemplate.couple_id t = coupleId
                               /\ InstallmentTemplate.is_active t = true)
    by (intros t; unfold act; rewrite andb_true_iff, String.eqb_eq; reflexivity).
  assert (HsL : StronglySorted PrismaInstallmentTemplateRepository.byFirstDueDate L)
    by (unfold L; apply StronglySorted_merge_sort; typeclasses eauto).
  assert (Hpre : forall n, StronglySorted
                             PrismaInstallmentTemplateRepository.byFirstDueDate
                             (take n L)).
  { intros n. rewrite <- (take_drop n L) in HsL.
    eapply StronglySorted_app_1_l. exact HsL. }
  assert (Hsub : forall n t, In t (take n L) -> In t L).
  { intros n t Ht. rewrite <- (take_drop n L). apply in_or_app. left. exact Ht. }
  rewrite length_take.
  destruct (Z.ltb_spec 20 (Z.of_nat (21 `min` length L))) as [Hmore | Hless].
  - assert (Hbig : (21 <= length L)%nat) by lia.
    rewrite (removelast_take L 20 Hbig).
    assert (Hl20 : length (take 20 L) = 20%nat) by (rewrite length_take; lia).
    destruct (last (take 20 L)) as [t |] eqn:Hlast.
    2:{ rewrite last_lookup, Hl20 in Hlast. simpl in Hlast.
        apply lookup_ge_None in Hlast. lia. }
    cbn [option_map]. unfold bind.
    destruct (traverseM PrismaInstallmentTemplateMapper.toDomain (take 20 L) w)
      as [[d | m] w1] eqn:Ht; [| discriminate].
    apply templates_toDomain_inv in Ht as (-> & ->).
    unfold ret. intros H. injection H as <- <-. cbn.
    split; [reflexivity |]. split; [lia |].
    split; [intros x Hx; apply Hsub, HinL in Hx as [Hx Ha]; apply Hact in Ha; tauto |].
    split; [apply StronglySorted_Sorted, Hpre |].
    split; [eexists; split; [reflexivity |];
            symmetry; apply Z.ltb_lt; fold A; lia |].
    split; [discriminate |].
    split; [intros _; split; [exact Hl20 | exists t; split; [exact Hlast | reflexivity]] |].
    apply filter_nonempty_existsb.
  - assert (Hsmall : (length L <= 20)%nat) by lia.
    rewrite (take_ge L 21) by lia. unfold bind.
    destruct (traverseM PrismaInstallmentTemplateMapper.toDomain L w)
      as [[d | m] w1] eqn:Ht; [| discriminate].
    apply templates_toDomain_inv in Ht as (-> & ->).
    unfold ret. intros H. injection H as <- <-. cbn.
    split; [reflexivity |]. split; [exact Hsmall |].
    split; [intros x Hx; apply HinL in Hx as [Hx Ha]; apply Hact in Ha; tauto |].
    split; [apply StronglySorted_Sorted, HsL |].
    split; [eexists; split; [reflexivity |];
            symmetry; apply Z.ltb_ge; fold A; lia |].
    split; [intros _; split; [reflexivity |];
            intros x Hx Hc Ha; apply HinL; split; [exact Hx | apply Hact; tauto] |].
    split; [discriminate |].
    apply filter_nonempty_existsb.
Qed.

Lemma template_list_is_capped_witness :
  scenarioD = scenarioD
  /\ (length (InstallmentTemplatePagination.data pageD) <= 20)%nat
  /\ (forall t,
        In t (InstallmentTemplatePagination.data pageD) ->
        In t (installmentTemplates scenarioD)
        /\ InstallmentTemplate.couple_id t = coupleId
        /\ InstallmentTemplate.is_active t = true)
  /\ Sorted PrismaInstallmentTemplateRepository.byFirstDueDate
       (InstallmentTemplatePagination.data pageD)
  /\ (exists c,
        PrismaInstallmentTemplateRepository.countActiveByCoupleId coupleId scenarioD
        = (Ok c, scenarioD)
        /\ InstallmentTemplatePagination.hasMore pageD = (20 <? c))
  /\ (InstallmentTemplatePagination.hasMore pageD = false ->
      InstallmentTemplatePagination.nextCursor pageD = None
      /\ forall t,
           In t (installmentTemplates scenarioD) ->
           InstallmentTemplate.couple_id t = coupleId ->
           InstallmentTemplate.is_active t = true ->
           In t (InstallmentTemplatePagination.data pageD))
  /\ (InstallmentTemplatePagination.hasMore pageD = true ->
      length (InstallmentTemplatePagination.data pageD) = 20%nat
      /\ exists t,
           last (InstallmentTemplatePagination.data pageD) = Some t
           /\ InstallmentTemplatePagination.nextCursor pageD
              = Some (InstallmentTemplate.id t))
  /\ InstallmentTemplatePagination.hasInactiveTemplates pageD
     = existsb
         (fun r => String.eqb (InstallmentTemplate.couple_id r) coupleId
                   && negb (InstallmentTemplate.is_active r))
         (installmentTemplates scenarioD).
Proof.
  apply (template_list_is_capped (fun _ _ rows => rows) coupleId scenarioD).
  vm_compute. reflexivity.
Defined.

(** ** Templates of another couple *)

Lemma ownRow_foreign id w :
  (forall t,
     In t (installmentTemplates w) -> InstallmentTemplate.id t = id ->
     InstallmentTemplate.couple_id t <> tenant w) ->
  forall r,
    In r (installmentTemplates w) ->
    PrismaInstallmentTemplateRepository.ownRow id w r = false.
Proof.
  intros H r Hr. unfold PrismaInstallmentTemplateRepository.ownRow.
  destruct (String.eqb_spec (InstallmentTemplate.id r) id) as [Hid | _];
    [| reflexivity].
  apply String.eqb_neq. apply H; assumption.
Qed.

(** X25: a template of another couple is out of reach. When every stored
    template with the identifier belongs to a couple other than the one
    of the request, the template endpoints behave as if it did not exist:
    reading it returns [null], activating, deactivating and deleting it
    throw, and nothing is written. *)
Theorem foreign_template_is_out_of_reach templateId w :
  (forall t,
     In t (installmentTemplates w) -> InstallmentTemplate.id t = templateId ->
     InstallmentTemplate.couple_id t <> tenant w) ->
  InstallmentController.getTemplate templateId w = (Ok None, w)
  /\ InstallmentController.deactivateTemplate templateId w
     = (Throw "Record to update not found.", w)
  /\ InstallmentController.activateTemplate templateId w
     = (Throw "Record to update not found.", w)
  /\ InstallmentController.deleteTemplate templateId w
     = (Throw "Record to delete does not exist.", w).
Proof.
  intros H. pose proof (ownRow_foreign templateId w H) as Hown.
  split; [apply installmentTemplate_findById_miss; exact H |].
  unfold InstallmentController.deactivateTemplate,
    InstallmentController.activateTemplate, InstallmentController.deleteTemplate,
    PrismaInstallmentTemplateRepository.deactivate,
    PrismaInstallmentTemplateRepository.activate,
    PrismaInstallmentTemplateRepository.delete, bind.
  rewrite !updateWhere_absent by exact Hown.
  repeat split.
  destruct (existsb _ (installmentTemplates w)) eqn:He; [| reflexivity].
  apply existsb_exists in He as (r & Hr & Hp). rewrite (Hown r Hr) in Hp.
  discriminate.
Qed.

Lemma foreign_template_is_out_of_reach_witness :
  InstallmentController.getTemplate templateId (set_tenant payerId scenarioD)
  = (Ok None, set_tenant payerId scenarioD)
  /\ InstallmentController.deactivateTemplate templateId
       (set_tenant payerId scenarioD)
     = (Throw "Record to update not found.", set_tenant payerId scenarioD)
  /\ InstallmentController.activateTemplate templateId
       (set_tenant payerId scenarioD)
     = (Throw "Record to update not found.", set_tenant payerId scenarioD)
  /\ InstallmentController.deleteTemplate templateId (set_tenant payerId scenarioD)
     = (Throw "Record to delete does not exist.", set_tenant payerId scenarioD).
Proof.
  apply (foreign_template_is_out_of_reach templateId (set_tenant payerId scenarioD)).
  intros t [<- | []] _. vm_compute. discriminate.
Defined.

(** ** Settling occurrences *)

Lemma occurrence_readable_of_new u n row o :
  RecurringOccurrence.new u n (RecurringOccurrence.toProps row) = Ok o ->
  readable row.
Proof.
  unfold RecurringOccurrence.new.
  destruct (RecurringOccurrence.validate _) as [p |] eqn:Hv; [| discriminate].
  intros _. unfold RecurringOccurrence.validate in Hv. simpl in Hv.
  unfold readable.
  destruct (Zod.is_uuid (RecurringOccurrence.id row)); [| discriminate].
  destruct (Zod.is_uuid (RecurringOccurrence.template_id row)); [| discriminate].
  destruct (Zod.opt_uuid (RecurringOccurrence.transaction_id row)); [| discriminate].
  repeat split.
Qed.

Lemma occurrence_findById_readable id w o w' :
  PrismaRecurringOccurrenceRepository.findById id w = (Ok (Some o), w') ->
  readable o.
Proof.
  unfold PrismaRecurringOccurrenceRepository.findById.
  destruct (find _ (occurrences w)) as [row |]; [| discriminate].
  unfold bind, PrismaRecurringOccurrenceMapper.toDomain, lift, ret.
  destruct (RecurringOccurrence.new _ _ _) as [i |] eqn:Hnew; [| discriminate].
  pose proof (occurrence_readable_of_new _ _ _ _ Hnew) as Hr.
  apply occurrence_new_toProps_inv in Hnew as ->.
  intros H. injection H as <- _. exact Hr.
Qed.

Lemma occurrence_findById_hit id w row :
  find (fun r => String.eqb (RecurringOccurrence.id r) id) (occurrences w)
  = Some row ->
  readable row ->
  PrismaRecurringOccurrenceRepository.findById id w = (Ok (Some row), w).
Proof.
  intros Hf Hr. unfold PrismaRecurringOccurrenceRepository.findById. rewrite Hf.
  unfold bind, PrismaRecurringOccurrenceMapper.toDomain, lift.
  rewrite occurrence_new_toProps by exact Hr. reflexivity.
Qed.

Lemma occurrence_findById_cases id w row :
  find (fun r => String.eqb (RecurringOccurrence.id r) id) (occurrences w)
  = Some row ->
  PrismaRecurringOccurrenceRepository.findById id w = (Ok (Some row), w)
  \/ exists msg,
       PrismaRecurringOccurrenceRepository.findById id w = (Throw msg, w).
Proof.
  intros Hf. unfold PrismaRecurringOccurrenceRepository.findById. rewrite Hf.
  unfold bind, PrismaRecurringOccurrenceMapper.toDomain, lift, ret.
  destruct (RecurringOccurrence.new _ _ _) as [i | msg] eqn:Hnew.
  - apply occurrence_new_toProps_inv in Hnew as ->. left. reflexivity.
  - right. exists msg. reflexivity.
Qed.

Lemma pay_occurrence_settled_row input w row :
  find (fun r => String.eqb (RecurringOccurrence.id r)
                   (PayRecurringOccurrenceUseCase.occurrence_id input))
    (occurrences w) = Some row ->
  RecurringOccurrence.status row <> PENDING ->
  (exists msg, PayRecurringOccurrenceUseCase.execute input w = (Throw msg, w))
  /\ (readable row ->
      PayRecurringOccurrenceUseCase.execute input w
      = (Throw (match RecurringOccurrence.status row with
                | PAID => "Occurrence is already paid"
                | _ => "Cannot pay skipped occurrence"
                end), w)).
Proof.
  intros Hf Hst.
  assert (Hcan : RecurringOccurrence.canBePaid (now w) row = false).
  { unfold RecurringOccurrence.canBePaid, RecurringOccurrence.isPending.
    destruct (RecurringOccurrence.status row);
      [congruence | reflexivity | reflexivity]. }
  assert (Hhit : PrismaRecurringOccurrenceRepository.findById
                   (PayRecurringOccurrenceUseCase.occurrence_id input) w
                 = (Ok (Some row), w) ->
                 PayRecurringOccurrenceUseCase.execute input w
                 = (Throw (match RecurringOccurrence.status row with
                           | PAID => "Occurrence is already paid"
                           | _ => "Cannot pay skipped occurrence"
                           end), w)).
  { intros Hfind.
    destruct (pay_occurrence_refused w input row Hfind Hcan)
      as [[Hs H] | [[Hs H] | [Hs _]]]; [| | congruence];
      rewrite H, Hs; reflexivity. }
  split.
  - destruct (occurrence_findById_cases _ _ _ Hf) as [Hfind | [msg Hfind]].
    + eexists. apply Hhit. exact Hfind.
    + exists msg. unfold PayRecurringOccurrenceUseCase.execute. unfold bind at 1.
      rewrite Hfind. reflexivity.
  - intros Hr. apply Hhit. apply occurrence_findById_hit; assumption.
Qed.

Lemma skipOccurrence_row id w msg w' :
  RecurringOccurrenceController.skipOccurrence id w = (Ok msg, w') ->
  exists r,
    find (fun x => String.eqb (RecurringOccurrence.id x) id) (occurrences w)
    = Some r
    /\ find (fun x => String.eqb (RecurringOccurrence.id x) id) (occurrences w')
       = Some (RecurringOccurrence.set_status SKIPPED
                 (RecurringOccurrence.transaction_id r) r).
Proof.
  unfold RecurringOccurrenceController.skipOccurrence,
    PrismaRecurringOccurrenceRepository.markAsSkipped, bind.
  destruct (updateWhere _ _ _) as [rows |] eqn:Hu; [| discriminate].
  apply updateWhere_Ok in Hu as (-> & r & Hr & Hp).
  unfold ret. intros H. injection H as _ <-.
  destruct (find (fun x => String.eqb (RecurringOccurrence.id x) id) (occurrences w))
    as [r0 |] eqn:Hf.
  - exists r0. split; [reflexivity |]. cbn [occurrences set_occurrences].
    rewrite (find_map_update (fun x => String.eqb (RecurringOccurrence.id x) id)
               (fun x => RecurringOccurrence.set_status SKIPPED
                           (RecurringOccurrence.transaction_id x) x))
      by reflexivity.
    rewrite Hf. reflexivity.
  - exfalso. apply (find_none _ _ Hf) in Hr. rewrite Hp in Hr. discriminate.
Qed.

(** X26: an occurrence is settled once. After
    [PayRecurringOccurrenceUseCase] has succeeded for an occurrence,
    running it again throws and writes nothing, with [Occurrence is
    already paid] when the transaction's identifier is a UUID; and after
    the skip endpoint has succeeded for an occurrence, paying it throws
    and writes nothing, with [Cannot pay skipped occurrence] when the
    occurrence could be read before the skip. *)
Theorem occurrence_is_settled_once input w :
  (forall out w',
     PayRecurringOccurrenceUseCase.execute input w = (Ok out, w') ->
     (exists msg, PayRecurringOccurrenceUseCase.execute input w' = (Throw msg, w'))
     /\ (Zod.is_uuid
           (Transaction.id (PayRecurringOccurrenceUseCase.transaction out)) = true ->
         PayRecurringOccurrenceUseCase.execute input w'
         = (Throw "Occurrence is already paid", w')))
  /\ (forall msg w',
        RecurringOccurrenceController.skipOccurrence
          (PayRecurringOccurrenceUseCase.occurrence_id input) w = (Ok msg, w') ->
        (exists m, PayRecurringOccurrenceUseCase.execute input w' = (Throw m, w'))
        /\ (forall e,
              PrismaRecurringOccurrenceRepository.findById
                (PayRecurringOccurrenceUseCase.occurrence_id input) w
              = (Ok (Some e), w) ->
              PayRecurringOccurrenceUseCase.execute input w'
              = (Throw "Cannot pay skipped occurrence", w')))
  /\ (exists m,
        PayRecurringOccurrenceUseCase.execute (payD' None)
          (snd (PayRecurringOccurrenceUseCase.execute (payD' None) scenarioD'))
        = (Throw m,
           snd (PayRecurringOccurrenceUseCase.execute (payD' None) scenarioD'))
        /\ m = "Occurrence is already paid"%string
        /\ isOk (fst (PayRecurringOccurrenceUseCase.execute (payD' None) scenarioD'))
           = true).
Proof.
  split; [| split].
  - intros out w' H.
    apply pay_occurrence_settles in H
      as (e & tpl & Hfind & _ & _ & _ & _ & Hout & _ & Hrow).
    pose proof (occurrence_findById_readable _ _ _ _ Hfind) as Hre.
    assert (Hst : RecurringOccurrence.status
                    (PayRecurringOccurrenceUseCase.occurrence out) <> PENDING)
      by (rewrite Hout; discriminate).
    destruct (pay_occurrence_settled_row input w' _ Hrow Hst) as [Hany Hmsg].
    split; [exact Hany |].
    intros Hu. rewrite Hmsg.
    + rewrite Hout. reflexivity.
    + rewrite Hout. destruct Hre as (H1 & H2 & _). repeat split; assumption.
  - intros msg w' H. apply skipOccurrence_row in H as (r & Hf & Hf').
    assert (Hst : RecurringOccurrence.status
                    (RecurringOccurrence.set_status SKIPPED
                       (RecurringOccurrence.transaction_id r) r) <> PENDING)
      by discriminate.
    destruct (pay_occurrence_settled_row input w' _ Hf' Hst) as [Hany Hmsg].
    split; [exact Hany |].
    intros e He.
    pose proof (occurrence_findById_readable _ _ _ _ He) as Hre.
    apply occurrence_findById_inv in He as [_ He]. rewrite Hf in He.
    injection He as ->.
    rewrite Hmsg; [reflexivity |].
    destruct Hre as (H1 & H2 & H3). repeat split; assumption.
  - eexists. split; [vm_compute; reflexivity |]. split; reflexivity.
Qed.

(** ** An installment purchase and its template *)

Lemma purchase_validateInput_agree input v w :
  CreateInstallmentTransactionUseCase.validateInput input w = (Ok tt, w) ->
  CreateInstallmentTemplateUseCase.validateInput (asTemplateInput input v) w
  = (Ok tt, w).
Proof.
  unfold CreateInstallmentTransactionUseCase.validateInput,
    CreateInstallmentTemplateUseCase.validateInput, asTemplateInput.
  cbn [CreateInstallmentTemplateUseCase.total_amount
       CreateInstallmentTemplateUseCase.total_installments
       CreateInstallmentTemplateUseCase.first_due_date].
  destruct (CreateInstallmentTransactionUseCase.total_installments input <? 2);
    [discriminate |].
  destruct (120 <? CreateInstallmentTransactionUseCase.total_installments input);
    [discriminate |].
  destruct (CreateInstallmentTransactionUseCase.total_amount input <=? 0)%float;
    [discriminate |].
  unfold bind, newDate. cbv zeta.
  destruct (_ <? _); [discriminate | reflexivity].
Qed.

(** X27: a purchase without a first payment is the creation of its
    template. On a stored account and for a request that passes
    validation, [CreateInstallmentTransactionUseCase] without
    [pay_first_installment] does what [CreateInstallmentTemplateUseCase]
    does for the same values and the visibility that follows from the
    account: the same world afterwards, the same template and
    installments or the same error, and no first transaction. For an
    account that is not stored it throws and writes nothing. *)
Theorem purchase_is_template_creation input w :
  (forall acc,
     AccountRepository.findById
       (CreateInstallmentTransactionUseCase.account_id input) w
     = (Ok (Some acc), w) ->
     CreateInstallmentTransactionUseCase.validateInput input w = (Ok tt, w) ->
     CreateInstallmentTransactionUseCase.pay_first_installment input = false ->
     match
       CreateInstallmentTemplateUseCase.execute
         (asTemplateInput input
            (visibilityOn (CreateInstallmentTransactionUseCase.visibility input)
               acc)) w
     with
     | (Ok out, w') =>
         CreateInstallmentTransactionUseCase.execute input w
         = (Ok {| CreateInstallmentTransactionUseCase.template :=
                    CreateInstallmentTemplateUseCase.template out;
                  CreateInstallmentTransactionUseCase.installments :=
                    CreateInstallmentTemplateUseCase.installments out;
                  CreateInstallmentTransactionUseCase.first_transaction := None |},
            w')
     | (Throw msg, w') =>
         CreateInstallmentTransactionUseCase.execute input w = (Throw msg, w')
     end)
  /\ (CreateInstallmentTransactionUseCase.validateInput input w = (Ok tt, w) ->
      (forall a,
         In a (accounts w) ->
         Account.id a <> CreateInstallmentTransactionUseCase.account_id input) ->
      CreateInstallmentTransactionUseCase.execute input w
      = (Throw "AccountNotFoundException", w))
  /\ (exists out w',
        CreateInstallmentTransactionUseCase.execute tvPurchase scenarioRent
        = (Ok out, w')
        /\ length (CreateInstallmentTransactionUseCase.installments out) = 12%nat
        /\ InstallmentTemplate.visibility
             (CreateInstallmentTransactionUseCase.template out) = SHARED
        /\ transactions w' = []).
Proof.
  split; [| split].
  - intros acc Hacc Hv Hpay.
    pose proof (purchase_validateInput_agree input
                  (visibilityOn
                     (CreateInstallmentTransactionUseCase.visibility input) acc)
                  w Hv) as Hv'.
    unfold CreateInstallmentTemplateUseCase.execute,
      CreateInstallmentTransactionUseCase.execute.
    erewrite (bind_Ok (CreateInstallmentTransactionUseCase.validateInput input))
      by exact Hv.
    erewrite (bind_Ok (AccountRepository.findById _)) by exact Hacc.
    cbv beta iota zeta.
    erewrite (bind_Ok (CreateInstallmentTemplateUseCase.validateInput _))
      by exact Hv'.
    change (CreateInstallmentTemplateUseCase.createTemplate
              (asTemplateInput input
                 (visibilityOn
                    (CreateInstallmentTransactionUseCase.visibility input) acc)))
      with (CreateInstallmentTransactionUseCase.createTemplate input
              (visibilityOn
                 (CreateInstallmentTransactionUseCase.visibility input) acc)).
    unfold visibilityOn. unfold bind.
    destruct (CreateInstallmentTransactionUseCase.createTemplate input _ w)
      as [[tpl | m] w1]; [| reflexivity].
    destruct (PrismaInstallmentTemplateRepository.create tpl w1)
      as [[ct | m] w2]; [| reflexivity].
    change (CreateInstallmentTemplateUseCase.generateInstallments ct)
      with (CreateInstallmentTransactionUseCase.generateInstallments ct).
    destruct (CreateInstallmentTransactionUseCase.generateInstallments ct w2)
      as [[g | m] w3]; [| reflexivity].
    destruct (PrismaInstallmentRepository.createMany g w3)
      as [[ci | m] w4]; [| reflexivity].
    rewrite Hpay. destruct ci; reflexivity.
  - intros Hv Hacc. unfold CreateInstallmentTransactionUseCase.execute.
    erewrite bind_Ok by exact Hv.
    unfold bind at 1. unfold AccountRepository.findById.
    destruct (find _ (accounts w)) as [a |] eqn:Hf; [| reflexivity].
    apply find_some in Hf as [Hin Heq]. apply String.eqb_eq in Heq.
    destruct (Hacc a Hin Heq).
  - match eval vm_compute in
          (CreateInstallmentTransactionUseCase.execute tvPurchase scenarioRent)
    with
    | (Ok ?o, ?w1) =>
        exists o, w1; split; [vm_compute; reflexivity |];
        repeat split; vm_compute; reflexivity
    end.
Qed.
